(** * CUPyDO, FSICoupler.py: interface interpolators and coupling algorithms

    A shallow embedding of the Python core of CUPyDO (cupydo/FSICoupler.py):
    the interface interpolators (matching, conservative, consistent) and the
    fixed-point coupling algorithms (Block-Gauss-Seidel with static or Aitken
    relaxation, IQN-ILS, the thermal Block-Gauss-Seidel scheme) together with
    the outer time loop of [Algorithm.run] and the fake driver
    [FsiSolidTestAlgorithm].

    Python floats are idealised as real numbers, Python integers are [Z],
    objects are records, [None] is [option].  The fluid and solid solvers,
    the convergence criterion, MPI and numpy/scipy are collaborators of the
    file: they appear as an interface ([Collaborators]) whose hidden state is
    threaded through the algorithms. *)

From Stdlib Require Import ZArith List String Bool Reals Lra Lia.
Import ListNotations.

(** ** Exceptions and results *)

Inductive exn : Type :=
| Exception (msg : string)
| NameError (msg : string)
| TypeError (msg : string)
| AttributeError (msg : string)
| ZeroDivisionError (msg : string)
| SolverError (msg : string).

Inductive result (A : Type) : Type :=
| Ok (a : A)
| Raise (e : exn).

Arguments Ok {A} a.
Arguments Raise {A} e.

Definition is_ok {A : Type} (r : result A) : bool :=
  match r with Ok _ => true | Raise _ => false end.

(** ** Membership tests on Python lists *)

Definition in_strings (x : option string) (l : list string) : bool :=
  match x with
  | Some s => existsb (String.eqb s) l
  | None => false
  end.

Definition in_procs (p : Z) (l : list Z) : bool := existsb (Z.eqb p) l.

Definition str_is (x : option string) (s : string) : bool :=
  match x with
  | Some t => String.eqb t s
  | None => false
  end.

(** ** Interface fields *)

Module FlexInterfaceData.

(** Modelled from the spec: the class FlexInterfaceData is used by every
    class of FSICoupler.py but defined outside it.  The spec (4.1) describes
    a dense field of [nDim] values per interface node, zero-initialised,
    whose arithmetic (+, +=, scalar product, dot product, sum, norm) is
    defined per dimension column.  A field is the list of its columns
    ([getDataArray iDim]). *)
Definition t : Type := list (list R).

Definition make (nPoint : Z) (nDim : Z) : t :=
  repeat (repeat 0%R (Z.to_nat nPoint)) (Z.to_nat nDim).

Definition getDim (f : t) : Z := Z.of_nat (List.length f).

Definition getDataArray (f : t) (iDim : nat) : list R := nth iDim f [].

Fixpoint zipWith {A B C : Type} (g : A -> B -> C) (a : list A) (b : list B)
  : list C :=
  match a, b with
  | x :: a', y :: b' => g x y :: zipWith g a' b'
  | _, _ => []
  end.

Definition Rsum (l : list R) : R := fold_right Rplus 0%R l.

(** [a + b], [a - b] and [c * a], column by column. *)
Definition add (a b : t) : t := zipWith (zipWith Rplus) a b.
Definition sub (a b : t) : t := zipWith (zipWith Rminus) a b.
Definition scale (c : R) (a : t) : t := map (map (Rmult c)) a.

(** [a.dot(b)], [a.norm()] and [a.sum()]: one value per column. *)
Definition dot (a b : t) : list R :=
  zipWith (fun x y => Rsum (zipWith Rmult x y)) a b.
Definition norm (a : t) : list R :=
  map (fun x => sqrt (Rsum (map (fun v => (v * v)%R) x))) a.
Definition sum (a : t) : list R := map Rsum a.

(** [f[i] = values]: entry [i] of every column; an index outside the field
    leaves the column as it is. *)
Fixpoint set_nth (i : nat) (v : R) (l : list R) : list R :=
  match i, l with
  | O, _ :: l' => v :: l'
  | S i', x :: l' => x :: set_nth i' v l'
  | _, [] => []
  end.

Definition setitem (f : t) (i : Z) (values : list R) : t :=
  if (i <? 0)%Z then f
  else zipWith (fun col v => set_nth (Z.to_nat i) v col) f values.

End FlexInterfaceData.

Definition Field : Type := FlexInterfaceData.t.

(** The scalar product and the squared norm over all the entries of two
    fields, as the claim on Aitken's rule words them. *)
Definition field_inner (a b : Field) : R :=
  FlexInterfaceData.Rsum (FlexInterfaceData.dot a b).

Definition field_norm_sq (a : Field) : R :=
  FlexInterfaceData.Rsum
    (map (fun c => FlexInterfaceData.Rsum (map (fun v => (v * v)%R) c)) a).

Open Scope string_scope.
Open Scope list_scope.
Open Scope Z_scope.

(** ** Python values

    The arithmetic of [setRobinHeatFluxToSolidSolver] is written on Python
    values: numbers, numpy arrays and tuples.  Multiplication is the one of
    Python and numpy on these: a number scales an array, an integer repeats a
    tuple, a float times a tuple is a [TypeError]. *)

#[warnings="-register-all"] Inductive pyval : Type :=
| PyNone
| PyFloat (x : R)
| PyInt (n : Z)
| PyArray (a : list R)
| PyTuple (items : list pyval).

Definition py_array_sub (a b : list R) : list R :=
  FlexInterfaceData.zipWith Rminus a b.

Definition py_tuple_repeat (items : list pyval) (n : Z) : list pyval :=
  List.concat (repeat items (Z.to_nat n)).

Definition py_mul (a b : pyval) : result pyval :=
  match a, b with
  | PyFloat x, PyFloat y => Ok (PyFloat (x * y))
  | PyInt n, PyInt m => Ok (PyInt (n * m))
  | PyFloat x, PyArray v => Ok (PyArray (map (Rmult x) v))
  | PyInt n, PyArray v => Ok (PyArray (map (Rmult (IZR n)) v))
  | PyInt n, PyTuple items => Ok (PyTuple (py_tuple_repeat items n))
  | PyFloat _, PyTuple _ =>
      Raise (TypeError "can't multiply sequence by non-int of type 'float'")
  | _, _ => Raise (TypeError "unsupported operand type(s) for *")
  end.

(** ** The manager and the MPI communicator *)

(** Modelled from the spec: the Manager is defined outside FSICoupler.py; the
    spec (6) lists what it exposes: total and local node counts per side,
    per-process ownership sets, global index lookup, spatial dimensionality,
    the flags for FSI and CHT activation and the computation type. *)
Record Manager : Type := {
  getNumberOfFluidInterfaceNodes : Z;
  getNumberOfSolidInterfaceNodes : Z;
  getNumberOfLocalFluidInterfaceNodes : Z;
  getNumberOfLocalSolidInterfaceNodes : Z;
  getnDim : Z;
  withFsi : bool;
  withCht : bool;
  computationType : string;
  getSolidSolverProcessors : list Z;
  getSolidInterfaceProcessors : list Z;
  getFluidInterfaceProcessors : list Z;
  getGlobalIndex : string -> Z -> Z -> Z
}.

Record MpiComm : Type := {
  Get_rank : Z;
  Get_size : Z
}.

(** What a run leaves behind: the lines printed by [mpiPrint] and [print],
    the calls made on the collaborators, the tracebacks printed. *)
Inductive Event (Call : Type) : Type :=
| Printed (msg : string)
| Called (c : Call)
| TracebackPrinted (e : exn).

Arguments Printed {Call} msg.
Arguments Called {Call} c.
Arguments TracebackPrinted {Call} e.

(** ** class InterfaceInterpolator *)

(** Calls of an interpolator on the solvers and on the compiled core. *)
Inductive InterpolatorCall : Type :=
| matching_initSearch
| SolidSolver_getNodalTemperatures
| SolidSolver_applyNodalNormalHeatFluxes (flux : pyval) (time : R)
| redistributeDataToSolidSolver.

Definition InterpolatorEvent : Type := Event InterpolatorCall.

Definition valid_chtTransferMethods : list string :=
  ["TFFB"; "FFTB"; "hFTB"; "hFFB"].

Definition msg_cht_default : string :=
  "CHT transfer method not specified or not recognized, using default TFFB".

Module InterfaceInterpolator.

Record t : Type := {
  manager : Manager;
  nf : Z;
  ns : Z;
  nf_loc : Z;
  ns_loc : Z;
  nDim : Z;
  d : Z;
  chtTransferMethod : option string;
  heatTransferCoeff : option pyval;
  mpiComm : option MpiComm;
  myid : Z;
  mpiSize : Z;
  solidInterfaceDisplacement : option Field;
  fluidInterfaceDisplacement : option Field;
  solidInterfaceLoads : option Field;
  fluidInterfaceLoads : option Field;
  solidInterfaceHeatFlux : option Field;
  fluidInterfaceHeatFlux : option Field;
  solidInterfaceTemperature : option Field;
  fluidInterfaceTemperature : option Field;
  fluidInterfaceNormalHeatFlux : option Field;
  solidInterfaceNormalHeatFlux : option Field;
  fluidInterfaceRobinTemperature : option Field;
  solidInterfaceRobinTemperature : option Field
}.

(** [InterfaceInterpolator.__init__]: the lines printed and the object. *)
Definition init (Manager_ : Manager)
    (mpiComm_ : option MpiComm) (chtTransferMethod_ : option string)
    (heatTransferCoeff_ : pyval)
  : list InterpolatorEvent * t :=
  let out0 : list InterpolatorEvent :=
    [Printed "***************************** Initializing FSI interpolator *****************************"] in
  let '(out1, method) :=
    if withCht Manager_ then
      if negb (in_strings chtTransferMethod_ valid_chtTransferMethods)
      then (out0 ++ [Printed msg_cht_default], Some "TFFB")
      else (out0, chtTransferMethod_)
    else (out0, None) in
  let coeff :=
    if in_strings method ["hFTB"; "hFFB"] then Some heatTransferCoeff_
    else None in
  (out1,
   {| manager := Manager_;
      nf := getNumberOfFluidInterfaceNodes Manager_;
      ns := getNumberOfSolidInterfaceNodes Manager_;
      nf_loc := getNumberOfLocalFluidInterfaceNodes Manager_;
      ns_loc := getNumberOfLocalSolidInterfaceNodes Manager_;
      nDim := getnDim Manager_;
      d := 0;
      chtTransferMethod := method;
      heatTransferCoeff := coeff;
      mpiComm := mpiComm_;
      myid := match mpiComm_ with Some c => Get_rank c | None => 0 end;
      mpiSize := match mpiComm_ with Some c => Get_size c | None => 1 end;
      solidInterfaceDisplacement := None;
      fluidInterfaceDisplacement := None;
      solidInterfaceLoads := None;
      fluidInterfaceLoads := None;
      solidInterfaceHeatFlux := None;
      fluidInterfaceHeatFlux := None;
      solidInterfaceTemperature := None;
      fluidInterfaceTemperature := None;
      fluidInterfaceNormalHeatFlux := None;
      solidInterfaceNormalHeatFlux := None;
      fluidInterfaceRobinTemperature := None;
      solidInterfaceRobinTemperature := None |}).

Definition coeff_value (self : t) : pyval :=
  match heatTransferCoeff self with
  | Some c => c
  | None => PyNone
  end.

(** [setRobinHeatFluxToSolidSolver time].  The local Robin temperature
    arrays returned by [redistributeDataToSolidSolver] and the nodal
    temperatures returned by [SolidSolver.getNodalTemperatures] are what
    the collaborators answer; they are arguments here. *)
Definition setRobinHeatFluxToSolidSolver (self : t)
    (localSolidInterfaceRobinTemperature : list (list R))
    (localSolidInterfaceTemperature : list R) (time : R)
  : list InterpolatorEvent * result unit :=
  match mpiComm self with
  | Some _ =>
      let out0 : list InterpolatorEvent :=
        [Called redistributeDataToSolidSolver] in
      if in_procs (myid self) (getSolidInterfaceProcessors (manager self))
      then
        let out1 := out0 ++ [Called SolidSolver_getNodalTemperatures] in
        match py_mul (coeff_value self)
                (PyArray (py_array_sub localSolidInterfaceTemperature
                            (nth 0 localSolidInterfaceRobinTemperature [])))
        with
        | Ok localSolidInterfaceRobinHeatFlux =>
            (out1 ++ [Called (SolidSolver_applyNodalNormalHeatFluxes
                                localSolidInterfaceRobinHeatFlux time)],
             Ok tt)
        | Raise e => (out1, Raise e)
        end
      else (out0, Ok tt)
  | None =>
      let out0 : list InterpolatorEvent :=
        [Called SolidSolver_getNodalTemperatures] in
      match solidInterfaceRobinTemperature self with
      | None => (out0, Raise (AttributeError "getDataArray"))
      | Some robin =>
          match py_mul (coeff_value self)
                  (PyTuple
                     [PyArray (py_array_sub localSolidInterfaceTemperature
                                 (FlexInterfaceData.getDataArray robin 0));
                      PyFloat time])
          with
          | Ok localSolidInterfaceRobinHeatFlux =>
              (out0 ++ [Called (SolidSolver_applyNodalNormalHeatFluxes
                                  localSolidInterfaceRobinHeatFlux time)],
               Ok tt)
          | Raise e => (out0, Raise e)
          end
      end
  end.

End InterfaceInterpolator.

(** ** Interface matrices and linear solvers *)

(** Modelled from the spec: InterfaceMatrix, LinearSolver and the compiled
    interpolator core (ccupydo) are defined outside FSICoupler.py.  The spec
    (4.2, 4.3) gives their contract: [M.mult(x, y)] writes the product of the
    assembled operator with [x] into [y]; [LinearSolver(M).solve(b, x)] writes
    into [x] the solution of [M x = b].  [matching_matrices] stands for the
    pair H, H_T that [generateMapping] fills and assembles. *)
Class InterfaceAlgebra : Type := {
  InterfaceMatrix : Type;
  InterfaceMatrix_mult : InterfaceMatrix -> Field -> Field -> Field;
  LinearSolver : Type;
  LinearSolver_init : InterfaceMatrix -> LinearSolver;
  LinearSolver_solve : LinearSolver -> Field -> Field -> Field;
  matching_matrices : Manager -> InterfaceMatrix * InterfaceMatrix
}.

(** The linear-algebra work of one transfer, in order. *)
Inductive LinOp {LA : InterfaceAlgebra} : Type :=
| Allocated (nPoint : Z) (nDim : Z)
| Multiplied (M : InterfaceMatrix)
| Solved (solver : LinearSolver).

(** [solver.solve(b, x)]; on [None] Python raises. *)
Definition solve_with {LA : InterfaceAlgebra} (solver : option LinearSolver)
    (b x : Field) : result (Field * list LinOp) :=
  match solver with
  | Some slv => Ok (LinearSolver_solve slv b x, [Solved slv])
  | None => Raise (AttributeError "solve")
  end.

Module MatchingMeshesInterpolator.
Section Def.

Context {LA : InterfaceAlgebra}.
Import InterfaceInterpolator.

Record t : Type := {
  base : InterfaceInterpolator.t;
  H : InterfaceMatrix;
  H_T : InterfaceMatrix
}.

Definition alloc (cond : bool) (nPoint nDim_ : Z) (old : option Field)
  : option Field :=
  if cond then Some (FlexInterfaceData.make nPoint nDim_) else old.

(** [generateInterfaceData]: the fields of the active physics.  The
    branches of the source on [chtTransferMethod] are exclusive; each field
    is allocated in the branches that name it. *)
Definition generateInterfaceData (self : InterfaceInterpolator.t)
  : InterfaceInterpolator.t :=
  let fsi := withFsi (manager self) in
  let cht (m : string) :=
    withCht (manager self) && str_is (chtTransferMethod self) m in
  {| manager := manager self;
     nf := nf self; ns := ns self;
     nf_loc := nf_loc self; ns_loc := ns_loc self;
     nDim := nDim self; d := d self;
     chtTransferMethod := chtTransferMethod self;
     heatTransferCoeff := heatTransferCoeff self;
     mpiComm := mpiComm self; myid := myid self; mpiSize := mpiSize self;
     solidInterfaceDisplacement :=
       alloc fsi (ns self) 3 (solidInterfaceDisplacement self);
     fluidInterfaceDisplacement :=
       alloc fsi (nf self) 3 (fluidInterfaceDisplacement self);
     solidInterfaceLoads :=
       alloc fsi (ns self) 3 (solidInterfaceLoads self);
     fluidInterfaceLoads :=
       alloc fsi (nf self) 3 (fluidInterfaceLoads self);
     solidInterfaceHeatFlux :=
       alloc (cht "TFFB" || cht "FFTB" || cht "hFFB") (ns self) 3
         (solidInterfaceHeatFlux self);
     fluidInterfaceHeatFlux :=
       alloc (cht "TFFB" || cht "FFTB" || cht "hFFB") (nf self) 3
         (fluidInterfaceHeatFlux self);
     solidInterfaceTemperature :=
       alloc (cht "TFFB" || cht "FFTB" || cht "hFTB") (ns self) 1
         (solidInterfaceTemperature self);
     fluidInterfaceTemperature :=
       alloc (cht "TFFB" || cht "FFTB" || cht "hFTB") (nf self) 1
         (fluidInterfaceTemperature self);
     fluidInterfaceNormalHeatFlux :=
       alloc (cht "FFTB") (nf self) 1 (fluidInterfaceNormalHeatFlux self);
     solidInterfaceNormalHeatFlux :=
       alloc (cht "FFTB") (ns self) 1 (solidInterfaceNormalHeatFlux self);
     fluidInterfaceRobinTemperature :=
       alloc (cht "hFTB" || cht "hFFB") (nf self) 1
         (fluidInterfaceRobinTemperature self);
     solidInterfaceRobinTemperature :=
       alloc (cht "hFTB" || cht "hFFB") (ns self) 1
         (solidInterfaceRobinTemperature self) |}.

Definition msg_matching_nodes : string :=
  "Fluid and solid interface must have the same number of nodes for matching meshes ! ".

(** [MatchingMeshesInterpolator.__init__]. *)
Definition init (Manager_ : Manager)
    (mpiComm_ : option MpiComm) (chtTransferMethod_ : option string)
    (heatTransferCoeff_ : pyval)
  : list InterpolatorEvent * result t :=
  let '(out0, self) :=
    InterfaceInterpolator.init Manager_ mpiComm_ chtTransferMethod_
      heatTransferCoeff_ in
  let out1 := out0 ++ [Printed "Setting matching meshes interpolator..."] in
  if negb (nf self =? ns self)
  then (out1, Raise (Exception msg_matching_nodes))
  else
    let out2 := out1 ++ [Called matching_initSearch] in
    let self1 := generateInterfaceData self in
    let '(H_, H_T_) := matching_matrices Manager_ in
    (out2 ++ [Printed "Building interpolation matrix...";
              Printed "Assembling H & H_T...";
              Printed "Matrix H is built."],
     Ok {| base := self1; H := H_; H_T := H_T_ |}).

Definition interpolateFluidToSolid (self : t)
    (fluidInterfaceData solidInterfaceData : Field) : Field * list LinOp :=
  (InterfaceMatrix_mult (H_T self) fluidInterfaceData solidInterfaceData,
   [Multiplied (H_T self)]).

Definition interpolateSolidToFluid (self : t)
    (solidInterfaceData fluidInterfaceData : Field) : Field * list LinOp :=
  (InterfaceMatrix_mult (H self) solidInterfaceData fluidInterfaceData,
   [Multiplied (H self)]).

End Def.
End MatchingMeshesInterpolator.

Module ConservativeInterpolator.
Section Def.

Context {LA : InterfaceAlgebra}.
Import InterfaceInterpolator.

Record t : Type := {
  base : InterfaceInterpolator.t;
  A : InterfaceMatrix;
  A_T : InterfaceMatrix;
  B : InterfaceMatrix;
  B_T : InterfaceMatrix;
  SolverA : option LinearSolver;
  SolverA_T : option LinearSolver
}.

(** The end of [generateMapping]: once A, A_T, B and B_T are filled and
    assembled, the two solvers are created. *)
Definition generateMapping (self : t) : t :=
  {| base := base self;
     A := A self; A_T := A_T self; B := B self; B_T := B_T self;
     SolverA := Some (LinearSolver_init (A self));
     SolverA_T := Some (LinearSolver_init (A_T self)) |}.

Definition interpolateFluidToSolid (self : t)
    (fluidInterfaceData solidInterfaceData : Field)
  : result (Field * list LinOp) :=
  let dim := FlexInterfaceData.getDim fluidInterfaceData in
  let size := ns (base self) + d (base self) in
  let gamma_array := FlexInterfaceData.make size dim in
  let gamma_array1 :=
    InterfaceMatrix_mult (B_T self) fluidInterfaceData gamma_array in
  match solve_with (SolverA_T self) gamma_array1 solidInterfaceData with
  | Ok (solidInterfaceData1, ops) =>
      Ok (solidInterfaceData1,
          [Allocated size dim; Multiplied (B_T self)] ++ ops)
  | Raise e => Raise e
  end.

Definition interpolateSolidToFluid (self : t)
    (solidInterfaceData fluidInterfaceData : Field)
  : result (Field * list LinOp) :=
  let dim := FlexInterfaceData.getDim solidInterfaceData in
  let size := ns (base self) + d (base self) in
  let gamma_array := FlexInterfaceData.make size dim in
  match solve_with (SolverA self) solidInterfaceData gamma_array with
  | Ok (gamma_array1, ops) =>
      Ok (InterfaceMatrix_mult (B self) gamma_array1 fluidInterfaceData,
          [Allocated size dim] ++ ops ++ [Multiplied (B self)])
  | Raise e => Raise e
  end.

End Def.
End ConservativeInterpolator.

Module ConsistentInterpolator.
Section Def.

Context {LA : InterfaceAlgebra}.
Import InterfaceInterpolator.

Record t : Type := {
  base : InterfaceInterpolator.t;
  A : InterfaceMatrix;
  B : InterfaceMatrix;
  C : InterfaceMatrix;
  D : InterfaceMatrix;
  SolverA : option LinearSolver;
  SolverC : option LinearSolver
}.

(** The end of [generateMapping]: the solvers of the two square systems. *)
Definition generateMapping (self : t) : t :=
  {| base := base self;
     A := A self; B := B self; C := C self; D := D self;
     SolverA := Some (LinearSolver_init (A self));
     SolverC := Some (LinearSolver_init (C self)) |}.

Definition interpolateFluidToSolid (self : t)
    (fluidInterfaceData solidInterfaceData : Field)
  : result (Field * list LinOp) :=
  let dim := FlexInterfaceData.getDim fluidInterfaceData in
  let size := nf (base self) + d (base self) in
  let gamma_array := FlexInterfaceData.make size dim in
  match solve_with (SolverC self) fluidInterfaceData gamma_array with
  | Ok (gamma_array1, ops) =>
      Ok (InterfaceMatrix_mult (D self) gamma_array1 solidInterfaceData,
          [Allocated size dim] ++ ops ++ [Multiplied (D self)])
  | Raise e => Raise e
  end.

Definition interpolateSolidToFluid (self : t)
    (solidInterfaceData fluidInterfaceData : Field)
  : result (Field * list LinOp) :=
  let dim := FlexInterfaceData.getDim solidInterfaceData in
  let size := ns (base self) + d (base self) in
  let gamma_array := FlexInterfaceData.make size dim in
  match solve_with (SolverA self) solidInterfaceData gamma_array with
  | Ok (gamma_array1, ops) =>
      Ok (InterfaceMatrix_mult (B self) gamma_array1 fluidInterfaceData,
          [Allocated size dim] ++ ops ++ [Multiplied (B self)])
  | Raise e => Raise e
  end.

End Def.
End ConsistentInterpolator.

(** ** The collaborators of the coupling algorithms *)

(** A numpy array of one or two dimensions, as the list of its rows. *)
Definition ndarray : Type := list (list R).

(** Calls of an algorithm on the interpolator, on the two solvers, on MPI and
    on the history file.  A call that reads a field the algorithm relaxes
    carries that field. *)
Inductive Call : Type :=
| getDisplacementFromSolidSolver
| interpolateSolidDisplacementOnFluidMesh (displacement : Field)
| setDisplacementToFluidSolver (t : R)
| interpolateSolidHeatFluxOnFluidMesh (heatFlux : Field)
| setHeatFluxToFluidSolver (t : R)
| interpolateSolidTemperatureOnFluidMesh (temperature : Field)
| setTemperatureToFluidSolver (t : R)
| getLoadsFromFluidSolver
| interpolateFluidLoadsOnSolidMesh
| setLoadsToSolidSolver (t : R)
| getTemperatureFromFluidSolver
| interpolateFluidTemperatureOnSolidMesh
| setTemperatureToSolidSolver (t : R)
| getHeatFluxFromFluidSolver
| interpolateFluidHeatFluxOnSolidMesh
| setHeatFluxToSolidSolver (t : R)
| getRobinTemperatureFromFluidSolver
| interpolateFluidRobinTemperatureOnSolidMesh
| setRobinHeatFluxToSolidSolver (t : R)
| FluidSolver_meshUpdate (nt : Z)
| FluidSolver_run (t1 t2 : R)
| FluidSolver_bgsUpdate
| FluidSolver_preprocessTimeIter (nt : Z)
| FluidSolver_update (dt : R)
| FluidSolver_save (nt : Z)
| FluidSolver_remeshing
| FluidSolver_saveRealTimeData (t : R) (nFSIIter : Z)
| FluidSolver_printRealTimeData (t : R) (nFSIIter : Z)
| FluidSolver_setInitialMeshDeformation
| FluidSolver_setInitialInterfaceHeatFlux
| FluidSolver_setInitialInterfaceTemperature
| FluidSolver_exit
| SolidSolver_run (t1 t2 : R)
| SolidSolver_bgsUpdate
| SolidSolver_preprocessTimeIter (nt : Z)
| SolidSolver_update
| SolidSolver_save
| SolidSolver_remeshing
| SolidSolver_saveRealTimeData (t : R) (nFSIIter : Z)
| SolidSolver_printRealTimeData (t : R) (nFSIIter : Z)
| SolidSolver_setInitialDisplacements
| SolidSolver_initRealTimeData
| SolidSolver_exit
| histFile_create
| histFile_append (nt : Z) (t : R) (err errCHT : R) (nFSIIter : Z)
| mpiBarrier.

(** Modelled from the spec: the solvers, the convergence criterion, the
    interpolation operators, MPI and the numpy/scipy kernels are used by
    FSICoupler.py and defined outside it.  The spec (6) gives the contract of
    the solvers; the criterion "evaluates whether coupling residual norms are
    below tolerance".  [Ext] is their state; [collaborate c e] is the state a
    completed call [c] leaves them in and [raises c e] says whether [c]
    raises instead of returning.  [iqn_kernel] stands for the least-squares
    solve of IQN-ILS ([qrSolve] or [np.linalg.lstsq]) followed by
    [np.dot(dummy_W, c)]. *)
Class Collaborators : Type := {
  Ext : Type;
  collaborate : Call -> Ext -> Ext;
  raises : Call -> Ext -> option exn;
  getNodalDisplacements : Ext -> list (list R);
  getNodalHeatFluxes : Ext -> list (list R);
  getNodalTemperatures : Ext -> list R;
  getNodalVelocity : Ext -> list (list R);
  getNodalVelocityNm1 : Ext -> list (list R);
  assemble : Ext -> Field -> Field;
  gathered_solidInterfaceDisplacement : Ext -> Field -> Field;
  interpolated_solidInterfaceTemperature : Ext -> Field -> Field;
  interpolated_solidInterfaceHeatFlux : Ext -> Field -> Field;
  criterion_update : Ext -> Field -> R;
  criterion_updateHeatFlux : Ext -> option Field -> R;
  criterion_isVerified : R -> option R -> bool;
  iqn_kernel : bool -> string -> R -> ndarray -> ndarray -> list R -> list R
}.

(** The interpolator as the algorithms see it, once its interface data are
    generated: the transfer method, [getNs()], [getd()] and the solid-side
    fields that the algorithms relax. *)
Record InterpolatorView : Type := {
  chtTransferMethod : option string;
  getNs : Z;
  getd : Z;
  solidInterfaceDisplacement : Field;
  solidInterfaceHeatFlux : Field;
  solidInterfaceTemperature : Field
}.

Definition view_set_solidInterfaceDisplacement (v : Field)
    (i : InterpolatorView) : InterpolatorView :=
  Build_InterpolatorView (chtTransferMethod i) (getNs i) (getd i) v
    (solidInterfaceHeatFlux i) (solidInterfaceTemperature i).

Definition view_set_solidInterfaceHeatFlux (v : Field)
    (i : InterpolatorView) : InterpolatorView :=
  Build_InterpolatorView (chtTransferMethod i) (getNs i) (getd i)
    (solidInterfaceDisplacement i) v (solidInterfaceTemperature i).

Definition view_set_solidInterfaceTemperature (v : Field)
    (i : InterpolatorView) : InterpolatorView :=
  Build_InterpolatorView (chtTransferMethod i) (getNs i) (getd i)
    (solidInterfaceDisplacement i) (solidInterfaceHeatFlux i) v.

(** ** numpy on lists of rows *)

Fixpoint transpose (m : ndarray) : ndarray :=
  match m with
  | [] => []
  | [r] => map (fun x => [x]) r
  | r :: m' => FlexInterfaceData.zipWith cons r (transpose m')
  end.

Definition np_vstack (blocks : list ndarray) : ndarray := List.concat blocks.

Definition np_zeros (rows cols : Z) : ndarray :=
  repeat (repeat 0%R (Z.to_nat cols)) (Z.to_nat rows).

(** [m.shape[1]] and [m[:, 0:n]]. *)
Definition shape1 (m : ndarray) : Z :=
  match m with
  | [] => 0
  | r :: _ => Z.of_nat (List.length r)
  end.

Definition first_columns (n : Z) (m : ndarray) : ndarray :=
  map (firstn (Z.to_nat n)) m.

(** [np.split(v, k)] on a vector whose length is a multiple of [k]. *)
Fixpoint chunks (k : nat) (len : nat) (v : list R) : list (list R) :=
  match k with
  | O => []
  | S k' => firstn len v :: chunks k' len (skipn len v)
  end.

Definition np_split (v : list R) (k : nat) : list (list R) :=
  chunks k (Nat.div (List.length v) k) v.

(** [mpiGatherInterfaceData(f, ns, comm, 0)]: the three data arrays of an
    assembled field, as the root process receives them. *)
Definition mpiGatherInterfaceData (f : Field) : list R * list R * list R :=
  (FlexInterfaceData.getDataArray f 0, FlexInterfaceData.getDataArray f 1,
   FlexInterfaceData.getDataArray f 2).

(** [range(n)]. *)
Definition range (n : Z) : list Z := map Z.of_nat (seq 0 (Z.to_nat n)).

(** [for iVertex in range(n): f[getGlobalIndex('solid', myid, iVertex)] =
    [c[iVertex] for c in columns]]. *)
Definition fill_from_local (m : Manager) (rank : Z) (n : Z)
    (columns : list (list R)) (f : Field) : Field :=
  fold_left
    (fun acc iVertex =>
       FlexInterfaceData.setitem acc (getGlobalIndex m "solid" rank iVertex)
         (map (fun c => nth (Z.to_nat iVertex) c 0%R) columns))
    (range n) f.

(** [while cond: body], with the number of iterations left to run: [None]
    when that number does not suffice. *)
Fixpoint while_loop {S : Type} (fuel : nat) (cond : S -> bool)
    (body : S -> S) (s : S) : option S :=
  match fuel with
  | O => None
  | Datatypes.S fuel' =>
      if cond s then while_loop fuel' cond body (body s) else Some s
  end.

Section Coupling.

Context {collaborators : Collaborators}.

(** ** class Algorithm and its subclasses

    One record holds the attributes of [Algorithm], of
    [AlgorithmBGSStaticRelax] (omegaMax, omegaMin, omega), of
    [AlgorithmBGSAitkenRelax] (solidInterfaceResidualkM1, aitkenCrit) and of
    [AlgorithmIQN_ILS] (nbTimeToKeep to W).  [ext] is the state of the
    collaborators, [out] what the run has printed and called so far.  The
    timers of the source measure real time and are left out. *)
Record Algorithm : Type := {
  manager : Manager;
  interfaceInterpolator : InterpolatorView;
  myid : Z;
  nbFSIIterMax : Z;
  deltaT : R;
  totTime : R;
  timeIterTreshold : Z;
  writeInFSIloop : bool;
  time : R;
  timeIter : Z;
  FSIIter : Z;
  errValue : R;
  errValue_CHT : R;
  FSIConv : bool;
  totNbOfFSIIt : Z;
  alpha_0 : R;
  alpha_1 : R;
  solidInterfaceVelocity : Field;
  solidInterfaceVelocitynM1 : Field;
  solidInterfaceResidual : Field;
  solidHeatFluxResidual : Field;
  solidTemperatureResidual : Field;
  omegaMax : R;
  omegaMin : R;
  omega : R;
  solidInterfaceResidualkM1 : Field;
  aitkenCrit : string;
  nbTimeToKeep : Z;
  computeTangentMatrixBasedOnFirstIt : bool;
  useQR : bool;
  tollQR : R;
  qrFilter : string;
  maxNbOfItReached : bool;
  convergenceReachedInOneIt : bool;
  V : list ndarray;
  W : list ndarray;
  ext : Ext;
  out : list (Event Call)
}.

Definition set_interfaceInterpolator (v : InterpolatorView)
    (s : Algorithm) : Algorithm :=
  Build_Algorithm (manager s) v (myid s) (nbFSIIterMax s) (deltaT s)
    (totTime s) (timeIterTreshold s) (writeInFSIloop s) (time s)
    (timeIter s) (FSIIter s) (errValue s) (errValue_CHT s) (FSIConv s)
    (totNbOfFSIIt s) (alpha_0 s) (alpha_1 s) (solidInterfaceVelocity s)
    (solidInterfaceVelocitynM1 s) (solidInterfaceResidual s)
    (solidHeatFluxResidual s) (solidTemperatureResidual s) (omegaMax s)
    (omegaMin s) (omega s) (solidInterfaceResidualkM1 s) (aitkenCrit s)
    (nbTimeToKeep s) (computeTangentMatrixBasedOnFirstIt s) (useQR s)
    (tollQR s) (qrFilter s) (maxNbOfItReached s)
    (convergenceReachedInOneIt s) (V s) (W s) (ext s) (out s).

Definition set_deltaT (v : R) (s : Algorithm) : Algorithm :=
  Build_Algorithm (manager s) (interfaceInterpolator s) (myid s)
    (nbFSIIterMax s) v (totTime s) (timeIterTreshold s) (writeInFSIloop s)
    (time s) (timeIter s) (FSIIter s) (errValue s) (errValue_CHT s)
    (FSIConv s) (totNbOfFSIIt s) (alpha_0 s) (alpha_1 s)
    (solidInterfaceVelocity s) (solidInterfaceVelocitynM1 s)
    (solidInterfaceResidual s) (solidHeatFluxResidual s)
    (solidTemperatureResidual s) (omegaMax s) (omegaMin s) (omega s)
    (solidInterfaceResidualkM1 s) (aitkenCrit s) (nbTimeToKeep s)
    (computeTangentMatrixBasedOnFirstIt s) (useQR s) (tollQR s) (qrFilter s)
    (maxNbOfItReached s) (convergenceReachedInOneIt s) (V s) (W s) (ext s)
    (out s).

Definition set_writeInFSIloop (v : bool) (s : Algorithm) : Algorithm :=
  Build_Algorithm (manager s) (interfaceInterpolator s) (myid s)
    (nbFSIIterMax s) (deltaT s) (totTime s) (timeIterTreshold s) v (time s)
    (timeIter s) (FSIIter s) (errValue s) (errValue_CHT s) (FSIConv s)
    (totNbOfFSIIt s) (alpha_0 s) (alpha_1 s) (solidInterfaceVelocity s)
    (solidInterfaceVelocitynM1 s) (solidInterfaceResidual s)
    (solidHeatFluxResidual s) (solidTemperatureResidual s) (omegaMax s)
    (omegaMin s) (omega s) (solidInterfaceResidualkM1 s) (aitkenCrit s)
    (nbTimeToKeep s) (computeTangentMatrixBasedOnFirstIt s) (useQR s)
    (tollQR s) (qrFilter s) (maxNbOfItReached s)
    (convergenceReachedInOneIt s) (V s) (W s) (ext s) (out s).

Definition set_time (v : R) (s : Algorithm) : Algorithm :=
  Build_Algorithm (manager s) (interfaceInterpolator s) (myid s)
    (nbFSIIterMax s) (deltaT s) (totTime s) (timeIterTreshold s)
    (writeInFSIloop s) v (timeIter s) (FSIIter s) (errValue s)
    (errValue_CHT s) (FSIConv s) (totNbOfFSIIt s) (alpha_0 s) (alpha_1 s)
    (solidInterfaceVelocity s) (solidInterfaceVelocitynM1 s)
    (solidInterfaceResidual s) (solidHeatFluxResidual s)
    (solidTemperatureResidual s) (omegaMax s) (omegaMin s) (omega s)
    (solidInterfaceResidualkM1 s) (aitkenCrit s) (nbTimeToKeep s)
    (computeTangentMatrixBasedOnFirstIt s) (useQR s) (tollQR s) (qrFilter s)
    (maxNbOfItReached s) (convergenceReachedInOneIt s) (V s) (W s) (ext s)
    (out s).

Definition set_timeIter (v : Z) (s : Algorithm) : Algorithm :=
  Build_Algorithm (manager s) (interfaceInterpolator s) (myid s)
    (nbFSIIterMax s) (deltaT s) (totTime s) (timeIterTreshold s)
    (writeInFSIloop s) (time s) v (FSIIter s) (errValue s) (errValue_CHT s)
    (FSIConv s) (totNbOfFSIIt s) (alpha_0 s) (alpha_1 s)
    (solidInterfaceVelocity s) (solidInterfaceVelocitynM1 s)
    (solidInterfaceResidual s) (solidHeatFluxResidual s)
    (solidTemperatureResidual s) (omegaMax s) (omegaMin s) (omega s)
    (solidInterfaceResidualkM1 s) (aitkenCrit s) (nbTimeToKeep s)
    (computeTangentMatrixBasedOnFirstIt s) (useQR s) (tollQR s) (qrFilter s)
    (maxNbOfItReached s) (convergenceReachedInOneIt s) (V s) (W s) (ext s)
    (out s).

Definition set_FSIIter (v : Z) (s : Algorithm) : Algorithm :=
  Build_Algorithm (manager s) (interfaceInterpolator s) (myid s)
    (nbFSIIterMax s) (deltaT s) (totTime s) (timeIterTreshold s)
    (writeInFSIloop s) (time s) (timeIter s) v (errValue s) (errValue_CHT s)
    (FSIConv s) (totNbOfFSIIt s) (alpha_0 s) (alpha_1 s)
    (solidInterfaceVelocity s) (solidInterfaceVelocitynM1 s)
    (solidInterfaceResidual s) (solidHeatFluxResidual s)
    (solidTemperatureResidual s) (omegaMax s) (omegaMin s) (omega s)
    (solidInterfaceResidualkM1 s) (aitkenCrit s) (nbTimeToKeep s)
    (computeTangentMatrixBasedOnFirstIt s) (useQR s) (tollQR s) (qrFilter s)
    (maxNbOfItReached s) (convergenceReachedInOneIt s) (V s) (W s) (ext s)
    (out s).

Definition set_errValue (v : R) (s : Algorithm) : Algorithm :=
  Build_Algorithm (manager s) (interfaceInterpolator s) (myid s)
    (nbFSIIterMax s) (deltaT s) (totTime s) (timeIterTreshold s)
    (writeInFSIloop s) (time s) (timeIter s) (FSIIter s) v (errValue_CHT s)
    (FSIConv s) (totNbOfFSIIt s) (alpha_0 s) (alpha_1 s)
    (solidInterfaceVelocity s) (solidInterfaceVelocitynM1 s)
    (solidInterfaceResidual s) (solidHeatFluxResidual s)
    (solidTemperatureResidual s) (omegaMax s) (omegaMin s) (omega s)
    (solidInterfaceResidualkM1 s) (aitkenCrit s) (nbTimeToKeep s)
    (computeTangentMatrixBasedOnFirstIt s) (useQR s) (tollQR s) (qrFilter s)
    (maxNbOfItReached s) (convergenceReachedInOneIt s) (V s) (W s) (ext s)
    (out s).

Definition set_errValue_CHT (v : R) (s : Algorithm) : Algorithm :=
  Build_Algorithm (manager s) (interfaceInterpolator s) (myid s)
    (nbFSIIterMax s) (deltaT s) (totTime s) (timeIterTreshold s)
    (writeInFSIloop s) (time s) (timeIter s) (FSIIter s) (errValue s) v
    (FSIConv s) (totNbOfFSIIt s) (alpha_0 s) (alpha_1 s)
    (solidInterfaceVelocity s) (solidInterfaceVelocitynM1 s)
    (solidInterfaceResidual s) (solidHeatFluxResidual s)
    (solidTemperatureResidual s) (omegaMax s) (omegaMin s) (omega s)
    (solidInterfaceResidualkM1 s) (aitkenCrit s) (nbTimeToKeep s)
    (computeTangentMatrixBasedOnFirstIt s) (useQR s) (tollQR s) (qrFilter s)
    (maxNbOfItReached s) (convergenceReachedInOneIt s) (V s) (W s) (ext s)
    (out s).

Definition set_FSIConv (v : bool) (s : Algorithm) : Algorithm :=
  Build_Algorithm (manager s) (interfaceInterpolator s) (myid s)
    (nbFSIIterMax s) (deltaT s) (totTime s) (timeIterTreshold s)
    (writeInFSIloop s) (time s) (timeIter s) (FSIIter s) (errValue s)
    (errValue_CHT s) v (totNbOfFSIIt s) (alpha_0 s) (alpha_1 s)
    (solidInterfaceVelocity s) (solidInterfaceVelocitynM1 s)
    (solidInterfaceResidual s) (solidHeatFluxResidual s)
    (solidTemperatureResidual s) (omegaMax s) (omegaMin s) (omega s)
    (solidInterfaceResidualkM1 s) (aitkenCrit s) (nbTimeToKeep s)
    (computeTangentMatrixBasedOnFirstIt s) (useQR s) (tollQR s) (qrFilter s)
    (maxNbOfItReached s) (convergenceReachedInOneIt s) (V s) (W s) (ext s)
    (out s).

Definition set_totNbOfFSIIt (v : Z) (s : Algorithm) : Algorithm :=
  Build_Algorithm (manager s) (interfaceInterpolator s) (myid s)
    (nbFSIIterMax s) (deltaT s) (totTime s) (timeIterTreshold s)
    (writeInFSIloop s) (time s) (timeIter s) (FSIIter s) (errValue s)
    (errValue_CHT s) (FSIConv s) v (alpha_0 s) (alpha_1 s)
    (solidInterfaceVelocity s) (solidInterfaceVelocitynM1 s)
    (solidInterfaceResidual s) (solidHeatFluxResidual s)
    (solidTemperatureResidual s) (omegaMax s) (omegaMin s) (omega s)
    (solidInterfaceResidualkM1 s) (aitkenCrit s) (nbTimeToKeep s)
    (computeTangentMatrixBasedOnFirstIt s) (useQR s) (tollQR s) (qrFilter s)
    (maxNbOfItReached s) (convergenceReachedInOneIt s) (V s) (W s) (ext s)
    (out s).

Definition set_solidInterfaceVelocity (v : Field)
    (s : Algorithm) : Algorithm :=
  Build_Algorithm (manager s) (interfaceInterpolator s) (myid s)
    (nbFSIIterMax s) (deltaT s) (totTime s) (timeIterTreshold s)
    (writeInFSIloop s) (time s) (timeIter s) (FSIIter s) (errValue s)
    (errValue_CHT s) (FSIConv s) (totNbOfFSIIt s) (alpha_0 s) (alpha_1 s) v
    (solidInterfaceVelocitynM1 s) (solidInterfaceResidual s)
    (solidHeatFluxResidual s) (solidTemperatureResidual s) (omegaMax s)
    (omegaMin s) (omega s) (solidInterfaceResidualkM1 s) (aitkenCrit s)
    (nbTimeToKeep s) (computeTangentMatrixBasedOnFirstIt s) (useQR s)
    (tollQR s) (qrFilter s) (maxNbOfItReached s)
    (convergenceReachedInOneIt s) (V s) (W s) (ext s) (out s).

Definition set_solidInterfaceVelocitynM1 (v : Field)
    (s : Algorithm) : Algorithm :=
  Build_Algorithm (manager s) (interfaceInterpolator s) (myid s)
    (nbFSIIterMax s) (deltaT s) (totTime s) (timeIterTreshold s)
    (writeInFSIloop s) (time s) (timeIter s) (FSIIter s) (errValue s)
    (errValue_CHT s) (FSIConv s) (totNbOfFSIIt s) (alpha_0 s) (alpha_1 s)
    (solidInterfaceVelocity s) v (solidInterfaceResidual s)
    (solidHeatFluxResidual s) (solidTemperatureResidual s) (omegaMax s)
    (omegaMin s) (omega s) (solidInterfaceResidualkM1 s) (aitkenCrit s)
    (nbTimeToKeep s) (computeTangentMatrixBasedOnFirstIt s) (useQR s)
    (tollQR s) (qrFilter s) (maxNbOfItReached s)
    (convergenceReachedInOneIt s) (V s) (W s) (ext s) (out s).

Definition set_solidInterfaceResidual (v : Field)
    (s : Algorithm) : Algorithm :=
  Build_Algorithm (manager s) (interfaceInterpolator s) (myid s)
    (nbFSIIterMax s) (deltaT s) (totTime s) (timeIterTreshold s)
    (writeInFSIloop s) (time s) (timeIter s) (FSIIter s) (errValue s)
    (errValue_CHT s) (FSIConv s) (totNbOfFSIIt s) (alpha_0 s) (alpha_1 s)
    (solidInterfaceVelocity s) (solidInterfaceVelocitynM1 s) v
    (solidHeatFluxResidual s) (solidTemperatureResidual s) (omegaMax s)
    (omegaMin s) (omega s) (solidInterfaceResidualkM1 s) (aitkenCrit s)
    (nbTimeToKeep s) (computeTangentMatrixBasedOnFirstIt s) (useQR s)
    (tollQR s) (qrFilter s) (maxNbOfItReached s)
    (convergenceReachedInOneIt s) (V s) (W s) (ext s) (out s).

Definition set_solidHeatFluxResidual (v : Field)
    (s : Algorithm) : Algorithm :=
  Build_Algorithm (manager s) (interfaceInterpolator s) (myid s)
    (nbFSIIterMax s) (deltaT s) (totTime s) (timeIterTreshold s)
    (writeInFSIloop s) (time s) (timeIter s) (FSIIter s) (errValue s)
    (errValue_CHT s) (FSIConv s) (totNbOfFSIIt s) (alpha_0 s) (alpha_1 s)
    (solidInterfaceVelocity s) (solidInterfaceVelocitynM1 s)
    (solidInterfaceResidual s) v (solidTemperatureResidual s) (omegaMax s)
    (omegaMin s) (omega s) (solidInterfaceResidualkM1 s) (aitkenCrit s)
    (nbTimeToKeep s) (computeTangentMatrixBasedOnFirstIt s) (useQR s)
    (tollQR s) (qrFilter s) (maxNbOfItReached s)
    (convergenceReachedInOneIt s) (V s) (W s) (ext s) (out s).

Definition set_solidTemperatureResidual (v : Field)
    (s : Algorithm) : Algorithm :=
  Build_Algorithm (manager s) (interfaceInterpolator s) (myid s)
    (nbFSIIterMax s) (deltaT s) (totTime s) (timeIterTreshold s)
    (writeInFSIloop s) (time s) (timeIter s) (FSIIter s) (errValue s)
    (errValue_CHT s) (FSIConv s) (totNbOfFSIIt s) (alpha_0 s) (alpha_1 s)
    (solidInterfaceVelocity s) (solidInterfaceVelocitynM1 s)
    (solidInterfaceResidual s) (solidHeatFluxResidual s) v (omegaMax s)
    (omegaMin s) (omega s) (solidInterfaceResidualkM1 s) (aitkenCrit s)
    (nbTimeToKeep s) (computeTangentMatrixBasedOnFirstIt s) (useQR s)
    (tollQR s) (qrFilter s) (maxNbOfItReached s)
    (convergenceReachedInOneIt s) (V s) (W s) (ext s) (out s).

Definition set_omega (v : R) (s : Algorithm) : Algorithm :=
  Build_Algorithm (manager s) (interfaceInterpolator s) (myid s)
    (nbFSIIterMax s) (deltaT s) (totTime s) (timeIterTreshold s)
    (writeInFSIloop s) (time s) (timeIter s) (FSIIter s) (errValue s)
    (errValue_CHT s) (FSIConv s) (totNbOfFSIIt s) (alpha_0 s) (alpha_1 s)
    (solidInterfaceVelocity s) (solidInterfaceVelocitynM1 s)
    (solidInterfaceResidual s) (solidHeatFluxResidual s)
    (solidTemperatureResidual s) (omegaMax s) (omegaMin s) v
    (solidInterfaceResidualkM1 s) (aitkenCrit s) (nbTimeToKeep s)
    (computeTangentMatrixBasedOnFirstIt s) (useQR s) (tollQR s) (qrFilter s)
    (maxNbOfItReached s) (convergenceReachedInOneIt s) (V s) (W s) (ext s)
    (out s).

Definition set_solidInterfaceResidualkM1 (v : Field)
    (s : Algorithm) : Algorithm :=
  Build_Algorithm (manager s) (interfaceInterpolator s) (myid s)
    (nbFSIIterMax s) (deltaT s) (totTime s) (timeIterTreshold s)
    (writeInFSIloop s) (time s) (timeIter s) (FSIIter s) (errValue s)
    (errValue_CHT s) (FSIConv s) (totNbOfFSIIt s) (alpha_0 s) (alpha_1 s)
    (solidInterfaceVelocity s) (solidInterfaceVelocitynM1 s)
    (solidInterfaceResidual s) (solidHeatFluxResidual s)
    (solidTemperatureResidual s) (omegaMax s) (omegaMin s) (omega s) v
    (aitkenCrit s) (nbTimeToKeep s) (computeTangentMatrixBasedOnFirstIt s)
    (useQR s) (tollQR s) (qrFilter s) (maxNbOfItReached s)
    (convergenceReachedInOneIt s) (V s) (W s) (ext s) (out s).

Definition set_maxNbOfItReached (v : bool) (s : Algorithm) : Algorithm :=
  Build_Algorithm (manager s) (interfaceInterpolator s) (myid s)
    (nbFSIIterMax s) (deltaT s) (totTime s) (timeIterTreshold s)
    (writeInFSIloop s) (time s) (timeIter s) (FSIIter s) (errValue s)
    (errValue_CHT s) (FSIConv s) (totNbOfFSIIt s) (alpha_0 s) (alpha_1 s)
    (solidInterfaceVelocity s) (solidInterfaceVelocitynM1 s)
    (solidInterfaceResidual s) (solidHeatFluxResidual s)
    (solidTemperatureResidual s) (omegaMax s) (omegaMin s) (omega s)
    (solidInterfaceResidualkM1 s) (aitkenCrit s) (nbTimeToKeep s)
    (computeTangentMatrixBasedOnFirstIt s) (useQR s) (tollQR s) (qrFilter s)
    v (convergenceReachedInOneIt s) (V s) (W s) (ext s) (out s).

Definition set_convergenceReachedInOneIt (v : bool)
    (s : Algorithm) : Algorithm :=
  Build_Algorithm (manager s) (interfaceInterpolator s) (myid s)
    (nbFSIIterMax s) (deltaT s) (totTime s) (timeIterTreshold s)
    (writeInFSIloop s) (time s) (timeIter s) (FSIIter s) (errValue s)
    (errValue_CHT s) (FSIConv s) (totNbOfFSIIt s) (alpha_0 s) (alpha_1 s)
    (solidInterfaceVelocity s) (solidInterfaceVelocitynM1 s)
    (solidInterfaceResidual s) (solidHeatFluxResidual s)
    (solidTemperatureResidual s) (omegaMax s) (omegaMin s) (omega s)
    (solidInterfaceResidualkM1 s) (aitkenCrit s) (nbTimeToKeep s)
    (computeTangentMatrixBasedOnFirstIt s) (useQR s) (tollQR s) (qrFilter s)
    (maxNbOfItReached s) v (V s) (W s) (ext s) (out s).

Definition set_V (v : list ndarray) (s : Algorithm) : Algorithm :=
  Build_Algorithm (manager s) (interfaceInterpolator s) (myid s)
    (nbFSIIterMax s) (deltaT s) (totTime s) (timeIterTreshold s)
    (writeInFSIloop s) (time s) (timeIter s) (FSIIter s) (errValue s)
    (errValue_CHT s) (FSIConv s) (totNbOfFSIIt s) (alpha_0 s) (alpha_1 s)
    (solidInterfaceVelocity s) (solidInterfaceVelocitynM1 s)
    (solidInterfaceResidual s) (solidHeatFluxResidual s)
    (solidTemperatureResidual s) (omegaMax s) (omegaMin s) (omega s)
    (solidInterfaceResidualkM1 s) (aitkenCrit s) (nbTimeToKeep s)
    (computeTangentMatrixBasedOnFirstIt s) (useQR s) (tollQR s) (qrFilter s)
    (maxNbOfItReached s) (convergenceReachedInOneIt s) v (W s) (ext s)
    (out s).

Definition set_W (v : list ndarray) (s : Algorithm) : Algorithm :=
  Build_Algorithm (manager s) (interfaceInterpolator s) (myid s)
    (nbFSIIterMax s) (deltaT s) (totTime s) (timeIterTreshold s)
    (writeInFSIloop s) (time s) (timeIter s) (FSIIter s) (errValue s)
    (errValue_CHT s) (FSIConv s) (totNbOfFSIIt s) (alpha_0 s) (alpha_1 s)
    (solidInterfaceVelocity s) (solidInterfaceVelocitynM1 s)
    (solidInterfaceResidual s) (solidHeatFluxResidual s)
    (solidTemperatureResidual s) (omegaMax s) (omegaMin s) (omega s)
    (solidInterfaceResidualkM1 s) (aitkenCrit s) (nbTimeToKeep s)
    (computeTangentMatrixBasedOnFirstIt s) (useQR s) (tollQR s) (qrFilter s)
    (maxNbOfItReached s) (convergenceReachedInOneIt s) (V s) v (ext s)
    (out s).

Definition set_ext (v : Ext) (s : Algorithm) : Algorithm :=
  Build_Algorithm (manager s) (interfaceInterpolator s) (myid s)
    (nbFSIIterMax s) (deltaT s) (totTime s) (timeIterTreshold s)
    (writeInFSIloop s) (time s) (timeIter s) (FSIIter s) (errValue s)
    (errValue_CHT s) (FSIConv s) (totNbOfFSIIt s) (alpha_0 s) (alpha_1 s)
    (solidInterfaceVelocity s) (solidInterfaceVelocitynM1 s)
    (solidInterfaceResidual s) (solidHeatFluxResidual s)
    (solidTemperatureResidual s) (omegaMax s) (omegaMin s) (omega s)
    (solidInterfaceResidualkM1 s) (aitkenCrit s) (nbTimeToKeep s)
    (computeTangentMatrixBasedOnFirstIt s) (useQR s) (tollQR s) (qrFilter s)
    (maxNbOfItReached s) (convergenceReachedInOneIt s) (V s) (W s) v (out s).

Definition set_out (v : list (Event Call)) (s : Algorithm) : Algorithm :=
  Build_Algorithm (manager s) (interfaceInterpolator s) (myid s)
    (nbFSIIterMax s) (deltaT s) (totTime s) (timeIterTreshold s)
    (writeInFSIloop s) (time s) (timeIter s) (FSIIter s) (errValue s)
    (errValue_CHT s) (FSIConv s) (totNbOfFSIIt s) (alpha_0 s) (alpha_1 s)
    (solidInterfaceVelocity s) (solidInterfaceVelocitynM1 s)
    (solidInterfaceResidual s) (solidHeatFluxResidual s)
    (solidTemperatureResidual s) (omegaMax s) (omegaMin s) (omega s)
    (solidInterfaceResidualkM1 s) (aitkenCrit s) (nbTimeToKeep s)
    (computeTangentMatrixBasedOnFirstIt s) (useQR s) (tollQR s) (qrFilter s)
    (maxNbOfItReached s) (convergenceReachedInOneIt s) (V s) (W s) (ext s) v.


Definition set_solidInterfaceDisplacement (v : Field) (s : Algorithm)
  : Algorithm :=
  set_interfaceInterpolator
    (view_set_solidInterfaceDisplacement v (interfaceInterpolator s)) s.

Definition set_solidInterfaceHeatFlux (v : Field) (s : Algorithm)
  : Algorithm :=
  set_interfaceInterpolator
    (view_set_solidInterfaceHeatFlux v (interfaceInterpolator s)) s.

Definition set_solidInterfaceTemperature (v : Field) (s : Algorithm)
  : Algorithm :=
  set_interfaceInterpolator
    (view_set_solidInterfaceTemperature v (interfaceInterpolator s)) s.

Definition mpiPrint (msg : string) (s : Algorithm) : Algorithm :=
  set_out (out s ++ [Printed msg]) s.

(** A call that completes. *)
Definition call (c : Call) (s : Algorithm) : Algorithm :=
  set_ext (collaborate c (ext s)) (set_out (out s ++ [Called c]) s).

Definition cht_is (s : Algorithm) (m : string) : bool :=
  str_is (chtTransferMethod (interfaceInterpolator s)) m.

Definition owns_solid_solver (s : Algorithm) : bool :=
  in_procs (myid s) (getSolidSolverProcessors (manager s)).

Definition owns_solid_interface (s : Algorithm) : bool :=
  in_procs (myid s) (getSolidInterfaceProcessors (manager s)).

(** [Algorithm.__init__], with the attributes that the subclasses add. *)
Definition Algorithm_init (Manager_ : Manager)
    (InterfaceInterpolator_ : InterpolatorView) (nbFSIIterMax_ : Z)
    (deltaT_ totTime_ : R) (timeIterTreshold_ : Z)
    (mpiComm_ : option MpiComm) (ext_ : Ext) : Algorithm :=
  let out0 : list (Event Call) :=
    [Printed "***************************** Initializing FSI algorithm *****************************"] in
  let ns := getNs InterfaceInterpolator_ in
  let d := getd InterfaceInterpolator_ in
  {| manager := Manager_;
     interfaceInterpolator := InterfaceInterpolator_;
     myid := match mpiComm_ with Some c => Get_rank c | None => 0 end;
     nbFSIIterMax := nbFSIIterMax_;
     deltaT := deltaT_;
     totTime := totTime_;
     timeIterTreshold := timeIterTreshold_;
     writeInFSIloop := false;
     time := 0%R;
     timeIter := 0;
     FSIIter := 0;
     errValue := 0%R;
     errValue_CHT := 0%R;
     FSIConv := false;
     totNbOfFSIIt := 0;
     alpha_0 := 1%R;
     alpha_1 := (1 / 2)%R;
     solidInterfaceVelocity := FlexInterfaceData.make (ns + d) 3;
     solidInterfaceVelocitynM1 := FlexInterfaceData.make (ns + d) 3;
     solidInterfaceResidual := FlexInterfaceData.make (ns + d) 3;
     solidHeatFluxResidual :=
       if withCht Manager_ then FlexInterfaceData.make (ns + d) 3 else [];
     solidTemperatureResidual :=
       if withCht Manager_ then FlexInterfaceData.make (ns + d) 1 else [];
     omegaMax := 0%R;
     omegaMin := 0%R;
     omega := 0%R;
     solidInterfaceResidualkM1 := [];
     aitkenCrit := "";
     nbTimeToKeep := 0;
     computeTangentMatrixBasedOnFirstIt := false;
     useQR := false;
     tollQR := 0%R;
     qrFilter := "";
     maxNbOfItReached := false;
     convergenceReachedInOneIt := false;
     V := [];
     W := [];
     ext := ext_;
     out := out0 |}.

(** [AlgorithmBGSStaticRelax.__init__], [AlgorithmBGSAitkenRelax.__init__]
    and [AlgorithmIQN_ILS.__init__]: each calls the one before and adds its
    attributes. *)
Definition AlgorithmBGSStaticRelax_init (Manager_ : Manager)
    (InterfaceInterpolator_ : InterpolatorView) (nbFSIIterMax_ : Z)
    (deltaT_ totTime_ : R) (timeIterTreshold_ : Z) (omegaMax_ : R)
    (mpiComm_ : option MpiComm) (ext_ : Ext) : Algorithm :=
  let s := Algorithm_init Manager_ InterfaceInterpolator_ nbFSIIterMax_
             deltaT_ totTime_ timeIterTreshold_ mpiComm_ ext_ in
  Build_Algorithm (manager s) (interfaceInterpolator s) (myid s)
    (nbFSIIterMax s) (deltaT s) (totTime s) (timeIterTreshold s)
    (writeInFSIloop s) (time s) (timeIter s) (FSIIter s) (errValue s)
    (errValue_CHT s) (FSIConv s) (totNbOfFSIIt s) (alpha_0 s) (alpha_1 s)
    (solidInterfaceVelocity s) (solidInterfaceVelocitynM1 s)
    (solidInterfaceResidual s) (solidHeatFluxResidual s)
    (solidTemperatureResidual s)
    omegaMax_ (/ 1000000000000)%R omegaMax_
    (solidInterfaceResidualkM1 s) (aitkenCrit s) (nbTimeToKeep s)
    (computeTangentMatrixBasedOnFirstIt s) (useQR s) (tollQR s) (qrFilter s)
    (maxNbOfItReached s) (convergenceReachedInOneIt s) (V s) (W s) (ext s)
    (out s).

Definition AlgorithmBGSAitkenRelax_init (Manager_ : Manager)
    (InterfaceInterpolator_ : InterpolatorView) (nbFSIIterMax_ : Z)
    (deltaT_ totTime_ : R) (timeIterTreshold_ : Z) (omegaMax_ : R)
    (mpiComm_ : option MpiComm) (ext_ : Ext) : Algorithm :=
  let s := AlgorithmBGSStaticRelax_init Manager_ InterfaceInterpolator_
             nbFSIIterMax_ deltaT_ totTime_ timeIterTreshold_ omegaMax_
             mpiComm_ ext_ in
  Build_Algorithm (manager s) (interfaceInterpolator s) (myid s)
    (nbFSIIterMax s) (deltaT s) (totTime s) (timeIterTreshold s)
    (writeInFSIloop s) (time s) (timeIter s) (FSIIter s) (errValue s)
    (errValue_CHT s) (FSIConv s) (totNbOfFSIIt s) (alpha_0 s) (alpha_1 s)
    (solidInterfaceVelocity s) (solidInterfaceVelocitynM1 s)
    (solidInterfaceResidual s) (solidHeatFluxResidual s)
    (solidTemperatureResidual s) (omegaMax s) (omegaMin s) (omega s)
    (FlexInterfaceData.make (getNs InterfaceInterpolator_) 3) "max"
    (nbTimeToKeep s) (computeTangentMatrixBasedOnFirstIt s) (useQR s)
    (tollQR s) (qrFilter s) (maxNbOfItReached s)
    (convergenceReachedInOneIt s) (V s) (W s) (ext s) (out s).

Definition AlgorithmIQN_ILS_init (Manager_ : Manager)
    (InterfaceInterpolator_ : InterpolatorView) (nbFSIIterMax_ : Z)
    (deltaT_ totTime_ : R) (timeIterTreshold_ : Z) (omegaMax_ : R)
    (nbTimeToKeep_ : Z) (computeTangentMatrixBasedOnFirstIt_ : bool)
    (mpiComm_ : option MpiComm) (ext_ : Ext) : Algorithm :=
  let s := AlgorithmBGSAitkenRelax_init Manager_ InterfaceInterpolator_
             nbFSIIterMax_ deltaT_ totTime_ timeIterTreshold_ omegaMax_
             mpiComm_ ext_ in
  Build_Algorithm (manager s) (interfaceInterpolator s) (myid s)
    (nbFSIIterMax s) (deltaT s) (totTime s) (timeIterTreshold s)
    (writeInFSIloop s) (time s) (timeIter s) (FSIIter s) (errValue s)
    (errValue_CHT s) (FSIConv s) (totNbOfFSIIt s) (alpha_0 s) (alpha_1 s)
    (solidInterfaceVelocity s) (solidInterfaceVelocitynM1 s)
    (solidInterfaceResidual s) (solidHeatFluxResidual s)
    (solidTemperatureResidual s) (omegaMax s) (omegaMin s) (omega s)
    (solidInterfaceResidualkM1 s) (aitkenCrit s)
    nbTimeToKeep_ computeTangentMatrixBasedOnFirstIt_ true (1 / 10)%R
    "Haelterman" false false [] [] (ext s) (out s).

(** *** Transfers between the two solvers *)

Definition solidToFluidMechaTransfer (s : Algorithm) : Algorithm :=
  let s := call (interpolateSolidDisplacementOnFluidMesh
                   (solidInterfaceDisplacement (interfaceInterpolator s))) s in
  call (setDisplacementToFluidSolver (time s)) s.

Definition fluidToSolidMechaTransfer (s : Algorithm) : Algorithm :=
  let s := call getLoadsFromFluidSolver s in
  let s := call interpolateFluidLoadsOnSolidMesh s in
  call (setLoadsToSolidSolver (time s)) s.

Definition solidToFluidThermalTransfer (s : Algorithm) : Algorithm :=
  if cht_is s "TFFB" || cht_is s "hFFB" then
    let s := call (interpolateSolidHeatFluxOnFluidMesh
                     (solidInterfaceHeatFlux (interfaceInterpolator s))) s in
    call (setHeatFluxToFluidSolver (time s)) s
  else if cht_is s "FFTB" || cht_is s "hFTB" then
    let s := call (interpolateSolidTemperatureOnFluidMesh
                     (solidInterfaceTemperature (interfaceInterpolator s))) s in
    call (setTemperatureToFluidSolver (time s)) s
  else s.

(** The interpolation of a fluid field on the solid mesh writes the solid
    field of the interpolator. *)
Definition fluidToSolidThermalTransfer (s : Algorithm) : Algorithm :=
  if cht_is s "TFFB" then
    let s := call getTemperatureFromFluidSolver s in
    let s := call interpolateFluidTemperatureOnSolidMesh s in
    let s := set_solidInterfaceTemperature
               (interpolated_solidInterfaceTemperature (ext s)
                  (solidInterfaceTemperature (interfaceInterpolator s))) s in
    call (setTemperatureToSolidSolver (time s)) s
  else if cht_is s "FFTB" then
    let s := call getHeatFluxFromFluidSolver s in
    let s := call interpolateFluidHeatFluxOnSolidMesh s in
    let s := set_solidInterfaceHeatFlux
               (interpolated_solidInterfaceHeatFlux (ext s)
                  (solidInterfaceHeatFlux (interfaceInterpolator s))) s in
    call (setHeatFluxToSolidSolver (time s)) s
  else if cht_is s "hFFB" || cht_is s "hFTB" then
    let s := call getRobinTemperatureFromFluidSolver s in
    let s := call interpolateFluidRobinTemperatureOnSolidMesh s in
    call (setRobinHeatFluxToSolidSolver (time s)) s
  else s.

(** *** Residuals *)

(** The field gathered from the local arrays of the solid solver:
    allocation, the loop over the local vertices on the processes that own
    the solid interface, [assemble()]. *)
Definition gather_solid (s : Algorithm) (nPoint nDim : Z)
    (columns : list (list R)) : Field :=
  let f := FlexInterfaceData.make nPoint nDim in
  let f :=
    if owns_solid_interface s
    then fill_from_local (manager s) (myid s)
           (getNumberOfLocalSolidInterfaceNodes (manager s)) columns f
    else f in
  assemble (ext s) f.

(** [computeSolidInterfaceResidual]; the value returned is the attribute
    [solidInterfaceResidual] of the result. *)
Definition computeSolidInterfaceResidual (s : Algorithm) : Algorithm :=
  let ns := getNs (interfaceInterpolator s) in
  let d := getd (interfaceInterpolator s) in
  let predictedDisplacement :=
    gather_solid s (ns + d) 3 (getNodalDisplacements (ext s)) in
  let s :=
    mpiPrint "Compute FSI residual based on solid interface displacement." s in
  set_solidInterfaceResidual
    (FlexInterfaceData.sub predictedDisplacement
       (solidInterfaceDisplacement (interfaceInterpolator s))) s.

Definition computeSolidInterfaceResidual_CHT (s : Algorithm)
  : Algorithm * option Field :=
  let ns := getNs (interfaceInterpolator s) in
  let d := getd (interfaceInterpolator s) in
  let predictedHF :=
    gather_solid s (ns + d) 3 (getNodalHeatFluxes (ext s)) in
  let predictedTemp :=
    gather_solid s (ns + d) 1 [getNodalTemperatures (ext s)] in
  if cht_is s "hFFB" || cht_is s "TFFB" then
    let s :=
      mpiPrint "Compute CHT residual based on solid interface heat flux." s in
    let s := set_solidHeatFluxResidual
               (FlexInterfaceData.sub predictedHF
                  (solidInterfaceHeatFlux (interfaceInterpolator s))) s in
    (s, Some (solidHeatFluxResidual s))
  else if cht_is s "hFTB" || cht_is s "FFTB" then
    let s :=
      mpiPrint "Compute CHT residual based on solid interface temperature." s in
    let s := set_solidTemperatureResidual
               (FlexInterfaceData.sub predictedTemp
                  (solidInterfaceTemperature (interfaceInterpolator s))) s in
    (s, Some (solidTemperatureResidual s))
  else (s, None).

(** *** Output *)

Definition writeRealTimeData (s : Algorithm) : Algorithm :=
  if myid s =? 0 then
    let s := call (FluidSolver_saveRealTimeData (time s) (FSIIter s)) s in
    let s :=
      if timeIter s >=? timeIterTreshold s
      then call (SolidSolver_saveRealTimeData (time s) (FSIIter s)) s
      else s in
    call (histFile_append (timeIter s) (time s) (errValue s) (errValue_CHT s)
            (FSIIter s)) s
  else s.

(** *** Relaxation *)

(** [AlgorithmBGSStaticRelax.setOmega]. *)
Definition AlgorithmBGSStaticRelax_setOmega (s : Algorithm) : Algorithm :=
  let s := set_omega (omegaMax s) s in
  mpiPrint "Static under-relaxation step with parameter {}" s.

(** [AlgorithmBGSAitkenRelax.setOmega]. *)
Definition AlgorithmBGSAitkenRelax_setOmega (s : Algorithm) : Algorithm :=
  let s :=
    if negb (FSIIter s =? 0) then
      let deltaInterfaceResidual :=
        FlexInterfaceData.sub (solidInterfaceResidual s)
          (solidInterfaceResidualkM1 s) in
      let prodScalRes_ :=
        FlexInterfaceData.dot deltaInterfaceResidual
          (solidInterfaceResidualkM1 s) in
      let prodScalRes :=
        (nth 0 prodScalRes_ 0 + nth 1 prodScalRes_ 0 + nth 2 prodScalRes_ 0)%R in
      let deltaInterfaceResidual_Norm :=
        FlexInterfaceData.norm deltaInterfaceResidual in
      let deltaResNormSquare :=
        ((nth 0 deltaInterfaceResidual_Norm 0) ^ 2
         + (nth 1 deltaInterfaceResidual_Norm 0) ^ 2
         + (nth 2 deltaInterfaceResidual_Norm 0) ^ 2)%R in
      if Req_dec_T deltaResNormSquare 0%R
      then set_omega (omegaMin s) s
      else set_omega (omega s * ((- prodScalRes) / deltaResNormSquare))%R s
    else
      if String.eqb (aitkenCrit s) "max"
      then set_omega (Rmax (omegaMax s) (omega s)) s
      else set_omega (Rmin (omegaMax s) (omega s)) s in
  let s := set_omega (Rmin (omega s) 1%R) s in
  let s := set_omega (Rmax (omega s) (omegaMin s)) s in
  let s := mpiPrint "Aitken under-relaxation step with parameter {}" s in
  set_solidInterfaceResidualkM1 (solidInterfaceResidual s) s.

(** [relaxSolidPosition] and [fsiCoupling] call [self.setOmega()], which is
    the method of the class of [self]. *)
Section Relaxation.

Variable setOmega : Algorithm -> Algorithm.

Definition relaxSolidPosition (s : Algorithm) : Algorithm :=
  let s := setOmega s in
  set_solidInterfaceDisplacement
    (FlexInterfaceData.add
       (solidInterfaceDisplacement (interfaceInterpolator s))
       (FlexInterfaceData.scale (omega s) (solidInterfaceResidual s))) s.

Definition relaxCHT (s : Algorithm) : Algorithm :=
  if cht_is s "hFFB" || cht_is s "TFFB" then
    set_solidInterfaceHeatFlux
      (FlexInterfaceData.add
         (solidInterfaceHeatFlux (interfaceInterpolator s))
         (solidHeatFluxResidual s)) s
  else if cht_is s "hFTB" || cht_is s "FFTB" then
    set_solidInterfaceTemperature
      (FlexInterfaceData.add
         (solidInterfaceTemperature (interfaceInterpolator s))
         (solidTemperatureResidual s)) s
  else s.

(** *** AlgorithmBGSStaticRelax.fsiCoupling *)

(** The cap on the sub-iterations of the current time step. *)
Definition nbFSIIter (s : Algorithm) : Z :=
  if timeIter s >? timeIterTreshold s then nbFSIIterMax s else 1.

Definition BGS_enter (s : Algorithm) : Algorithm :=
  let s :=
    if timeIter s >? timeIterTreshold s
    then mpiPrint "*************** Enter Block Gauss Seidel (BGS) method for strong coupling FSI ***************" s
    else s in
  let s := set_FSIIter 0 s in
  let s := set_FSIConv false s in
  let s := set_errValue 1000000000000%R s in
  set_errValue_CHT 1000000%R s.

(** The test of the [while]; the local [solidHasRun] travels with the
    object. *)
Definition BGS_cond (st : Algorithm * bool) : bool :=
  let s := fst st in
  (FSIIter s <? nbFSIIter s)
  && negb (criterion_isVerified (errValue s) (Some (errValue_CHT s))).

(** The body of the [while], in the order of the source: the fluid side up
    to the barrier that follows the fluid solver; under
    [timeIter > timeIterTreshold] the solid side, first the transfers, the
    solid solver and the two error values, then [FSIConv] and the
    relaxations; last the end of the sub-iteration. *)
Definition BGS_fluid_part (solidHasRun : bool) (s : Algorithm) : Algorithm :=
  let s := mpiPrint ">>>> FSI iteration {} <<<<" s in
  let s := solidToFluidMechaTransfer s in
  let s := mpiPrint "Performing mesh deformation..." s in
  let s := call (FluidSolver_meshUpdate (timeIter s)) s in
  let s :=
    if withCht (manager s) && solidHasRun
    then solidToFluidThermalTransfer s else s in
  let s := mpiPrint "Launching fluid solver..." s in
  let s := call (FluidSolver_run (time s - deltaT s) (time s)) s in
  call mpiBarrier s.

Definition BGS_errors (s : Algorithm) : Algorithm :=
  let s := mpiPrint "Processing interface fluid loads..." s in
  let s := fluidToSolidMechaTransfer s in
  let s := if withCht (manager s) then fluidToSolidThermalTransfer s else s in
  let s := call mpiBarrier s in
  let s := mpiPrint "Launching solid solver..." s in
  let s :=
    if owns_solid_solver s
    then call (SolidSolver_run (time s - deltaT s) (time s)) s else s in
  let s := computeSolidInterfaceResidual s in
  let s := set_errValue
             (criterion_update (ext s) (solidInterfaceResidual s)) s in
  let s := mpiPrint "FSI error value : {}" s in
  if withCht (manager s) then
    let s_res := computeSolidInterfaceResidual_CHT s in
    let s := set_errValue_CHT
               (criterion_updateHeatFlux (ext (fst s_res)) (snd s_res))
               (fst s_res) in
    mpiPrint "CHT error value : {}" s
  else s.

Definition BGS_solid_part (s : Algorithm) : Algorithm :=
  let s := BGS_errors s in
  let s := set_FSIConv
             (criterion_isVerified (errValue s) (Some (errValue_CHT s))) s in
  let s := mpiPrint "Processing interface displacements..." s in
  let s := relaxSolidPosition s in
  if withCht (manager s) then relaxCHT s else s.

Definition BGS_end_part (s : Algorithm) : Algorithm :=
  let s := if writeInFSIloop s then writeRealTimeData s else s in
  let s := set_FSIIter (FSIIter s + 1) s in
  let s :=
    if negb (String.eqb (computationType (manager s)) "unsteady")
    then set_time (time s + deltaT s)%R s else s in
  let s := if owns_solid_solver s then call SolidSolver_bgsUpdate s else s in
  call FluidSolver_bgsUpdate s.

Definition BGS_body (st : Algorithm * bool) : Algorithm * bool :=
  let s := BGS_fluid_part (snd st) (fst st) in
  if timeIter s >? timeIterTreshold s
  then (BGS_end_part (BGS_solid_part s), true)
  else (BGS_end_part s, snd st).

Definition BGS_leave (s : Algorithm) : Algorithm :=
  if timeIter s >? timeIterTreshold s
  then mpiPrint "*************** BGS is converged ***************" s
  else s.

(** The loop runs at most [nbFSIIter] times: that many iterations and the
    last test are given to [while_loop]. *)
Definition BGS_fsiCoupling (s : Algorithm) : option Algorithm :=
  let s0 := BGS_enter s in
  match while_loop (Datatypes.S (Z.to_nat (nbFSIIter s0))) BGS_cond BGS_body
          (s0, false) with
  | Some (s1, _) => Some (BGS_leave s1)
  | None => None
  end.

(** *** AlgorithmIQN_ILS.fsiCoupling *)

(** The locals of [fsiCoupling] that live across the iterations of its
    loop. *)
Record IQN_locals : Type := {
  res : Field;
  solidInterfaceResidual0 : Field;
  solidInterfaceDisplacement_tilde : Field;
  solidInterfaceDisplacement_tilde1 : Field;
  delta_ds : Field;
  Vk_mat : ndarray;
  Wk_mat : ndarray;
  Vk : list ndarray;
  Wk : list ndarray;
  nIt : Z
}.

Definition IQN_enter (s : Algorithm) : Algorithm * IQN_locals :=
  let s :=
    if timeIter s >? timeIterTreshold s
    then mpiPrint "*************** Enter Interface Quasi Newton - Inverse Least Square (IQN-ILS) method for strong coupling FSI ***************" s
    else s in
  let s := set_FSIIter 0 s in
  let s := set_FSIConv false s in
  let s := set_errValue 1%R s in
  let s := set_errValue_CHT 1000000%R s in
  let ns := getNs (interfaceInterpolator s) in
  let reuse := negb (nbTimeToKeep s =? 0) && (timeIter s >? 1) in
  (s,
   {| res := FlexInterfaceData.make ns 3;
      solidInterfaceResidual0 := FlexInterfaceData.make ns 3;
      solidInterfaceDisplacement_tilde := FlexInterfaceData.make ns 3;
      solidInterfaceDisplacement_tilde1 := FlexInterfaceData.make ns 3;
      delta_ds := FlexInterfaceData.make ns 3;
      Vk_mat := np_zeros (getnDim (manager s) * ns) 1;
      Wk_mat := np_zeros (getnDim (manager s) * ns) 1;
      Vk := if reuse then V s else [];
      Wk := if reuse then W s else [];
      nIt := 0 |}).

Definition IQN_cond (st : Algorithm * IQN_locals) : bool :=
  let s := fst st in
  (FSIIter s <? nbFSIIter s)
  && negb (criterion_isVerified (errValue s) (Some (errValue_CHT s))).

(** The test that sends a sub-iteration to the relaxation of
    [relaxSolidPosition] instead of the quasi-Newton correction. *)
Definition IQN_relaxes (s : Algorithm) : bool :=
  ((FSIIter s =? 0)
   && ((nbTimeToKeep s =? 0)
       || (negb (nbTimeToKeep s =? 0)
           && (maxNbOfItReached s || convergenceReachedInOneIt s
               || (timeIter s =? 1)))))
  || (timeIter s <? 1).

(** [np.concatenate] of the differences of the gathered arrays. *)
Definition concat_diff (nDim : Z) (a b : list R * list R * list R) : list R :=
  let '(aX, aY, aZ) := a in
  let '(bX, bY, bZ) := b in
  if nDim =? 3
  then py_array_sub aX bX ++ py_array_sub aY bY ++ py_array_sub aZ bZ
  else py_array_sub aX bX ++ py_array_sub aY bY.

Definition concat_res (nDim : Z) (a : list R * list R * list R) : list R :=
  let '(aX, aY, aZ) := a in
  if nDim =? 3 then aX ++ aY ++ aZ else aX ++ aY.

(** The quasi-Newton correction on the root process: the new columns of Vk
    and Wk, the matrices, the least-squares solve, the entries of
    [delta_ds]. *)
Definition IQN_root (s : Algorithm) (l : IQN_locals) : Algorithm * IQN_locals :=
  let ns := getNs (interfaceInterpolator s) in
  let nDim := getnDim (manager s) in
  let res_Gat := mpiGatherInterfaceData (res l) in
  let solidInterfaceResidual0_Gat :=
    mpiGatherInterfaceData (solidInterfaceResidual0 l) in
  let tilde_Gat := mpiGatherInterfaceData (solidInterfaceDisplacement_tilde l) in
  let tilde1_Gat :=
    mpiGatherInterfaceData (solidInterfaceDisplacement_tilde1 l) in
  let '(Vk_, Wk_, nIt_) :=
    if FSIIter s >? 0 then
      let delta_res := concat_diff nDim res_Gat solidInterfaceResidual0_Gat in
      let delta_d := concat_diff nDim tilde_Gat tilde1_Gat in
      ([delta_res] :: Vk l, [delta_d] :: Wk l, nIt l + 1)
    else (Vk l, Wk l, nIt l) in
  let Vk_mat_ := transpose (np_vstack Vk_) in
  let Wk_mat_ := transpose (np_vstack Wk_) in
  let '(s, Vk_mat_, Wk_mat_) :=
    if (shape1 Vk_mat_ >? nDim * ns) && String.eqb (qrFilter s) "Degroote1"
    then (mpiPrint "WARNING: IQN-ILS Algorithm using 'Degroote1' QR filter. Approximated stiffness matrix number of columns exceeds the number of degrees of freedom at FSI interface. Extra columns (the oldest ones!) are deleted for next iterations to avoid overdetermined problem!" s,
          first_columns (nDim * ns) Vk_mat_,
          first_columns (nDim * ns) Wk_mat_)
    else (s, Vk_mat_, Wk_mat_) in
  let dummy_Res := concat_res nDim res_Gat in
  let W_c :=
    iqn_kernel (useQR s) (qrFilter s) (tollQR s) Vk_mat_ Wk_mat_ dummy_Res in
  let delta_ds_loc :=
    np_split (FlexInterfaceData.zipWith Rplus W_c dummy_Res)
      (if nDim =? 3 then 3%nat else 2%nat) in
  let delta_ds_loc_X := nth 0 delta_ds_loc [] in
  let delta_ds_loc_Y := nth 1 delta_ds_loc [] in
  let delta_ds_loc_Z :=
    if nDim =? 3 then nth 2 delta_ds_loc []
    else repeat 0%R (Z.to_nat ns) in
  let delta_ds_ :=
    fill_from_local (manager s) (myid s)
      (Z.of_nat (List.length delta_ds_loc_X))
      [delta_ds_loc_X; delta_ds_loc_Y; delta_ds_loc_Z] (delta_ds l) in
  (s,
   {| res := res l;
      solidInterfaceResidual0 := solidInterfaceResidual0 l;
      solidInterfaceDisplacement_tilde := solidInterfaceDisplacement_tilde l;
      solidInterfaceDisplacement_tilde1 := solidInterfaceDisplacement_tilde1 l;
      delta_ds := delta_ds_;
      Vk_mat := Vk_mat_;
      Wk_mat := Wk_mat_;
      Vk := Vk_;
      Wk := Wk_;
      nIt := nIt_ |}).

Definition IQN_set_delta_ds (v : Field) (l : IQN_locals) : IQN_locals :=
  Build_IQN_locals (res l) (solidInterfaceResidual0 l)
    (solidInterfaceDisplacement_tilde l)
    (solidInterfaceDisplacement_tilde1 l) v (Vk_mat l) (Wk_mat l) (Vk l)
    (Wk l) (nIt l).

Definition IQN_fluid_part (s : Algorithm) : Algorithm :=
  let s := mpiPrint ">>>> FSI iteration {} <<<<" s in
  let s := solidToFluidMechaTransfer s in
  let s := mpiPrint "Performing mesh deformation..." s in
  let s := call (FluidSolver_meshUpdate (timeIter s)) s in
  let s := mpiPrint "Launching fluid solver..." s in
  let s := call (FluidSolver_run (time s - deltaT s) (time s)) s in
  call mpiBarrier s.

(** The solid solver, the residual [res], the error value and [FSIConv]. *)
Definition IQN_errors (s : Algorithm) : Algorithm :=
  let s := mpiPrint "Processing interface fluid loads..." s in
  let s := fluidToSolidMechaTransfer s in
  let s := call mpiBarrier s in
  let s := mpiPrint "Launching solid solver..." s in
  let s :=
    if owns_solid_solver s
    then call (SolidSolver_run (time s - deltaT s) (time s)) s else s in
  let s := computeSolidInterfaceResidual s in
  let s := set_errValue
             (criterion_update (ext s) (solidInterfaceResidual s)) s in
  let s := mpiPrint "FSI error value : {}" s in
  set_FSIConv (criterion_isVerified (errValue s) None) s.

(** [solidInterfaceDisplacement_tilde] after its update from the solid
    solver. *)
Definition IQN_tilde (s : Algorithm) (l : IQN_locals) : Field :=
  let f := solidInterfaceDisplacement_tilde l in
  let f :=
    if owns_solid_interface s
    then fill_from_local (manager s) (myid s)
           (getNumberOfLocalSolidInterfaceNodes (manager s))
           (getNodalDisplacements (ext s)) f
    else f in
  assemble (ext s) f.

(** The quasi-Newton branch: the root process computes [delta_ds], which is
    assembled and added to the solid displacement. *)
Definition IQN_correct (s : Algorithm) (l : IQN_locals)
  : Algorithm * IQN_locals :=
  let s := mpiPrint "Correct solid interface displacements using IQN-ILS method..." s in
  let sl := if myid s =? 0 then IQN_root s l else (s, l) in
  let s := call mpiBarrier (fst sl) in
  let l := IQN_set_delta_ds (assemble (ext s) (delta_ds (snd sl))) (snd sl) in
  (set_solidInterfaceDisplacement
     (FlexInterfaceData.add
        (solidInterfaceDisplacement (interfaceInterpolator s))
        (delta_ds l)) s, l).

Definition IQN_solid_part (s : Algorithm) (l : IQN_locals)
  : Algorithm * IQN_locals :=
  let s := IQN_errors s in
  let l :=
    Build_IQN_locals (solidInterfaceResidual s) (solidInterfaceResidual0 l)
      (IQN_tilde s l) (solidInterfaceDisplacement_tilde1 l) (delta_ds l)
      (Vk_mat l) (Wk_mat l) (Vk l) (Wk l) (nIt l) in
  let sl :=
    if IQN_relaxes s
    then (relaxSolidPosition
            (mpiPrint "Processing interface displacements..." s), l)
    else IQN_correct s l in
  let l := snd sl in
  let l :=
    if negb (computeTangentMatrixBasedOnFirstIt (fst sl))
       || (FSIIter (fst sl) =? 0)
    then Build_IQN_locals (res l) (res l)
           (solidInterfaceDisplacement_tilde l)
           (solidInterfaceDisplacement_tilde l) (delta_ds l) (Vk_mat l)
           (Wk_mat l) (Vk l) (Wk l) (nIt l)
    else l in
  (fst sl, l).

Definition IQN_end_part (s : Algorithm) : Algorithm :=
  let s := if writeInFSIloop s then writeRealTimeData s else s in
  set_FSIIter (FSIIter s + 1) s.

Definition IQN_body (st : Algorithm * IQN_locals) : Algorithm * IQN_locals :=
  let s := IQN_fluid_part (fst st) in
  let sl :=
    if timeIter s >? timeIterTreshold s
    then IQN_solid_part s (snd st) else (s, snd st) in
  (IQN_end_part (fst sl), snd sl).

Definition msg_IQN_max_iterations : string :=
  "WARNING: IQN-ILS using information from {} previous time steps reached max number of iterations. Next time step is run without using any information from previous time steps!".

Definition msg_IQN_one_iteration : string :=
  "WARNING: IQN-ILS algorithm convergence reached in one iteration at the beginning of the simulation. V and W matrices cannot be built. BGS will be employed for the next time step!".

(** The update of V and W at the end of the [while]. *)
Definition IQN_update_history (s : Algorithm) (l : IQN_locals) : Algorithm :=
  if negb (nbTimeToKeep s =? 0) && (timeIter s >=? 1) then
    if negb ((FSIIter s =? 1) && FSIConv s
             && (Z.of_nat (List.length (V s)) =? 0))
    then
      let s := set_convergenceReachedInOneIt false s in
      if (FSIIter s >=? nbFSIIter s) && negb (FSIConv s) then
        let s := mpiPrint msg_IQN_max_iterations s in
        let s := set_maxNbOfItReached true s in
        let s := set_V [] s in
        set_W [] s
      else
        let s := set_maxNbOfItReached false s in
        let s := mpiPrint "Updating V and W matrices..." s in
        let s := set_V (transpose (first_columns (nIt l) (Vk_mat l)) :: V s)
                   s in
        let s := set_W (transpose (first_columns (nIt l) (Wk_mat l)) :: W s)
                   s in
        if (timeIter s >? nbTimeToKeep s)
           && (Z.of_nat (List.length (V s)) >? nbTimeToKeep s)
        then set_W (removelast (W s)) (set_V (removelast (V s)) s)
        else s
    else
      let s := mpiPrint msg_IQN_one_iteration s in
      set_convergenceReachedInOneIt true s
  else s.

Definition IQN_leave (s : Algorithm) : Algorithm :=
  if timeIter s >? timeIterTreshold s
  then mpiPrint "*************** IQN-ILS is converged ***************" s
  else s.

Definition IQN_fsiCoupling (s : Algorithm) : option Algorithm :=
  let '(s0, l0) := IQN_enter s in
  match while_loop (Datatypes.S (Z.to_nat (nbFSIIter s0))) IQN_cond IQN_body
          (s0, l0) with
  | Some (s1, l1) => Some (IQN_leave (IQN_update_history s1 l1))
  | None => None
  end.

End Relaxation.

(** The classes bind [setOmega]: [AlgorithmBGSStaticRelax] to the static
    rule, [AlgorithmBGSAitkenRelax] and its subclass [AlgorithmIQN_ILS] to
    the rule of Aitken. *)
Definition AlgorithmBGSStaticRelax_relaxSolidPosition :=
  relaxSolidPosition AlgorithmBGSStaticRelax_setOmega.

Definition AlgorithmBGSStaticRelax_fsiCoupling :=
  BGS_fsiCoupling AlgorithmBGSStaticRelax_setOmega.

Definition AlgorithmBGSAitkenRelax_fsiCoupling :=
  BGS_fsiCoupling AlgorithmBGSAitkenRelax_setOmega.

Definition AlgorithmIQN_ILS_fsiCoupling :=
  IQN_fsiCoupling AlgorithmBGSAitkenRelax_setOmega.

(** *** Vocabulary of the properties *)

(** The object after [j] sub-iterations of the loop of the static BGS
    scheme, and what the criterion answers on its error values. *)
Definition BGS_after (s : Algorithm) (j : nat) : Algorithm :=
  fst (Nat.iter j (BGS_body AlgorithmBGSStaticRelax_setOmega)
         (BGS_enter s, false)).

Definition BGS_verified_after (s : Algorithm) (j : nat) : bool :=
  criterion_isVerified (errValue (BGS_after s j))
    (Some (errValue_CHT (BGS_after s j))).

(** The attributes that steer the loops and the history of IQN-ILS. *)
Definition cfg (s : Algorithm) :=
  (manager s, myid s, nbFSIIterMax s, timeIterTreshold s, timeIter s,
   (nbTimeToKeep s, V s, W s, maxNbOfItReached s,
    convergenceReachedInOneIt s)).

Definition ctl (s : Algorithm) :=
  (cfg s, FSIIter s, (errValue s, errValue_CHT s, FSIConv s)).

(** *** The time loop: Algorithm.run

    [run] is the one place that handles exceptions.  A computation of the
    time loop either returns, or raises, or is cut short by the bound on the
    iterations of its loops ([None]).  The calls on the solvers may raise
    ([attempt]); prints, MPI barriers and the real-time output complete. *)

Definition M (A : Type) : Type := Algorithm -> option (result A * Algorithm).

Definition ret {A : Type} (a : A) : M A := fun s => Some (Ok a, s).

Definition bind {A B : Type} (m : M A) (k : A -> M B) : M B :=
  fun s =>
    match m s with
    | Some (Ok a, s1) => k a s1
    | Some (Raise e, s1) => Some (Raise e, s1)
    | None => None
    end.

Definition seq_ (m1 m2 : M unit) : M unit := bind m1 (fun _ => m2).

Definition lift (f : Algorithm -> Algorithm) : M unit :=
  fun s => Some (Ok tt, f s).

Definition lift_option (f : Algorithm -> option Algorithm) : M unit :=
  fun s =>
    match f s with
    | Some s1 => Some (Ok tt, s1)
    | None => None
    end.

Definition raise {A : Type} (e : exn) : M A := fun s => Some (Raise e, s).

(** A call on a collaborator: it is made, then it returns or raises. *)
Definition attempt (c : Call) : M unit :=
  fun s =>
    match raises c (ext s) with
    | Some e => Some (Raise e, call c s)
    | None => Some (Ok tt, call c s)
    end.

Definition when_ (cond : Algorithm -> bool) (m : M unit) : M unit :=
  fun s => if cond s then m s else Some (Ok tt, s).

Fixpoint sequence_ (ms : list (M unit)) : M unit :=
  match ms with
  | [] => ret tt
  | m :: ms' => seq_ m (sequence_ ms')
  end.

Fixpoint while_m (fuel : nat) (cond : Algorithm -> bool) (body : M unit)
  : M unit :=
  fun s =>
    match fuel with
    | O => None
    | Datatypes.S fuel' =>
        if cond s
        then match body s with
             | Some (Ok _, s1) => while_m fuel' cond body s1
             | other => other
             end
        else Some (Ok tt, s)
    end.

(** [try: body except: handler finally: final], with the bare [except:] of
    the source, which catches every exception. *)
Definition try_except_finally (body : M unit) (handler : exn -> M unit)
    (final : M unit) : M unit :=
  fun s =>
    match body s with
    | Some (Ok _, s1) => final s1
    | Some (Raise e, s1) =>
        match handler e s1 with
        | Some (Ok _, s2) => final s2
        | Some (Raise e', s2) =>
            match final s2 with
            | Some (Ok _, s3) => Some (Raise e', s3)
            | other => other
            end
        | None => None
        end
    | None => None
    end.

(** [int(x)] of Python: truncation towards zero. *)
Definition py_int (x : R) : Z :=
  if Rle_dec 0 x then Int_part x else (- Int_part (- x))%Z.

Definition iniRealTimeData : M unit :=
  seq_ (when_ owns_solid_solver (attempt SolidSolver_initRealTimeData))
       (attempt histFile_create).

Definition setInitialInterfaceThermal : M unit :=
  when_ (fun s => withCht (manager s))
    (fun s =>
       if cht_is s "hFFB" || cht_is s "TFFB"
       then attempt FluidSolver_setInitialInterfaceHeatFlux s
       else if cht_is s "hFTB" || cht_is s "FFTB"
       then attempt FluidSolver_setInitialInterfaceTemperature s
       else ret tt s).

(** [interfaceInterpolator.getDisplacementFromSolidSolver()] writes the
    solid displacement field of the interpolator. *)
Definition getDisplacement : M unit :=
  seq_ (attempt getDisplacementFromSolidSolver)
       (lift (fun s =>
                set_solidInterfaceDisplacement
                  (gathered_solidInterfaceDisplacement (ext s)
                     (solidInterfaceDisplacement (interfaceInterpolator s)))
                  s)).

(** [Algorithm.setFSIInitialConditions]. *)
Definition setFSIInitialConditions : M unit :=
  fun s =>
    if String.eqb (computationType (manager s)) "unsteady" then
      sequence_
        [when_ owns_solid_solver (attempt SolidSolver_setInitialDisplacements);
         getDisplacement;
         (fun s =>
            attempt (interpolateSolidDisplacementOnFluidMesh
                       (solidInterfaceDisplacement (interfaceInterpolator s)))
              s);
         (fun s => attempt (setDisplacementToFluidSolver (time s)) s);
         attempt FluidSolver_setInitialMeshDeformation;
         setInitialInterfaceThermal] s
    else
      sequence_ [getDisplacement; setInitialInterfaceThermal] s.

(** [solidDisplacementPredictor]. *)
Definition solidDisplacementPredictor (s : Algorithm) : Algorithm :=
  let n := getNumberOfLocalSolidInterfaceNodes (manager s) in
  let s :=
    if owns_solid_interface s then
      let s := set_solidInterfaceVelocity
                 (fill_from_local (manager s) (myid s) n
                    (getNodalVelocity (ext s)) (solidInterfaceVelocity s)) s in
      set_solidInterfaceVelocitynM1
        (fill_from_local (manager s) (myid s) n
           (getNodalVelocityNm1 (ext s)) (solidInterfaceVelocitynM1 s)) s
    else s in
  let s := set_solidInterfaceVelocity
             (assemble (ext s) (solidInterfaceVelocity s)) s in
  let s := set_solidInterfaceVelocitynM1
             (assemble (ext s) (solidInterfaceVelocitynM1 s)) s in
  set_solidInterfaceDisplacement
    (FlexInterfaceData.add
       (solidInterfaceDisplacement (interfaceInterpolator s))
       (FlexInterfaceData.add
          (FlexInterfaceData.scale (alpha_0 s * deltaT s)
             (solidInterfaceVelocity s))
          (FlexInterfaceData.scale (alpha_1 s * deltaT s)
             (FlexInterfaceData.sub (solidInterfaceVelocity s)
                (solidInterfaceVelocitynM1 s))))) s.

Definition msg_divine_error : string :=
  "A DIVINE ERROR OCCURED...EXITING COMPUTATION".

Definition msg_successful_run (s : Algorithm) : string :=
  if Rle_dec (totTime s - 2 * deltaT s) (time s)
  then "[Successful Run FSI]: True"
  else "[Successful Run FSI]: False".

(** [printExitInfo]. *)
Definition printExitInfo (s : Algorithm) : Algorithm :=
  let s := mpiPrint "[cpu FSI total]: {} s" s in
  let s := mpiPrint "[cpu FSI fluid mesh mapping]: {} s" s in
  let s := mpiPrint "[cpu FSI fluid mesh deformation]: {} s" s in
  let s := mpiPrint "[cpu FSI communications]: {} s" s in
  let s := mpiPrint "[cpu FSI fluid solver]: {} s" s in
  let s := mpiPrint "[cpu FSI solid solver]: {} s" s in
  let s := mpiPrint "[cpu FSI fluid remeshing]: {} s" s in
  let s := mpiPrint "[cpu FSI solid remeshing]: {} s" s in
  let s := mpiPrint "[Time steps FSI]: {}" s in
  let s := mpiPrint (msg_successful_run s) s in
  let s := mpiPrint "[Mean n. of FSI Iterations]: {}" s in
  let s :=
    if myid s =? 0 then
      let s := call (FluidSolver_printRealTimeData (time s) (FSIIter s)) s in
      call (SolidSolver_printRealTimeData (time s) (FSIIter s)) s
    else s in
  mpiPrint "RES-FSI-FSIhistory: {}" s.

(** The [except:] clause and the [finally:] clause of [run]. *)
Definition run_except (e : exn) : M unit :=
  lift (fun s =>
          let s := mpiPrint msg_divine_error s in
          set_out (out s ++ [TracebackPrinted e]) s).

Definition run_finally : M unit :=
  sequence_
    [lift (call mpiBarrier);
     lift (mpiPrint "*    End FSI computation    *");
     lift printExitInfo;
     when_ owns_solid_solver (attempt SolidSolver_exit);
     attempt FluidSolver_exit;
     lift (call mpiBarrier)].

(** [fsiCoupling] is a method of the subclasses: [run] and [__unsteadyRun]
    call the one of the class of [self]. *)
Section Run.

Variable fsiCoupling : M unit.

(** One pass of the [while] of [__unsteadyRun], around the call of
    [fsiCoupling]. *)
Definition unsteady_before_fsiCoupling : M unit :=
  sequence_
    [lift (mpiPrint ">>>> Time iteration {} <<<<");
     (fun s => attempt (FluidSolver_preprocessTimeIter (timeIter s)) s);
     when_ owns_solid_solver
       (fun s => attempt (SolidSolver_preprocessTimeIter (timeIter s)) s)].

Definition unsteady_after_fsiCoupling : M unit :=
  sequence_
    [lift (call mpiBarrier);
     lift (fun s =>
             if timeIter s >? 0
             then set_totNbOfFSIIt (totNbOfFSIIt s + FSIIter s) s else s);
     when_ owns_solid_solver (attempt SolidSolver_update);
     (fun s => attempt (FluidSolver_update (deltaT s)) s);
     (fun s => attempt (FluidSolver_save (timeIter s)) s);
     when_ owns_solid_solver (attempt SolidSolver_save);
     lift writeRealTimeData;
     when_ owns_solid_solver (attempt SolidSolver_remeshing);
     attempt FluidSolver_remeshing;
     when_ (fun s => timeIter s >=? timeIterTreshold s)
       (lift (fun s =>
                solidDisplacementPredictor
                  (mpiPrint "Solid displacement prediction for next time step"
                     s)));
     lift (fun s => set_timeIter (timeIter s + 1) s);
     lift (fun s => set_time (time s + deltaT s)%R s)].

Definition unsteady_iteration : M unit :=
  sequence_
    [unsteady_before_fsiCoupling; fsiCoupling; unsteady_after_fsiCoupling].

(** [__unsteadyRun]. *)
Definition unsteadyRun (fuel : nat) : M unit :=
  fun s =>
    if Req_dec_T (deltaT s) 0%R
    then raise (ZeroDivisionError "float division by zero") s
    else
      let nbTimeIter := py_int (totTime s / deltaT s - 1) in
      seq_ (lift (mpiPrint "Begin time integration"))
           (while_m fuel (fun s => timeIter s <=? nbTimeIter)
              unsteady_iteration) s.

(** The body of the [try:] of [run]. *)
Definition run_try (fuel : nat) : M unit :=
  fun s =>
    if String.eqb (computationType (manager s)) "unsteady"
    then unsteadyRun fuel s
    else
      sequence_
        [lift (fun s => set_time (totTime s) s);
         lift (set_timeIter 1);
         lift (fun s => set_deltaT (totTime s) s);
         lift (set_writeInFSIloop true);
         fsiCoupling;
         lift (fun s => set_totNbOfFSIIt (FSIIter s) s)] s.

(** What [run] does before the [try:]. *)
Definition run_prelude : M unit :=
  sequence_
    [iniRealTimeData;
     lift (mpiPrint "*         Begin FSI computation            *");
     lift (mpiPrint "Setting FSI initial conditions...");
     setFSIInitialConditions;
     lift (mpiPrint "FSI initial conditions are set")].

(** [Algorithm.run]. *)
Definition run (fuel : nat) : M unit :=
  seq_ run_prelude
       (try_except_finally (run_try fuel) run_except run_finally).

End Run.

(** *** The states in which fsiCoupling returns during a run

    [IQN_returned s0 s]: in a run of a freshly built [AlgorithmIQN_ILS]
    object [s0], some call of [fsiCoupling] has just returned in state [s].
    The first call follows the prelude of [run] (and, in an unsteady run, the
    start of the first pass of the time loop); a later call follows the end
    of a pass whose calls all returned and the start of the next. *)
Definition IQN_fsiCoupling_m : M unit :=
  lift_option AlgorithmIQN_ILS_fsiCoupling.

Definition steady_before_fsiCoupling : M unit :=
  sequence_
    [lift (fun s => set_time (totTime s) s);
     lift (set_timeIter 1);
     lift (fun s => set_deltaT (totTime s) s);
     lift (set_writeInFSIloop true)].

Inductive IQN_returned (s0 : Algorithm) : Algorithm -> Prop :=
| IQN_returned_first_unsteady (s1 s2 s3 : Algorithm) :
    run_prelude s0 = Some (Ok tt, s1) ->
    String.eqb (computationType (manager s1)) "unsteady" = true ->
    unsteady_before_fsiCoupling s1 = Some (Ok tt, s2) ->
    AlgorithmIQN_ILS_fsiCoupling s2 = Some s3 ->
    IQN_returned s0 s3
| IQN_returned_steady (s1 s2 s3 : Algorithm) :
    run_prelude s0 = Some (Ok tt, s1) ->
    String.eqb (computationType (manager s1)) "unsteady" = false ->
    steady_before_fsiCoupling s1 = Some (Ok tt, s2) ->
    AlgorithmIQN_ILS_fsiCoupling s2 = Some s3 ->
    IQN_returned s0 s3
| IQN_returned_next (s s1 s2 s3 : Algorithm) :
    IQN_returned s0 s ->
    String.eqb (computationType (manager s)) "unsteady" = true ->
    unsteady_after_fsiCoupling s = Some (Ok tt, s1) ->
    unsteady_before_fsiCoupling s1 = Some (Ok tt, s2) ->
    AlgorithmIQN_ILS_fsiCoupling s2 = Some s3 ->
    IQN_returned s0 s3.

(** A computation of the time loop that leaves [ctl] as it is, whatever its
    outcome. *)
Definition keeps_ctl (m : M unit) : Prop :=
  forall s r s', m s = Some (r, s') -> ctl s' = ctl s.

(** *** class ThermalAlgorithmBGS *)

(** [ThermalAlgorithmBGS.__init__]: the static scheme with [omegaMax = 1.0]. *)
Definition ThermalAlgorithmBGS_init (Manager_ : Manager)
    (InterfaceInterpolator_ : InterpolatorView) (nbFSIIterMax_ : Z)
    (deltaT_ totTime_ : R) (timeIterTreshold_ : Z)
    (mpiComm_ : option MpiComm) (ext_ : Ext) : Algorithm :=
  AlgorithmBGSStaticRelax_init Manager_ InterfaceInterpolator_ nbFSIIterMax_
    deltaT_ totTime_ timeIterTreshold_ 1%R mpiComm_ ext_.

(** [ThermalAlgorithmBGS.setFSIInitialConditions]. *)
Definition ThermalAlgorithmBGS_setFSIInitialConditions : M unit :=
  fun s =>
    if cht_is s "hFFB" || cht_is s "TFFB"
    then attempt FluidSolver_setInitialInterfaceHeatFlux s
    else if cht_is s "hFTB" || cht_is s "FFTB"
    then attempt FluidSolver_setInitialInterfaceTemperature s
    else ret tt s.

(** [ThermalAlgorithmBGS.fsiCoupling], cut like the loop of the static BGS
    scheme; the end of a sub-iteration and the line printed on exit are those
    of [AlgorithmBGSStaticRelax.fsiCoupling]. *)
Definition Thermal_enter (s : Algorithm) : Algorithm :=
  let s :=
    if timeIter s >? timeIterTreshold s
    then mpiPrint "*************** Enter Block Gauss Seidel (BGS) method for strong coupling CHT ***************" s
    else s in
  let s := set_FSIIter 0 s in
  let s := set_FSIConv false s in
  let s := set_errValue 0%R s in
  set_errValue_CHT 1000000000000%R s.

Definition Thermal_fluid_part (solidHasRun : bool) (s : Algorithm)
  : Algorithm :=
  let s := mpiPrint ">>>> FSI iteration {} <<<<" s in
  let s := if solidHasRun then solidToFluidThermalTransfer s else s in
  let s := mpiPrint "Launching fluid solver..." s in
  let s := call (FluidSolver_run (time s - deltaT s) (time s)) s in
  call mpiBarrier s.

Definition Thermal_solid_part (s : Algorithm) : Algorithm :=
  let s := fluidToSolidThermalTransfer s in
  let s := call mpiBarrier s in
  let s := mpiPrint "Launching solid solver..." s in
  let s :=
    if owns_solid_solver s
    then call (SolidSolver_run (time s - deltaT s) (time s)) s else s in
  let s_res := computeSolidInterfaceResidual_CHT s in
  let s := set_errValue_CHT
             (criterion_updateHeatFlux (ext (fst s_res)) (snd s_res))
             (fst s_res) in
  let s := mpiPrint "CHT error value : {}" s in
  let s := set_FSIConv
             (criterion_isVerified (errValue s) (Some (errValue_CHT s))) s in
  relaxCHT s.

Definition Thermal_body (st : Algorithm * bool) : Algorithm * bool :=
  let s := Thermal_fluid_part (snd st) (fst st) in
  if timeIter s >? timeIterTreshold s
  then (BGS_end_part (Thermal_solid_part s), true)
  else (BGS_end_part s, snd st).

Definition ThermalAlgorithmBGS_fsiCoupling (s : Algorithm)
  : option Algorithm :=
  let s0 := Thermal_enter s in
  match while_loop (Datatypes.S (Z.to_nat (nbFSIIter s0))) BGS_cond
          Thermal_body (s0, false) with
  | Some (s1, _) => Some (BGS_leave s1)
  | None => None
  end.

(** *** More vocabulary of the properties *)

(** The clock of the computation and the count of sub-iterations. *)
Definition clock (s : Algorithm) :=
  (time s, deltaT s, totNbOfFSIIt s, computationType (manager s)).

(** What the solid side of a sub-iteration works on. *)
Definition solid_side (s : Algorithm) :=
  (interfaceInterpolator s, omega s, solidInterfaceResidual s).

(** What the mechanical coupling works on and the thermal one leaves. *)
Definition mechanics (s : Algorithm) :=
  (solidInterfaceDisplacement (interfaceInterpolator s), errValue s, omega s,
   solidInterfaceResidual s).

(** A computation of the time loop that leaves [f] of the object as it is,
    whatever its outcome. *)
Definition keeps {A : Type} (f : Algorithm -> A) (m : M unit) : Prop :=
  forall s r s', m s = Some (r, s') -> f s' = f s.

End Coupling.

(** ** class FsiSolidTestAlgorithm

    The fake FSI driver of a solid solver: [nt] time steps of size [dt], each
    computed twice, then accepted.  The solid solver is an object with a
    state; its five methods are the variables of the section. *)
Module FsiSolidTestAlgorithm.

Inductive SolidCall : Type :=
| solid_fakeFluidSolver (t : R)
| solid_run (t1 t2 : R)
| solid_getNodalDisplacements
| solid_update
| solid_save.

(** What [run] prints: a fixed line, the formatted line with its three
    values, an array. *)
Inductive Output : Type :=
| Line (msg : string)
| Running (t1 t2 : R) (try : Z)
| Array (a : list R)
| Made (c : SolidCall).

Section Def.

Variable Solid : Type.
Variable fakeFluidSolver : R -> Solid -> Solid.
Variable run_solid : R -> R -> Solid -> Solid.
Variable getNodalDisplacements : Solid -> list R * list R * list R.
Variable update : Solid -> Solid.
Variable save : Solid -> Solid.

Definition rule : string :=
  "================================================================================".

(** The body of [for i in range(2)]. *)
Definition try_step (t1 dt : R) (i : Z) (st : Solid * list Output)
  : Solid * list Output :=
  let '(solid, out) := st in
  let t2 := (t1 + dt)%R in
  let solid := fakeFluidSolver t2 solid in
  let out := out ++ [Made (solid_fakeFluidSolver t2)] in
  let out := out ++ [Line rule; Running t1 t2 (i + 1); Line rule] in
  let solid := run_solid t1 t2 solid in
  let out := out ++ [Made (solid_run t1 t2)] in
  let '(dx, dy, dz) := getNodalDisplacements solid in
  let out := out ++ [Made solid_getNodalDisplacements] in
  (solid, out ++ [Array dx; Array dy; Array dz]).

(** The body of [for j in range(nt)]: the new [t1] is the last [t2]. *)
Definition time_step (dt : R) (st : R * (Solid * list Output))
  : R * (Solid * list Output) :=
  let '(t1, so) := st in
  let so := fold_left (fun so i => try_step t1 dt i so) [0; 1] so in
  let '(solid, out) := so in
  let solid := update solid in
  let out := out ++ [Made solid_update] in
  let solid := save solid in
  let out := out ++ [Made solid_save] in
  ((t1 + dt)%R, (solid, out)).

Definition run_steps (nt : nat) (t1 dt : R) (solid : Solid)
  : R * (Solid * list Output) :=
  Nat.iter nt (time_step dt) (t1, (solid, [])).

(** [FsiSolidTestAlgorithm.run]: [t1 = 0.0], [dt = 0.5], [nt = 10]. *)
Definition run (solid : Solid) : R * (Solid * list Output) :=
  run_steps 10 0 (1 / 2) solid.

(** The time windows of the calls of [solid.run], in order. *)
Fixpoint runs (out : list Output) : list (R * R) :=
  match out with
  | [] => []
  | Made (solid_run t1 t2) :: out' => (t1, t2) :: runs out'
  | _ :: out' => runs out'
  end.

(** The time windows of [n] time steps of size [dt] from [t1], each one
    twice. *)
Fixpoint windows (n : nat) (t1 dt : R) : list (R * R) :=
  match n with
  | O => []
  | S n' =>
      (t1, (t1 + dt)%R) :: (t1, (t1 + dt)%R) :: windows n' (t1 + dt)%R dt
  end.

Definition is_update (o : Output) : bool :=
  match o with Made solid_update => true | _ => false end.

Definition is_save (o : Output) : bool :=
  match o with Made solid_save => true | _ => false end.

End Def.
End FsiSolidTestAlgorithm.

(** ** Small configurations

    A one-process configuration with matching meshes of two nodes, used to
    run the definitions on concrete inputs. *)

Definition test_manager (nf_ ns_ : Z) (cht : bool) (computation : string)
  : Manager :=
  {| getNumberOfFluidInterfaceNodes := nf_;
     getNumberOfSolidInterfaceNodes := ns_;
     getNumberOfLocalFluidInterfaceNodes := nf_;
     getNumberOfLocalSolidInterfaceNodes := ns_;
     getnDim := 3;
     withFsi := true;
     withCht := cht;
     computationType := computation;
     getSolidSolverProcessors := [0];
     getSolidInterfaceProcessors := [0];
     getFluidInterfaceProcessors := [0];
     getGlobalIndex := fun _ _ iVertex => iVertex |}.

(** Matrices without content: what the constructors do does not depend on
    the coefficients. *)
Definition test_algebra : InterfaceAlgebra :=
  {| InterfaceMatrix := unit;
     InterfaceMatrix_mult := fun _ _ y => y;
     LinearSolver := unit;
     LinearSolver_init := fun _ => tt;
     LinearSolver_solve := fun _ _ x => x;
     matching_matrices := fun _ => (tt, tt) |}.

(** Solvers that do nothing and never raise, with a criterion that answers
    [verified] whatever the errors. *)
Definition still_collaborators (verified : bool) : Collaborators :=
  {| Ext := unit;
     collaborate := fun _ e => e;
     raises := fun _ _ => None;
     getNodalDisplacements := fun _ => [[]; []; []];
     getNodalHeatFluxes := fun _ => [[]; []; []];
     getNodalTemperatures := fun _ => [];
     getNodalVelocity := fun _ => [[]; []; []];
     getNodalVelocityNm1 := fun _ => [[]; []; []];
     assemble := fun _ f => f;
     gathered_solidInterfaceDisplacement := fun _ f => f;
     interpolated_solidInterfaceTemperature := fun _ f => f;
     interpolated_solidInterfaceHeatFlux := fun _ f => f;
     criterion_update := fun _ _ => 0%R;
     criterion_updateHeatFlux := fun _ _ => 0%R;
     criterion_isVerified := fun _ _ => verified;
     iqn_kernel := fun _ _ _ _ _ r => r |}.

(** Solvers whose state counts the runs of the solid solver; the error is 10
    after the first run and 0 from the second on, and the criterion has
    tolerance 1. *)
Definition converging_collaborators : Collaborators :=
  {| Ext := nat;
     collaborate :=
       fun c e => match c with SolidSolver_run _ _ => S e | _ => e end;
     raises := fun _ _ => None;
     getNodalDisplacements := fun _ => [[]; []; []];
     getNodalHeatFluxes := fun _ => [[]; []; []];
     getNodalTemperatures := fun _ => [];
     getNodalVelocity := fun _ => [[]; []; []];
     getNodalVelocityNm1 := fun _ => [[]; []; []];
     assemble := fun _ f => f;
     gathered_solidInterfaceDisplacement := fun _ f => f;
     interpolated_solidInterfaceTemperature := fun _ f => f;
     interpolated_solidInterfaceHeatFlux := fun _ f => f;
     criterion_update :=
       fun e _ => match e with O | S O => 10%R | _ => 0%R end;
     criterion_updateHeatFlux := fun _ _ => 0%R;
     criterion_isVerified :=
       fun err _ => if Rlt_dec err 1 then true else false;
     iqn_kernel := fun _ _ _ _ _ r => r |}.

Definition test_view (cht : option string) : InterpolatorView :=
  {| chtTransferMethod := cht;
     getNs := 2;
     getd := 0;
     solidInterfaceDisplacement := FlexInterfaceData.make 2 3;
     solidInterfaceHeatFlux := FlexInterfaceData.make 2 3;
     solidInterfaceTemperature := FlexInterfaceData.make 2 1 |}.

(** The interpolator of a one-process run without MPI, with the Robin
    transfer method hFTB and the default coefficient 1.0. *)
Definition robin_interpolator : InterfaceInterpolator.t :=
  @MatchingMeshesInterpolator.generateInterfaceData
    (snd (InterfaceInterpolator.init (test_manager 2 2 true "unsteady") None
            (Some "hFTB") (PyFloat 1))).


(** ** Concrete objects *)

(** An Aitken object in a sub-iteration other than the first, with
    r_k = (1, 0, 0) and r_(k-1) = (3, 0, 0) at its only node. *)
Definition aitken_example : @Algorithm (still_collaborators false) :=
  set_FSIIter 1
    (set_solidInterfaceResidual [[1%R]; [0%R]; [0%R]]
       (set_solidInterfaceResidualkM1 [[3%R]; [0%R]; [0%R]]
          (AlgorithmBGSAitkenRelax_init
             (collaborators := still_collaborators false)
             (test_manager 2 2 false "unsteady") (test_view None) 5 1 10
             (-1) (1 / 2) None tt))).

(** A static BGS object with at most five sub-iterations, whose criterion is
    satisfied by any error values, the initial ones included. *)
Definition satisfied_BGS : @Algorithm (still_collaborators true) :=
  AlgorithmBGSStaticRelax_init (collaborators := still_collaborators true)
    (test_manager 2 2 false "unsteady")
    (test_view None) 5 1 10 (-1) 1 None tt.

(** A static BGS object with at most five sub-iterations, whose criterion is
    satisfied from the second run of the solid solver on. *)
Definition converging_BGS : @Algorithm converging_collaborators :=
  AlgorithmBGSStaticRelax_init (collaborators := converging_collaborators)
    (test_manager 2 2 false "unsteady")
    (test_view None) 5 1 10 (-1) 1 None 0%nat.

(** A fresh IQN-ILS object ([timeIter = 0]) that keeps two time steps, with
    at most one sub-iteration and a criterion that is never satisfied. *)
Definition fresh_IQN : @Algorithm (still_collaborators false) :=
  AlgorithmIQN_ILS_init (collaborators := still_collaborators false)
    (test_manager 2 2 false "unsteady") (test_view None)
    1 1 10 (-1) 1 2 false None tt.

(** A fresh IQN-ILS object that keeps two time steps, whose criterion is
    satisfied by any error values. *)
Definition satisfied_IQN : @Algorithm (still_collaborators true) :=
  AlgorithmIQN_ILS_init (collaborators := still_collaborators true)
    (test_manager 2 2 false "unsteady") (test_view None)
    3 1 10 (-1) 1 2 false None tt.

(** A steady static BGS object, and an [fsiCoupling] that raises. *)
Definition steady_BGS : @Algorithm (still_collaborators false) :=
  AlgorithmBGSStaticRelax_init (collaborators := still_collaborators false)
    (test_manager 2 2 false "steady")
    (test_view None) 5 1 10 (-1) 1 None tt.

Definition failing_fsiCoupling : @M (still_collaborators false) unit :=
  raise (collaborators := still_collaborators false)
    (SolverError "the fluid solver diverged").

(** A static BGS object still below its time threshold of three time
    steps. *)
Definition warming_BGS : @Algorithm (still_collaborators false) :=
  AlgorithmBGSStaticRelax_init (collaborators := still_collaborators false)
    (test_manager 2 2 false "unsteady")
    (test_view None) 5 1 10 3 1 None tt.

(** An unsteady static BGS object with a zero time step. *)
Definition zero_step_BGS : @Algorithm (still_collaborators false) :=
  AlgorithmBGSStaticRelax_init (collaborators := still_collaborators false)
    (test_manager 2 2 false "unsteady")
    (test_view None) 5 0 10 (-1) 1 None tt.

(** Solvers that do nothing, of which the solid one raises on [exit()]. *)
Definition failing_exit_collaborators : Collaborators :=
  {| Ext := unit;
     collaborate := fun _ e => e;
     raises :=
       fun c _ =>
         match c with
         | SolidSolver_exit => Some (SolverError "the solid solver cannot exit")
         | _ => None
         end;
     getNodalDisplacements := fun _ => [[]; []; []];
     getNodalHeatFluxes := fun _ => [[]; []; []];
     getNodalTemperatures := fun _ => [];
     getNodalVelocity := fun _ => [[]; []; []];
     getNodalVelocityNm1 := fun _ => [[]; []; []];
     assemble := fun _ f => f;
     gathered_solidInterfaceDisplacement := fun _ f => f;
     interpolated_solidInterfaceTemperature := fun _ f => f;
     interpolated_solidInterfaceHeatFlux := fun _ f => f;
     criterion_update := fun _ _ => 0%R;
     criterion_updateHeatFlux := fun _ _ => 0%R;
     criterion_isVerified := fun _ _ => true;
     iqn_kernel := fun _ _ _ _ _ r => r |}.

Definition failing_exit_BGS : @Algorithm failing_exit_collaborators :=
  AlgorithmBGSStaticRelax_init (collaborators := failing_exit_collaborators)
    (test_manager 2 2 false "steady")
    (test_view None) 5 1 10 (-1) 1 None tt.

(** The interpolator of the process of rank 0 of a run on two processes,
    with the Robin transfer method hFTB and the coefficient 2.0. *)
Definition robin_interpolator_mpi : InterfaceInterpolator.t :=
  @MatchingMeshesInterpolator.generateInterfaceData
    (snd (InterfaceInterpolator.init (test_manager 2 2 true "unsteady")
            (Some {| Get_rank := 0; Get_size := 2 |}) (Some "hFTB")
            (PyFloat 2))).

(** * Properties *)

(** ** Interface fields *)

Section FieldFacts.

Open Scope R_scope.

Lemma Rsum_squares_nonneg (l : list R) :
  0 <= FlexInterfaceData.Rsum (map (fun v => v * v) l).
Proof.
  induction l as [|x l IH]; simpl.
  - lra.
  - pose proof (Rle_0_sqr x) as Hx. unfold Rsqr in Hx. lra.
Qed.

Lemma norm_column_squared (l : list R) :
  sqrt (FlexInterfaceData.Rsum (map (fun v => v * v) l)) ^ 2 =
  FlexInterfaceData.Rsum (map (fun v => v * v) l).
Proof. apply pow2_sqrt, Rsum_squares_nonneg. Qed.

Lemma scale_1 (f : Field) : FlexInterfaceData.scale 1 f = f.
Proof.
  unfold FlexInterfaceData.scale.
  induction f as [|c f IH]; simpl; [reflexivity|].
  rewrite IH. f_equal.
  induction c as [|x c IHc]; simpl; [reflexivity|].
  rewrite IHc. f_equal. lra.
Qed.

End FieldFacts.

(** ** Interpolators *)

Section InterpolatorTheorems.

Context {LA : InterfaceAlgebra}.

(** C6. The constructor of the matching-mesh interpolator fails exactly when
    the fluid and the solid interface have different node counts, and then
    with the exception raised at construction; when it returns an
    interpolator the two counts are equal. *)
Theorem matching_init_node_counts (Manager_ : Manager)
    (mpiComm_ : option MpiComm) (chtTransferMethod_ : option string)
    (heatTransferCoeff_ : pyval) :
  match snd (MatchingMeshesInterpolator.init Manager_ mpiComm_
               chtTransferMethod_ heatTransferCoeff_) with
  | Ok self =>
      getNumberOfFluidInterfaceNodes Manager_ =
      getNumberOfSolidInterfaceNodes Manager_
      /\ InterfaceInterpolator.nf (MatchingMeshesInterpolator.base self) =
         InterfaceInterpolator.ns (MatchingMeshesInterpolator.base self)
  | Raise e =>
      getNumberOfFluidInterfaceNodes Manager_ <>
      getNumberOfSolidInterfaceNodes Manager_
      /\ e = Exception MatchingMeshesInterpolator.msg_matching_nodes
  end.
Proof.
  unfold MatchingMeshesInterpolator.init, InterfaceInterpolator.init.
  destruct (withCht Manager_);
    [destruct (negb (in_strings chtTransferMethod_ valid_chtTransferMethods))|];
    cbn [InterfaceInterpolator.nf InterfaceInterpolator.ns];
    destruct (Z.eqb_spec (getNumberOfFluidInterfaceNodes Manager_)
                (getNumberOfSolidInterfaceNodes Manager_)) as [E|E];
    cbn [negb]; destruct (matching_matrices Manager_); cbn; auto.
Qed.

(** C7, as the code has it.  With CHT enabled, an interpolator built with a
    transfer method that is none of TFFB, FFTB, hFTB, hFFB is not refused:
    the base constructor prints that the default is used and sets the method
    to TFFB; the matching-mesh constructor then succeeds or fails on the node
    counts alone. *)
Theorem unknown_cht_method_defaults_to_TFFB (Manager_ : Manager)
    (mpiComm_ : option MpiComm) (chtTransferMethod_ : option string)
    (heatTransferCoeff_ : pyval) :
  withCht Manager_ = true ->
  in_strings chtTransferMethod_ valid_chtTransferMethods = false ->
  InterfaceInterpolator.chtTransferMethod
    (snd (InterfaceInterpolator.init Manager_ mpiComm_ chtTransferMethod_
            heatTransferCoeff_)) = Some "TFFB"
  /\ In (Printed msg_cht_default)
       (fst (InterfaceInterpolator.init Manager_ mpiComm_ chtTransferMethod_
               heatTransferCoeff_))
  /\ is_ok (snd (MatchingMeshesInterpolator.init Manager_ mpiComm_
                   chtTransferMethod_ heatTransferCoeff_)) =
     (getNumberOfFluidInterfaceNodes Manager_ =?
      getNumberOfSolidInterfaceNodes Manager_).
Proof.
  intros Hcht Hmeth.
  unfold MatchingMeshesInterpolator.init, InterfaceInterpolator.init.
  rewrite Hcht, Hmeth. cbn.
  repeat split; auto.
  destruct (getNumberOfFluidInterfaceNodes Manager_ =?
            getNumberOfSolidInterfaceNodes Manager_);
    cbn; [destruct (matching_matrices Manager_)|]; reflexivity.
Qed.

(** C4. After [generateMapping], a conservative transfer from solid to fluid
    is one solve with the solver of A into a fresh [gamma_array] of [ns + d]
    points followed by one product with B; from fluid to solid it is one
    product with B_T into such a [gamma_array] followed by one solve with the
    solver of A_T.  A consistent transfer from fluid to solid is one solve
    with the solver of C (into [nf + d] points) followed by one product with
    D; from solid to fluid one solve with the solver of A followed by one
    product with B. *)
Theorem interpolation_solves_once (c0 : ConservativeInterpolator.t)
    (k0 : ConsistentInterpolator.t) (solid fluid : Field) :
  let c := ConservativeInterpolator.generateMapping c0 in
  let k := ConsistentInterpolator.generateMapping k0 in
  let ns_d (b : InterfaceInterpolator.t) :=
    InterfaceInterpolator.ns b + InterfaceInterpolator.d b in
  let nf_d (b : InterfaceInterpolator.t) :=
    InterfaceInterpolator.nf b + InterfaceInterpolator.d b in
  let gamma (n : Z) (x : Field) :=
    FlexInterfaceData.make n (FlexInterfaceData.getDim x) in
  ConservativeInterpolator.interpolateSolidToFluid c solid fluid =
    Ok (InterfaceMatrix_mult (ConservativeInterpolator.B c0)
          (LinearSolver_solve
             (LinearSolver_init (ConservativeInterpolator.A c0)) solid
             (gamma (ns_d (ConservativeInterpolator.base c0)) solid))
          fluid,
        [Allocated (ns_d (ConservativeInterpolator.base c0))
           (FlexInterfaceData.getDim solid);
         Solved (LinearSolver_init (ConservativeInterpolator.A c0));
         Multiplied (ConservativeInterpolator.B c0)])
  /\ ConservativeInterpolator.interpolateFluidToSolid c fluid solid =
    Ok (LinearSolver_solve
          (LinearSolver_init (ConservativeInterpolator.A_T c0))
          (InterfaceMatrix_mult (ConservativeInterpolator.B_T c0) fluid
             (gamma (ns_d (ConservativeInterpolator.base c0)) fluid))
          solid,
        [Allocated (ns_d (ConservativeInterpolator.base c0))
           (FlexInterfaceData.getDim fluid);
         Multiplied (ConservativeInterpolator.B_T c0);
         Solved (LinearSolver_init (ConservativeInterpolator.A_T c0))])
  /\ ConsistentInterpolator.interpolateFluidToSolid k fluid solid =
    Ok (InterfaceMatrix_mult (ConsistentInterpolator.D k0)
          (LinearSolver_solve
             (LinearSolver_init (ConsistentInterpolator.C k0)) fluid
             (gamma (nf_d (ConsistentInterpolator.base k0)) fluid))
          solid,
        [Allocated (nf_d (ConsistentInterpolator.base k0))
           (FlexInterfaceData.getDim fluid);
         Solved (LinearSolver_init (ConsistentInterpolator.C k0));
         Multiplied (ConsistentInterpolator.D k0)])
  /\ ConsistentInterpolator.interpolateSolidToFluid k solid fluid =
    Ok (InterfaceMatrix_mult (ConsistentInterpolator.B k0)
          (LinearSolver_solve
             (LinearSolver_init (ConsistentInterpolator.A k0)) solid
             (gamma (ns_d (ConsistentInterpolator.base k0)) solid))
          fluid,
        [Allocated (ns_d (ConsistentInterpolator.base k0))
           (FlexInterfaceData.getDim solid);
         Solved (LinearSolver_init (ConsistentInterpolator.A k0));
         Multiplied (ConsistentInterpolator.B k0)]).
Proof. cbv zeta. repeat split. Qed.

End InterpolatorTheorems.

(** The Robin heat flux in the MPI branch: the solid solver receives
    [heatTransferCoeff * (T_solid - T_robin)]. *)
Lemma setRobinHeatFlux_mpi (self : InterfaceInterpolator.t) (comm : MpiComm)
    (h : R) (robin : list (list R)) (T_solid : list R) (time : R) :
  InterfaceInterpolator.mpiComm self = Some comm ->
  InterfaceInterpolator.heatTransferCoeff self = Some (PyFloat h) ->
  in_procs (InterfaceInterpolator.myid self)
    (getSolidInterfaceProcessors (InterfaceInterpolator.manager self)) = true ->
  InterfaceInterpolator.setRobinHeatFluxToSolidSolver self robin T_solid time =
  ([Called redistributeDataToSolidSolver;
    Called SolidSolver_getNodalTemperatures;
    Called (SolidSolver_applyNodalNormalHeatFluxes
              (PyArray (map (Rmult h) (py_array_sub T_solid (nth 0 robin []))))
              time)],
   Ok tt).
Proof.
  intros Hc Hh Hp. unfold InterfaceInterpolator.setRobinHeatFluxToSolidSolver,
    InterfaceInterpolator.coeff_value.
  rewrite Hc, Hh, Hp. reflexivity.
Qed.

(** C9, on the code.  Without MPI, [setRobinHeatFluxToSolidSolver] multiplies
    the coefficient by the pair (T_solid - T_robin, time): with the float
    coefficient this raises a TypeError after the temperatures are read, and
    no heat flux reaches the solid solver. *)
Theorem setRobinHeatFlux_without_mpi_raises :
  InterfaceInterpolator.setRobinHeatFluxToSolidSolver robin_interpolator []
    [300; 310]%R 0%R =
  ([Called SolidSolver_getNodalTemperatures],
   Raise (TypeError "can't multiply sequence by non-int of type 'float'")).
Proof. reflexivity. Qed.

(** ** Coupling algorithms *)

Section CouplingTheorems.

Context {collaborators : Collaborators}.

(** *** Relaxation *)

Lemma three_columns (f : Field) :
  FlexInterfaceData.getDim f = 3 -> exists a b c, f = [a; b; c].
Proof.
  unfold FlexInterfaceData.getDim.
  destruct f as [|a [|b [|c [|e f]]]]; cbn [List.length]; intros Hlen;
    try lia.
  now exists a, b, c.
Qed.


(** C10. [relaxCHT] adds the whole thermal residual to the solid field of
    the active method, the heat-flux residual for hFFB and TFFB, the
    temperature residual for hFTB and FFTB, whatever the value of omega; the
    other field is left as it is.  [relaxSolidPosition] of the static scheme
    adds omega times the mechanical residual, with omega = omegaMax. *)
Theorem relaxCHT_is_not_relaxed (s : Algorithm) (w : R) :
  let flux_ := cht_is s "hFFB" || cht_is s "TFFB" in
  let temp_ := cht_is s "hFTB" || cht_is s "FFTB" in
  let s' := relaxCHT (set_omega w s) in
  solidInterfaceHeatFlux (interfaceInterpolator s') =
    (if flux_
     then FlexInterfaceData.add
            (solidInterfaceHeatFlux (interfaceInterpolator s))
            (solidHeatFluxResidual s)
     else solidInterfaceHeatFlux (interfaceInterpolator s))
  /\ solidInterfaceTemperature (interfaceInterpolator s') =
    (if negb flux_ && temp_
     then FlexInterfaceData.add
            (solidInterfaceTemperature (interfaceInterpolator s))
            (solidTemperatureResidual s)
     else solidInterfaceTemperature (interfaceInterpolator s))
  /\ solidInterfaceDisplacement
       (interfaceInterpolator (AlgorithmBGSStaticRelax_relaxSolidPosition s)) =
     FlexInterfaceData.add
       (solidInterfaceDisplacement (interfaceInterpolator s))
       (FlexInterfaceData.scale (omegaMax s) (solidInterfaceResidual s)).
Proof.
  unfold relaxCHT, cht_is. cbn.
  destruct (str_is (chtTransferMethod (interfaceInterpolator s)) "hFFB"
            || str_is (chtTransferMethod (interfaceInterpolator s)) "TFFB");
    [|destruct (str_is (chtTransferMethod (interfaceInterpolator s)) "hFTB"
               || str_is (chtTransferMethod (interfaceInterpolator s)) "FFTB")];
    cbn; repeat split; reflexivity.
Qed.

(** *** What the steps of a sub-iteration leave unchanged *)

Create Rewrite HintDb ctl.

Lemma ctl_mpiPrint (m : string) (s : Algorithm) : ctl (mpiPrint m s) = ctl s.
Proof. reflexivity. Qed.

Lemma ctl_call (c : Call) (s : Algorithm) : ctl (call c s) = ctl s.
Proof. reflexivity. Qed.

Lemma ctl_set_interfaceInterpolator v s :
  ctl (set_interfaceInterpolator v s) = ctl s.
Proof. reflexivity. Qed.

Lemma ctl_set_solidInterfaceDisplacement v s :
  ctl (set_solidInterfaceDisplacement v s) = ctl s.
Proof. reflexivity. Qed.

Lemma ctl_set_solidInterfaceHeatFlux v s :
  ctl (set_solidInterfaceHeatFlux v s) = ctl s.
Proof. reflexivity. Qed.

Lemma ctl_set_solidInterfaceTemperature v s :
  ctl (set_solidInterfaceTemperature v s) = ctl s.
Proof. reflexivity. Qed.

Lemma ctl_set_deltaT v s : ctl (set_deltaT v s) = ctl s.
Proof. reflexivity. Qed.

Lemma ctl_set_writeInFSIloop v s : ctl (set_writeInFSIloop v s) = ctl s.
Proof. reflexivity. Qed.

Lemma ctl_set_time v s : ctl (set_time v s) = ctl s.
Proof. reflexivity. Qed.

Lemma ctl_set_totNbOfFSIIt v s : ctl (set_totNbOfFSIIt v s) = ctl s.
Proof. reflexivity. Qed.

Lemma ctl_set_solidInterfaceVelocity v s :
  ctl (set_solidInterfaceVelocity v s) = ctl s.
Proof. reflexivity. Qed.

Lemma ctl_set_solidInterfaceVelocitynM1 v s :
  ctl (set_solidInterfaceVelocitynM1 v s) = ctl s.
Proof. reflexivity. Qed.

Lemma ctl_set_solidInterfaceResidual v s :
  ctl (set_solidInterfaceResidual v s) = ctl s.
Proof. reflexivity. Qed.

Lemma ctl_set_solidHeatFluxResidual v s :
  ctl (set_solidHeatFluxResidual v s) = ctl s.
Proof. reflexivity. Qed.

Lemma ctl_set_solidTemperatureResidual v s :
  ctl (set_solidTemperatureResidual v s) = ctl s.
Proof. reflexivity. Qed.

Lemma ctl_set_omega v s : ctl (set_omega v s) = ctl s.
Proof. reflexivity. Qed.

Lemma ctl_set_solidInterfaceResidualkM1 v s :
  ctl (set_solidInterfaceResidualkM1 v s) = ctl s.
Proof. reflexivity. Qed.

Lemma ctl_set_ext v s : ctl (set_ext v s) = ctl s.
Proof. reflexivity. Qed.

Lemma ctl_set_out v s : ctl (set_out v s) = ctl s.
Proof. reflexivity. Qed.

(** The error values and [FSIConv] are outside [fst (ctl _)]. *)
Lemma ctl1_set_errValue v s : fst (ctl (set_errValue v s)) = fst (ctl s).
Proof. reflexivity. Qed.

Lemma ctl1_set_errValue_CHT v s :
  fst (ctl (set_errValue_CHT v s)) = fst (ctl s).
Proof. reflexivity. Qed.

Lemma ctl1_set_FSIConv v s : fst (ctl (set_FSIConv v s)) = fst (ctl s).
Proof. reflexivity. Qed.

Lemma ctl_set_FSIIter v s :
  ctl (set_FSIIter v s) =
  (cfg s, v, (errValue s, errValue_CHT s, FSIConv s)).
Proof. reflexivity. Qed.

Hint Rewrite ctl_set_FSIIter ctl_mpiPrint ctl_call ctl_set_interfaceInterpolator
  ctl_set_solidInterfaceDisplacement ctl_set_solidInterfaceHeatFlux
  ctl_set_solidInterfaceTemperature ctl_set_deltaT ctl_set_writeInFSIloop
  ctl_set_time ctl_set_totNbOfFSIIt ctl_set_solidInterfaceVelocity
  ctl_set_solidInterfaceVelocitynM1 ctl_set_solidInterfaceResidual
  ctl_set_solidHeatFluxResidual ctl_set_solidTemperatureResidual
  ctl_set_omega ctl_set_solidInterfaceResidualkM1 ctl_set_ext ctl_set_out
  ctl1_set_errValue ctl1_set_errValue_CHT ctl1_set_FSIConv : ctl.

Tactic Notation "open_def" reference(f) := cbv delta [f]; cbv beta.

(** [ctl_go] follows a chain of [let]s: each intermediate object is replaced
    by a variable of which only [ctl] is known. *)
Ltac ctl_go :=
  lazymatch goal with
  | |- ctl (let x := ?e in @?b x) = ?r =>
      lazymatch type of e with
      | Algorithm =>
          let H := fresh "H" in
          let z := fresh "z" in
          assert (H : ctl e = r);
          [ ctl_go
          | revert H; generalize e; intros z H;
            change (ctl (b z) = r); cbv beta; ctl_go ]
      | _ => change (ctl (b e) = r); cbv beta; ctl_go
      end
  | |- fst (ctl (let x := ?e in @?b x)) = ?r =>
      lazymatch type of e with
      | Algorithm =>
          let H := fresh "H" in
          let z := fresh "z" in
          assert (H : fst (ctl e) = r);
          [ ctl_go
          | revert H; generalize e; intros z H;
            change (fst (ctl (b z)) = r); cbv beta; ctl_go ]
      | _ => change (fst (ctl (b e)) = r); cbv beta; ctl_go
      end
  | |- ctl (if ?c then _ else _) = _ => destruct c; ctl_go
  | |- fst (ctl (if ?c then _ else _)) = _ => destruct c; ctl_go
  | |- _ =>
      first [ match goal with H : ?g |- ?g => exact H end
            | lazymatch goal with |- ?a = ?a => reflexivity end
            | progress autorewrite with ctl; ctl_go ]
  end.

Lemma ctl_solidToFluidMechaTransfer s :
  ctl (solidToFluidMechaTransfer s) = ctl s.
Proof. open_def solidToFluidMechaTransfer. ctl_go. Qed.

Lemma ctl_fluidToSolidMechaTransfer s :
  ctl (fluidToSolidMechaTransfer s) = ctl s.
Proof. open_def fluidToSolidMechaTransfer. ctl_go. Qed.

Lemma ctl_solidToFluidThermalTransfer s :
  ctl (solidToFluidThermalTransfer s) = ctl s.
Proof. open_def solidToFluidThermalTransfer. ctl_go. Qed.

Lemma ctl_fluidToSolidThermalTransfer s :
  ctl (fluidToSolidThermalTransfer s) = ctl s.
Proof. open_def fluidToSolidThermalTransfer. ctl_go. Qed.

Lemma ctl_computeSolidInterfaceResidual s :
  ctl (computeSolidInterfaceResidual s) = ctl s.
Proof. open_def computeSolidInterfaceResidual. ctl_go. Qed.

Lemma ctl_computeSolidInterfaceResidual_CHT s :
  ctl (fst (computeSolidInterfaceResidual_CHT s)) = ctl s.
Proof.
  unfold computeSolidInterfaceResidual_CHT. cbv zeta.
  destruct (cht_is s "hFFB" || cht_is s "TFFB");
    [|destruct (cht_is s "hFTB" || cht_is s "FFTB")];
    cbn [fst]; ctl_go.
Qed.

Lemma ctl_writeRealTimeData s : ctl (writeRealTimeData s) = ctl s.
Proof. open_def writeRealTimeData. ctl_go. Qed.

Lemma ctl_static_setOmega s : ctl (AlgorithmBGSStaticRelax_setOmega s) = ctl s.
Proof. open_def AlgorithmBGSStaticRelax_setOmega. ctl_go. Qed.

Lemma ctl_aitken_setOmega s : ctl (AlgorithmBGSAitkenRelax_setOmega s) = ctl s.
Proof. open_def AlgorithmBGSAitkenRelax_setOmega. ctl_go. Qed.

Lemma ctl_relaxCHT s : ctl (relaxCHT s) = ctl s.
Proof. open_def relaxCHT. ctl_go. Qed.

Hint Rewrite ctl_solidToFluidMechaTransfer ctl_fluidToSolidMechaTransfer
  ctl_solidToFluidThermalTransfer ctl_fluidToSolidThermalTransfer
  ctl_computeSolidInterfaceResidual ctl_computeSolidInterfaceResidual_CHT
  ctl_writeRealTimeData ctl_static_setOmega ctl_aitken_setOmega
  ctl_relaxCHT : ctl.

Lemma ctl_fields (a b : Algorithm) :
  ctl a = ctl b ->
  cfg a = cfg b /\ FSIIter a = FSIIter b /\ errValue a = errValue b
  /\ errValue_CHT a = errValue_CHT b /\ FSIConv a = FSIConv b.
Proof.
  unfold ctl. intros H. injection H. intros.
  repeat split; try assumption. unfold cfg. congruence.
Qed.

Lemma ctl_tuple (z : Algorithm) c i e1 e2 b :
  ctl z = (c, i, (e1, e2, b)) ->
  cfg z = c /\ FSIIter z = i /\ errValue z = e1 /\ errValue_CHT z = e2
  /\ FSIConv z = b.
Proof. unfold ctl. intros H. injection H. intros. repeat split; assumption. Qed.

Lemma ctl1_fields (a b : Algorithm) :
  fst (ctl a) = fst (ctl b) -> cfg a = cfg b /\ FSIIter a = FSIIter b.
Proof.
  unfold ctl. cbn [fst]. intros H. injection H. intros.
  repeat split; try assumption. unfold cfg. congruence.
Qed.

Lemma cfg_fields (a b : Algorithm) :
  cfg a = cfg b ->
  manager a = manager b /\ myid a = myid b
  /\ nbFSIIterMax a = nbFSIIterMax b
  /\ timeIterTreshold a = timeIterTreshold b /\ timeIter a = timeIter b
  /\ nbTimeToKeep a = nbTimeToKeep b /\ V a = V b /\ W a = W b
  /\ maxNbOfItReached a = maxNbOfItReached b
  /\ convergenceReachedInOneIt a = convergenceReachedInOneIt b.
Proof.
  unfold cfg. intros H. injection H. intros. repeat split; assumption.
Qed.

Lemma cfg_nbFSIIter (a b : Algorithm) :
  cfg a = cfg b -> nbFSIIter a = nbFSIIter b.
Proof.
  intros H. destruct (cfg_fields _ _ H) as (_ & _ & Hm & Ht & Hi & _).
  unfold nbFSIIter. now rewrite Hm, Ht, Hi.
Qed.

(** *** Loops *)

Lemma while_loop_iter {S : Type} (cond : S -> bool) (body : S -> S)
    (n : nat) :
  forall (fuel : nat) (st : S),
    (forall j, (j < n)%nat -> cond (Nat.iter j body st) = true) ->
    cond (Nat.iter n body st) = false ->
    (n < fuel)%nat ->
    while_loop fuel cond body st = Some (Nat.iter n body st).
Proof.
  induction n as [|n IH]; intros fuel st Htrue Hfalse Hfuel.
  - destruct fuel as [|fuel]; [lia|]. cbn [while_loop].
    change (cond st = false) in Hfalse. now rewrite Hfalse.
  - destruct fuel as [|fuel]; [lia|]. cbn [while_loop].
    assert (H0 : cond st = true) by (apply (Htrue 0%nat); lia).
    rewrite H0, Nat.iter_succ_r.
    apply IH.
    + intros j Hj. rewrite <- Nat.iter_succ_r. apply Htrue. lia.
    + now rewrite <- Nat.iter_succ_r.
    + lia.
Qed.

Lemma while_loop_invariant {S : Type} (cond : S -> bool) (body : S -> S)
    (Inv : S -> Prop) (m : S -> Z) (N : Z) :
  (forall x, Inv x -> cond x = true ->
             Inv (body x) /\ m (body x) = m x + 1 /\ m x < N) ->
  forall (fuel : nat) (st : S),
    Inv st -> (Z.to_nat (N - m st) < fuel)%nat ->
    exists st', while_loop fuel cond body st = Some st'
                /\ Inv st' /\ cond st' = false.
Proof.
  intros Hstep. induction fuel as [|fuel IH]; intros st Hinv Hfuel; [lia|].
  cbn [while_loop]. destruct (cond st) eqn:Hc.
  - destruct (Hstep st Hinv Hc) as (Hinv' & Hm & Hlt).
    apply IH; [exact Hinv'|]. rewrite Hm. lia.
  - exists st. auto.
Qed.

(** *** The loop of the static BGS scheme *)

Lemma ctl_static_relaxSolidPosition s :
  ctl (relaxSolidPosition AlgorithmBGSStaticRelax_setOmega s) = ctl s.
Proof. open_def relaxSolidPosition. ctl_go. Qed.

Lemma ctl_aitken_relaxSolidPosition s :
  ctl (relaxSolidPosition AlgorithmBGSAitkenRelax_setOmega s) = ctl s.
Proof. open_def relaxSolidPosition. ctl_go. Qed.

Hint Rewrite ctl_static_relaxSolidPosition ctl_aitken_relaxSolidPosition
  : ctl.

Lemma ctl_BGS_fluid_part b s : ctl (BGS_fluid_part b s) = ctl s.
Proof. open_def BGS_fluid_part. ctl_go. Qed.

Lemma ctl1_BGS_errors s : fst (ctl (BGS_errors s)) = fst (ctl s).
Proof. open_def BGS_errors. ctl_go. Qed.

Lemma BGS_solid_part_spec s :
  let s' := BGS_solid_part AlgorithmBGSStaticRelax_setOmega s in
  fst (ctl s') = fst (ctl s)
  /\ FSIConv s' =
     criterion_isVerified (errValue s') (Some (errValue_CHT s')).
Proof.
  unfold BGS_solid_part. cbv zeta.
  generalize (BGS_errors s) (ctl1_BGS_errors s). intros x Hx.
  assert (Hy : forall z,
             ctl z =
             ctl (set_FSIConv
                    (criterion_isVerified (errValue x)
                       (Some (errValue_CHT x))) x) ->
             fst (ctl z) = fst (ctl s)
             /\ FSIConv z =
                criterion_isVerified (errValue z)
                  (Some (errValue_CHT z))).
  { intros z Hz. destruct (ctl_fields _ _ Hz) as (_ & _ & He & Hc & Hv).
    rewrite Hz, He, Hc, Hv. split.
    - rewrite ctl1_set_FSIConv. exact Hx.
    - reflexivity. }
  apply Hy. ctl_go.
Qed.

Lemma ctl_BGS_end_part s :
  ctl (BGS_end_part s) =
  (cfg s, FSIIter s + 1, (errValue s, errValue_CHT s, FSIConv s)).
Proof.
  unfold BGS_end_part. cbv zeta.
  assert (Hx : ctl (if writeInFSIloop s then writeRealTimeData s else s) =
               ctl s) by ctl_go.
  revert Hx.
  generalize (if writeInFSIloop s then writeRealTimeData s else s).
  intros x Hx.
  destruct (ctl_fields _ _ Hx) as (H1 & H2 & H3 & H4 & H5).
  rewrite <- H1, <- H2, <- H3, <- H4, <- H5.
  clear. ctl_go.
Qed.

Lemma BGS_body_spec (st : Algorithm * bool) :
  let st' := BGS_body AlgorithmBGSStaticRelax_setOmega st in
  cfg (fst st') = cfg (fst st)
  /\ FSIIter (fst st') = FSIIter (fst st) + 1
  /\ ((timeIter (fst st) >? timeIterTreshold (fst st)) = true ->
      FSIConv (fst st') =
      criterion_isVerified (errValue (fst st'))
        (Some (errValue_CHT (fst st')))).
Proof.
  unfold BGS_body. cbv zeta.
  generalize (BGS_fluid_part (snd st) (fst st))
    (ctl_BGS_fluid_part (snd st) (fst st)).
  intros x Hx.
  destruct (ctl_fields _ _ Hx) as (Hc & Hi & _).
  destruct (cfg_fields _ _ Hc) as (_ & _ & _ & Ht & Hti & _).
  rewrite Ht, Hti.
  destruct (timeIter (fst st) >? timeIterTreshold (fst st)); cbn [fst].
  - destruct (BGS_solid_part_spec x) as (H1 & H2). cbv zeta in H1, H2.
    revert H1 H2.
    generalize (BGS_solid_part AlgorithmBGSStaticRelax_setOmega x).
    intros y H1 H2.
    destruct (ctl1_fields _ _ H1) as (Hc1 & Hi1).
    pose proof (ctl_BGS_end_part y) as He.
    revert He. generalize (BGS_end_part y). intros z He.
    destruct (ctl_tuple _ _ _ _ _ _ He) as (E1 & E2 & E3 & E4 & E5).
    repeat split; try congruence.
  - pose proof (ctl_BGS_end_part x) as He.
    revert He. generalize (BGS_end_part x). intros z He.
    destruct (ctl_tuple _ _ _ _ _ _ He) as (E1 & E2 & E3 & E4 & E5).
    repeat split; try congruence.
Qed.

Lemma BGS_after_spec (s : Algorithm) (j : nat) :
  cfg (BGS_after s j) = cfg s /\ FSIIter (BGS_after s j) = Z.of_nat j.
Proof.
  unfold BGS_after. induction j as [|j (IHc & IHi)].
  - cbn [Nat.iter fst]. split; [|reflexivity].
    unfold BGS_enter. cbv zeta.
    destruct (timeIter s >? timeIterTreshold s); reflexivity.
  - rewrite Nat.iter_succ.
    destruct (BGS_body_spec
                (Nat.iter j (BGS_body AlgorithmBGSStaticRelax_setOmega)
                   (BGS_enter s, false))) as (Hc & Hi & _).
    split; [congruence|]. rewrite Hi, IHi. lia.
Qed.

Lemma BGS_after_FSIConv (s : Algorithm) (j : nat) :
  (timeIter s >? timeIterTreshold s) = true ->
  FSIConv (BGS_after s (S j)) = BGS_verified_after s (S j).
Proof.
  intros Ht. unfold BGS_verified_after, BGS_after. rewrite Nat.iter_succ.
  apply BGS_body_spec.
  destruct (BGS_after_spec s j) as (Hc & _).
  destruct (cfg_fields _ _ Hc) as (_ & _ & _ & H1 & H2 & _).
  unfold BGS_after in H1, H2. now rewrite H1, H2.
Qed.


(** *** The loop of IQN-ILS and the history of V and W *)

Lemma ctl_IQN_fluid_part s : ctl (IQN_fluid_part s) = ctl s.
Proof. open_def IQN_fluid_part. ctl_go. Qed.

Lemma ctl1_IQN_errors s : fst (ctl (IQN_errors s)) = fst (ctl s).
Proof. open_def IQN_errors. ctl_go. Qed.

Lemma ctl_IQN_root s l : ctl (fst (IQN_root s l)) = ctl s.
Proof.
  unfold IQN_root. cbv zeta.
  destruct (FSIIter s >? 0);
    match goal with
    | |- context [if ?c && String.eqb (qrFilter s) "Degroote1" then _ else _] =>
        destruct (c && String.eqb (qrFilter s) "Degroote1")
    end; reflexivity.
Qed.

Lemma ctl_IQN_correct s l : ctl (fst (IQN_correct s l)) = ctl s.
Proof.
  unfold IQN_correct. cbv zeta. cbn [fst].
  rewrite ctl_set_solidInterfaceDisplacement, ctl_call.
  destruct (myid (mpiPrint _ s) =? 0); [rewrite ctl_IQN_root|cbn [fst]];
    apply ctl_mpiPrint.
Qed.

Lemma ctl1_IQN_solid_part s l :
  fst (ctl (fst (IQN_solid_part AlgorithmBGSAitkenRelax_setOmega s l))) =
  fst (ctl s).
Proof.
  rewrite <- (ctl1_IQN_errors s).
  open_def IQN_solid_part.
  generalize (IQN_errors s). intros x.
  lazymatch goal with
  | |- fst (ctl (fst (let x := ?e in @?b x))) = ?r =>
      change (fst (ctl (fst (b e))) = r); cbv beta
  end.
  lazymatch goal with
  | |- fst (ctl (fst (let x := ?e in @?b x))) = ?r =>
      generalize e; intros l0;
      change (fst (ctl (fst (b l0))) = r); cbv beta
  end.
  lazymatch goal with
  | |- fst (ctl (fst (let x := ?e in @?b x))) = ?r =>
      assert (H : fst (ctl (fst e)) = r);
      [ | revert H; generalize e; intros sl H;
          change (fst (ctl (fst (b sl))) = r); cbv beta ]
  end.
  - destruct (IQN_relaxes x); cbn [fst].
    + now rewrite ctl_aitken_relaxSolidPosition, ctl_mpiPrint.
    + now rewrite ctl_IQN_correct.
  - exact H.
Qed.

Lemma ctl_IQN_end_part s :
  ctl (IQN_end_part s) =
  (cfg s, FSIIter s + 1, (errValue s, errValue_CHT s, FSIConv s)).
Proof.
  unfold IQN_end_part. cbv zeta.
  assert (Hx : ctl (if writeInFSIloop s then writeRealTimeData s else s) =
               ctl s) by ctl_go.
  revert Hx.
  generalize (if writeInFSIloop s then writeRealTimeData s else s).
  intros x Hx.
  destruct (ctl_fields _ _ Hx) as (H1 & H2 & H3 & H4 & H5).
  rewrite <- H1, <- H2, <- H3, <- H4, <- H5.
  apply ctl_set_FSIIter.
Qed.

Lemma IQN_body_spec (st : Algorithm * IQN_locals) :
  let st' := IQN_body AlgorithmBGSAitkenRelax_setOmega st in
  cfg (fst st') = cfg (fst st) /\ FSIIter (fst st') = FSIIter (fst st) + 1.
Proof.
  unfold IQN_body. cbv zeta. cbn [fst].
  generalize (ctl_IQN_fluid_part (fst st)).
  generalize (IQN_fluid_part (fst st)). intros x Hx.
  destruct (ctl_fields _ _ Hx) as (Hc & Hi & _).
  assert (Hy : forall y, fst (ctl y) = fst (ctl x) ->
                 cfg (IQN_end_part y) = cfg (fst st)
                 /\ FSIIter (IQN_end_part y) = FSIIter (fst st) + 1).
  { intros y Hy. destruct (ctl1_fields _ _ Hy) as (Hc1 & Hi1).
    destruct (ctl_tuple _ _ _ _ _ _ (ctl_IQN_end_part y)) as (E1 & E2 & _).
    split; [now rewrite E1, Hc1|now rewrite E2, Hi1, Hi]. }
  destruct (timeIter x >? timeIterTreshold x).
  - apply Hy, ctl1_IQN_solid_part.
  - apply Hy. reflexivity.
Qed.

Lemma IQN_enter_spec s :
  cfg (fst (IQN_enter s)) = cfg s /\ FSIIter (fst (IQN_enter s)) = 0.
Proof.
  unfold IQN_enter. cbv zeta.
  destruct (timeIter s >? timeIterTreshold s); split; reflexivity.
Qed.

(** The loop of [fsiCoupling] ends: the call returns, and the loop has not
    touched what steers it nor the history. *)
Lemma IQN_fsiCoupling_returns (s : Algorithm) :
  exists s1 l1,
    AlgorithmIQN_ILS_fsiCoupling s =
    Some (IQN_leave (IQN_update_history s1 l1))
    /\ cfg s1 = cfg s.
Proof.
  unfold AlgorithmIQN_ILS_fsiCoupling, IQN_fsiCoupling.
  destruct (IQN_enter_spec s) as (Hc0 & Hi0).
  destruct (IQN_enter s) as (s0, l0). cbn [fst] in Hc0, Hi0.
  destruct (while_loop_invariant IQN_cond
              (IQN_body AlgorithmBGSAitkenRelax_setOmega)
              (fun st => cfg (fst st) = cfg s)
              (fun st => FSIIter (fst st)) (nbFSIIter s))
    with (fuel := S (Z.to_nat (nbFSIIter s0))) (st := (s0, l0))
    as ((s1, l1) & Hloop & Hinv & _).
  - intros x Hx Hcond. destruct (IQN_body_spec x) as (Hc & Hi).
    repeat split; [congruence|exact Hi|].
    unfold IQN_cond in Hcond. cbv zeta in Hcond.
    apply andb_prop in Hcond. destruct Hcond as (Hlt & _).
    rewrite (cfg_nbFSIIter _ _ Hx) in Hlt. lia.
  - exact Hc0.
  - cbn [fst]. rewrite Hi0, (cfg_nbFSIIter _ _ Hc0). lia.
  - rewrite Hloop. exists s1, l1. split; [reflexivity|exact Hinv].
Qed.

Lemma ctl_IQN_leave s : ctl (IQN_leave s) = ctl s.
Proof. open_def IQN_leave. ctl_go. Qed.

Lemma out_IQN_leave s : exists l, out (IQN_leave s) = out s ++ l.
Proof.
  unfold IQN_leave. destruct (timeIter s >? timeIterTreshold s).
  - eexists. reflexivity.
  - exists []. now rewrite app_nil_r.
Qed.

(** What the update of the history leaves unchanged. *)
Lemma IQN_update_history_keeps s l :
  let s' := IQN_update_history s l in
  manager s' = manager s /\ nbFSIIterMax s' = nbFSIIterMax s
  /\ timeIterTreshold s' = timeIterTreshold s /\ timeIter s' = timeIter s
  /\ nbTimeToKeep s' = nbTimeToKeep s /\ FSIIter s' = FSIIter s
  /\ FSIConv s' = FSIConv s.
Proof.
  unfold IQN_update_history. cbv zeta.
  repeat match goal with
         | |- context [if ?c then _ else _] => destruct c
         end; repeat split.
Qed.

Lemma IQN_update_history_reset s l :
  nbTimeToKeep s <> 0 -> 1 <= timeIter s ->
  nbFSIIter s <= FSIIter s -> FSIConv s = false ->
  let s' := IQN_update_history s l in
  V s' = [] /\ W s' = [] /\ maxNbOfItReached s' = true
  /\ out s' = out s ++ [Printed msg_IQN_max_iterations].
Proof.
  intros Hk Ht Hit Hconv. unfold IQN_update_history. cbv zeta.
  replace (nbTimeToKeep s =? 0) with false by (symmetry; apply Z.eqb_neq; lia).
  replace (timeIter s >=? 1) with true by (symmetry; apply Z.geb_le; lia).
  rewrite Hconv. cbn [negb andb]. rewrite andb_false_r. cbn [negb].
  replace (FSIIter (set_convergenceReachedInOneIt false s)
           >=? nbFSIIter (set_convergenceReachedInOneIt false s))
    with true
    by (symmetry; apply Z.geb_le; exact Hit).
  replace (FSIConv (set_convergenceReachedInOneIt false s)) with false
    by (symmetry; exact Hconv).
  cbn [negb andb]. repeat split.
Qed.

Lemma length_removelast_cons {A : Type} (x : A) (l : list A) :
  List.length (removelast (x :: l)) = List.length l.
Proof.
  revert x. induction l as [|y l IH]; intros x; [reflexivity|].
  change (removelast (x :: y :: l)) with (x :: removelast (y :: l)).
  cbn [List.length]. now rewrite IH.
Qed.

(** The lengths of V and W across the update: with at most one entry per
    time step already run, they stay equal and within [nbTimeToKeep]. *)
Lemma IQN_update_history_lengths s l :
  0 < nbTimeToKeep s ->
  List.length (V s) = List.length (W s) ->
  Z.of_nat (List.length (V s)) <= nbTimeToKeep s ->
  Z.of_nat (List.length (V s)) <= Z.max (timeIter s - 1) 0 ->
  let s' := IQN_update_history s l in
  List.length (V s') = List.length (W s')
  /\ Z.of_nat (List.length (V s')) <= nbTimeToKeep s
  /\ Z.of_nat (List.length (V s')) <= Z.max (timeIter s) 0.
Proof.
  intros Hk Hlen Hle Ht. unfold IQN_update_history. cbv zeta.
  destruct (negb (nbTimeToKeep s =? 0) && (timeIter s >=? 1)) eqn:Hblock;
    [|repeat split; try assumption; lia].
  apply andb_prop in Hblock. destruct Hblock as (_ & Hge).
  apply Z.geb_le in Hge.
  destruct (negb ((FSIIter s =? 1) && FSIConv s
                  && (Z.of_nat (List.length (V s)) =? 0)));
    [|cbn; repeat split; try assumption; lia].
  destruct ((FSIIter (set_convergenceReachedInOneIt false s)
             >=? nbFSIIter (set_convergenceReachedInOneIt false s))
            && negb (FSIConv (set_convergenceReachedInOneIt false s))).
  - cbn. repeat split; lia.
  - cbn -[removelast Z.of_nat].
    match goal with
    | |- context [if ?c then _ else _] => destruct c eqn:Hdel
    end.
    + cbn -[removelast Z.of_nat]. rewrite !length_removelast_cons.
      clear Hdel. repeat split; try assumption; lia.
    + cbn -[Z.of_nat]. apply andb_false_iff in Hdel.
      rewrite Nat2Z.inj_succ, !Z.gtb_ltb, !Z.ltb_ge in Hdel.
      rewrite Nat2Z.inj_succ.
      repeat split; destruct Hdel as [Hd|Hd]; lia.
Qed.


(** *** The time loop *)

Lemma keeps_lift (f : Algorithm -> Algorithm) :
  (forall s, ctl (f s) = ctl s) -> keeps_ctl (lift f).
Proof. intros Hf s r s' H. unfold lift in H. injection H as _ <-. apply Hf. Qed.

Lemma keeps_ret : keeps_ctl (ret tt).
Proof. intros s r s' H. unfold ret in H. now injection H as _ <-. Qed.

Lemma keeps_attempt_at (c : Algorithm -> Call) :
  keeps_ctl (fun s => attempt (c s) s).
Proof.
  intros s r s' H. unfold attempt in H.
  destruct (raises (c s) (ext s)); injection H as _ <-; apply ctl_call.
Qed.

Lemma keeps_attempt (c : Call) : keeps_ctl (attempt c).
Proof. exact (keeps_attempt_at (fun _ => c)). Qed.

Lemma keeps_when (cond : Algorithm -> bool) (m : M unit) :
  keeps_ctl m -> keeps_ctl (when_ cond m).
Proof.
  intros Hm s r s' H. unfold when_ in H. destruct (cond s).
  - exact (Hm _ _ _ H).
  - now injection H as _ <-.
Qed.

Lemma keeps_seq (m1 m2 : M unit) :
  keeps_ctl m1 -> keeps_ctl m2 -> keeps_ctl (seq_ m1 m2).
Proof.
  intros H1 H2 s r s' H. unfold seq_, bind in H.
  destruct (m1 s) as [[[a|e] s1]|] eqn:E1; [| |discriminate].
  - rewrite (H2 _ _ _ H). exact (H1 _ _ _ E1).
  - injection H as _ <-. exact (H1 _ _ _ E1).
Qed.

Lemma keeps_sequence (ms : list (M unit)) :
  Forall keeps_ctl ms -> keeps_ctl (sequence_ ms).
Proof.
  induction 1 as [|m ms Hm _ IH]; cbn [sequence_].
  - exact keeps_ret.
  - now apply keeps_seq.
Qed.

Lemma keeps_if (cond : Algorithm -> bool) (m1 m2 : M unit) :
  keeps_ctl m1 -> keeps_ctl m2 ->
  keeps_ctl (fun s => if cond s then m1 s else m2 s).
Proof. intros H1 H2 s r s' H. destruct (cond s); eauto. Qed.

Lemma keeps_getDisplacement : keeps_ctl getDisplacement.
Proof.
  apply keeps_seq; [apply keeps_attempt|].
  apply keeps_lift. intros s. apply ctl_set_solidInterfaceDisplacement.
Qed.

Lemma keeps_setInitialInterfaceThermal : keeps_ctl setInitialInterfaceThermal.
Proof.
  apply keeps_when.
  apply (keeps_if (fun s => cht_is s "hFFB" || cht_is s "TFFB"));
    [apply keeps_attempt|].
  apply (keeps_if (fun s => cht_is s "hFTB" || cht_is s "FFTB"));
    [apply keeps_attempt|apply keeps_ret].
Qed.

Lemma keeps_setFSIInitialConditions : keeps_ctl setFSIInitialConditions.
Proof.
  apply (keeps_if
           (fun s => String.eqb (computationType (manager s)) "unsteady"));
    apply keeps_sequence; repeat constructor;
    first [ apply keeps_getDisplacement
          | apply keeps_setInitialInterfaceThermal
          | apply keeps_when; apply keeps_attempt
          | apply keeps_attempt
          | apply (keeps_attempt_at
                     (fun s => interpolateSolidDisplacementOnFluidMesh
                                 (solidInterfaceDisplacement
                                    (interfaceInterpolator s))))
          | apply (keeps_attempt_at
                     (fun s => setDisplacementToFluidSolver (time s))) ].
Qed.

Lemma keeps_run_prelude : keeps_ctl run_prelude.
Proof.
  apply keeps_sequence. repeat constructor.
  - apply keeps_seq; [apply keeps_when|]; apply keeps_attempt.
  - apply keeps_lift, ctl_mpiPrint.
  - apply keeps_lift, ctl_mpiPrint.
  - apply keeps_setFSIInitialConditions.
  - apply keeps_lift, ctl_mpiPrint.
Qed.

Lemma keeps_unsteady_before : keeps_ctl unsteady_before_fsiCoupling.
Proof.
  apply keeps_sequence. repeat constructor.
  - apply keeps_lift, ctl_mpiPrint.
  - apply (keeps_attempt_at
             (fun s => FluidSolver_preprocessTimeIter (timeIter s))).
  - apply keeps_when.
    apply (keeps_attempt_at
             (fun s => SolidSolver_preprocessTimeIter (timeIter s))).
Qed.

Lemma ctl_solidDisplacementPredictor s :
  ctl (solidDisplacementPredictor s) = ctl s.
Proof. open_def solidDisplacementPredictor. ctl_go. Qed.

Lemma sequence_app_ok (ms1 ms2 : list (M unit)) (s s' : Algorithm) :
  sequence_ (ms1 ++ ms2) s = Some (Ok tt, s') ->
  exists s1, sequence_ ms1 s = Some (Ok tt, s1)
             /\ sequence_ ms2 s1 = Some (Ok tt, s').
Proof.
  revert s. induction ms1 as [|m ms1 IH]; intros s H.
  - exists s. split; [reflexivity|exact H].
  - cbn [app sequence_] in *. unfold seq_, bind in *.
    destruct (m s) as [[[a|e] s1]|]; try discriminate.
    apply IH. exact H.
Qed.

(** One pass of the time loop after [fsiCoupling]: when all its calls
    return, [timeIter] has advanced by one and the rest of [cfg] is as
    before. *)
Lemma unsteady_after_spec (s s' : Algorithm) :
  unsteady_after_fsiCoupling s = Some (Ok tt, s') ->
  timeIter s' = timeIter s + 1
  /\ manager s' = manager s /\ nbTimeToKeep s' = nbTimeToKeep s
  /\ V s' = V s /\ W s' = W s.
Proof.
  intros H. unfold unsteady_after_fsiCoupling in H.
  match type of H with
  | sequence_ [?a; ?b; ?c; ?d; ?e; ?f; ?g; ?h; ?i; ?j; ?k; ?l] _ = _ =>
      change (sequence_ ([a; b; c; d; e; f; g; h; i; j] ++ [k; l]) s =
              Some (Ok tt, s')) in H;
      assert (Hk : keeps_ctl (sequence_ [a; b; c; d; e; f; g; h; i; j]))
  end.
  { apply keeps_sequence. repeat constructor.
    - apply keeps_lift, ctl_call.
    - apply keeps_lift. intros x.
      destruct (timeIter x >? 0); [apply ctl_set_totNbOfFSIIt|reflexivity].
    - apply keeps_when, keeps_attempt.
    - apply (keeps_attempt_at (fun s => FluidSolver_update (deltaT s))).
    - apply (keeps_attempt_at (fun s => FluidSolver_save (timeIter s))).
    - apply keeps_when, keeps_attempt.
    - apply keeps_lift, ctl_writeRealTimeData.
    - apply keeps_when, keeps_attempt.
    - apply keeps_attempt.
    - apply keeps_when, keeps_lift. intros x.
      now rewrite ctl_solidDisplacementPredictor, ctl_mpiPrint. }
  destruct (sequence_app_ok _ _ _ _ H) as (s1 & H1 & H2).
  apply Hk in H1. destruct (ctl_fields _ _ H1) as (Hc & _).
  destruct (cfg_fields _ _ Hc) as (Hm & _ & _ & _ & Ht & Hn & HV & HW & _).
  cbn in H2. injection H2 as <-. cbn. repeat split; congruence.
Qed.

Lemma steady_before_spec (s s' : Algorithm) :
  steady_before_fsiCoupling s = Some (Ok tt, s') ->
  timeIter s' = 1
  /\ manager s' = manager s /\ nbTimeToKeep s' = nbTimeToKeep s
  /\ V s' = V s /\ W s' = W s.
Proof. intros H. cbn in H. injection H as <-. repeat split. Qed.

(** What a call of [fsiCoupling] of IQN-ILS does to the lengths of V and
    W. *)
Lemma IQN_fsiCoupling_lengths (s s' : Algorithm) :
  0 < nbTimeToKeep s ->
  List.length (V s) = List.length (W s) ->
  Z.of_nat (List.length (V s)) <= nbTimeToKeep s ->
  Z.of_nat (List.length (V s)) <= Z.max (timeIter s - 1) 0 ->
  AlgorithmIQN_ILS_fsiCoupling s = Some s' ->
  manager s' = manager s /\ nbTimeToKeep s' = nbTimeToKeep s
  /\ timeIter s' = timeIter s
  /\ List.length (V s') = List.length (W s')
  /\ Z.of_nat (List.length (V s')) <= nbTimeToKeep s
  /\ Z.of_nat (List.length (V s')) <= Z.max (timeIter s) 0.
Proof.
  intros Hk Hlen Hle Ht Hcall.
  destruct (IQN_fsiCoupling_returns s) as (s1 & l1 & Hret & Hcfg).
  rewrite Hret in Hcall. injection Hcall as <-.
  destruct (cfg_fields _ _ Hcfg)
    as (Hm & _ & _ & _ & Hti & Hkeep & HV & HW & _).
  destruct (IQN_update_history_keeps s1 l1)
    as (Hm1 & _ & _ & Hti1 & Hk1 & _).
  destruct (ctl_fields _ _ (ctl_IQN_leave (IQN_update_history s1 l1)))
    as (Hcfg' & _).
  destruct (cfg_fields _ _ Hcfg')
    as (Hm2 & _ & _ & _ & Hti2 & Hk2 & HV2 & HW2 & _).
  rewrite Hm2, Hk2, Hti2, HV2, HW2, Hm1, Hk1, Hti1.
  destruct (IQN_update_history_lengths s1 l1) as (L1 & L2 & L3);
    try congruence.
  repeat split; congruence.
Qed.

(** C2. In a run of a freshly built IQN-ILS object with
    [nbTimeToKeep > 0], whenever a call of [fsiCoupling] returns, V and W
    have the same length and this length is at most [nbTimeToKeep]. *)
Theorem IQN_history_is_pruned (Manager_ : Manager)
    (InterfaceInterpolator_ : InterpolatorView) (nbFSIIterMax_ : Z)
    (deltaT_ totTime_ : R) (timeIterTreshold_ : Z) (omegaMax_ : R)
    (nbTimeToKeep_ : Z) (computeTangentMatrixBasedOnFirstIt_ : bool)
    (mpiComm_ : option MpiComm) (ext_ : Ext) (s : Algorithm) :
  0 < nbTimeToKeep_ ->
  IQN_returned
    (AlgorithmIQN_ILS_init Manager_ InterfaceInterpolator_ nbFSIIterMax_
       deltaT_ totTime_ timeIterTreshold_ omegaMax_ nbTimeToKeep_
       computeTangentMatrixBasedOnFirstIt_ mpiComm_ ext_) s ->
  List.length (V s) = List.length (W s)
  /\ Z.of_nat (List.length (V s)) <= nbTimeToKeep_.
Proof.
  intros Hk Hrun.
  set (s0 := AlgorithmIQN_ILS_init Manager_ InterfaceInterpolator_
               nbFSIIterMax_ deltaT_ totTime_ timeIterTreshold_ omegaMax_
               nbTimeToKeep_ computeTangentMatrixBasedOnFirstIt_ mpiComm_
               ext_) in *.
  assert (Hinit : nbTimeToKeep s0 = nbTimeToKeep_ /\ V s0 = [] /\ W s0 = []
                  /\ timeIter s0 = 0) by (repeat split).
  clearbody s0. destruct Hinit as (HK & HV0 & HW0 & Ht0).
  assert (Hpost : nbTimeToKeep s = nbTimeToKeep_
                  /\ List.length (V s) = List.length (W s)
                  /\ Z.of_nat (List.length (V s)) <= nbTimeToKeep_
                  /\ Z.of_nat (List.length (V s)) <= Z.max (timeIter s) 0).
  { induction Hrun as [s1 s2 s3 Hpre _ Hbefore Hcall
                      |s1 s2 s3 Hpre _ Hbefore Hcall
                      |s s1 s2 s3 _ IH _ Hafter Hbefore Hcall].
    - apply keeps_run_prelude in Hpre.
      apply keeps_unsteady_before in Hbefore.
      destruct (ctl_fields _ _ Hpre) as (Hc1 & _).
      destruct (ctl_fields _ _ Hbefore) as (Hc2 & _).
      destruct (cfg_fields _ _ Hc1) as (_ & _ & _ & _ & T1 & K1 & V1 & W1 & _).
      destruct (cfg_fields _ _ Hc2) as (_ & _ & _ & _ & T2 & K2 & V2 & W2 & _).
      assert (EV : V s2 = []) by congruence.
      assert (EW : W s2 = []) by congruence.
      destruct (IQN_fsiCoupling_lengths s2 s3) as (_ & A & B & C & D & E);
        try assumption; rewrite ?EV, ?EW; cbn [List.length]; try lia;
        try reflexivity.
      all: repeat split; try congruence; try lia.
    - apply keeps_run_prelude in Hpre.
      destruct (ctl_fields _ _ Hpre) as (Hc1 & _).
      destruct (cfg_fields _ _ Hc1) as (_ & _ & _ & _ & T1 & K1 & V1 & W1 & _).
      destruct (steady_before_spec _ _ Hbefore) as (T2 & _ & K2 & V2 & W2).
      assert (EV : V s2 = []) by congruence.
      assert (EW : W s2 = []) by congruence.
      destruct (IQN_fsiCoupling_lengths s2 s3) as (_ & A & B & C & D & E);
        try assumption; rewrite ?EV, ?EW; cbn [List.length]; try lia;
        try reflexivity.
      all: repeat split; try congruence; try lia.
    - destruct IH as (IK & IL & IB & IT).
      destruct (unsteady_after_spec _ _ Hafter) as (T1 & _ & K1 & V1 & W1).
      apply keeps_unsteady_before in Hbefore.
      destruct (ctl_fields _ _ Hbefore) as (Hc2 & _).
      destruct (cfg_fields _ _ Hc2) as (_ & _ & _ & _ & T2 & K2 & V2 & W2 & _).
      destruct (IQN_fsiCoupling_lengths s2 s3) as (_ & A & B & C & D & E);
        try assumption; rewrite ?V2, ?W2, ?V1, ?W1, ?K2, ?K1, ?T2, ?T1;
        try lia; try assumption.
      all: repeat split; try congruence; try lia. }
  destruct Hpost as (_ & H1 & H2 & _). split; assumption.
Qed.

(** *** Exceptions in run *)

Lemma ctl_printExitInfo s : ctl (printExitInfo s) = ctl s.
Proof. open_def printExitInfo. ctl_go. Qed.

Lemma out_printExitInfo s : exists l, out (printExitInfo s) = out s ++ l.
Proof.
  unfold printExitInfo. cbv zeta.
  match goal with
  | |- context [if ?c then _ else _] => destruct c
  end; cbn [out mpiPrint call set_out set_ext]; rewrite <- ?app_assoc;
    eexists; reflexivity.
Qed.


(** ** Further properties of the coupling algorithms *)

(** *** Relaxation of Aitken *)

Lemma aitken_setOmega_shape (s : Algorithm) :
  exists x : R,
    omega (AlgorithmBGSAitkenRelax_setOmega s) = Rmax (Rmin x 1) (omegaMin s)
    /\ solidInterfaceResidualkM1 (AlgorithmBGSAitkenRelax_setOmega s) =
       solidInterfaceResidual s
    /\ solidInterfaceResidual (AlgorithmBGSAitkenRelax_setOmega s) =
       solidInterfaceResidual s.
Proof.
  unfold AlgorithmBGSAitkenRelax_setOmega. cbv zeta.
  destruct (negb (FSIIter s =? 0));
    [destruct (Req_dec_T _ _)|destruct (String.eqb _ _)];
    eexists; repeat split.
Qed.


(** *** The loop of the static BGS scheme, in general *)

Lemma BGS_enter_spec (s : Algorithm) :
  cfg (BGS_enter s) = cfg s /\ FSIIter (BGS_enter s) = 0
  /\ FSIConv (BGS_enter s) = false
  /\ errValue (BGS_enter s) = 1000000000000%R
  /\ errValue_CHT (BGS_enter s) = 1000000%R.
Proof.
  unfold BGS_enter. cbv zeta.
  destruct (timeIter s >? timeIterTreshold s); repeat split.
Qed.

Lemma ctl_BGS_leave (s : Algorithm) : ctl (BGS_leave s) = ctl s.
Proof. open_def BGS_leave. ctl_go. Qed.

(** The loop ends within the cap of the time step, with its test false; a
    property [P] that the body keeps holds on exit. *)
Lemma BGS_loop_with (P : Algorithm -> Prop) (s : Algorithm) :
  P (BGS_enter s) ->
  (forall st, cfg (fst st) = cfg s -> P (fst st) -> BGS_cond st = true ->
              P (fst (BGS_body AlgorithmBGSStaticRelax_setOmega st))) ->
  exists s1 b,
    AlgorithmBGSStaticRelax_fsiCoupling s = Some (BGS_leave s1)
    /\ cfg s1 = cfg s
    /\ 0 <= FSIIter s1 <= Z.max 0 (nbFSIIter s)
    /\ BGS_cond (s1, b) = false
    /\ P s1.
Proof.
  intros HP0 Hstep.
  destruct (BGS_enter_spec s) as (Hc0 & Hi0 & _).
  destruct (while_loop_invariant BGS_cond
              (BGS_body AlgorithmBGSStaticRelax_setOmega)
              (fun st => cfg (fst st) = cfg s
                         /\ 0 <= FSIIter (fst st) <= Z.max 0 (nbFSIIter s)
                         /\ P (fst st))
              (fun st => FSIIter (fst st)) (nbFSIIter s))
    with (fuel := S (Z.to_nat (nbFSIIter (BGS_enter s))))
         (st := (BGS_enter s, false))
    as ((s1, b) & Hloop & (Hc & Hb & HP) & Hcond).
  - intros x (Hx & Hbx & HPx) Hcx.
    destruct (BGS_body_spec x) as (Hc & Hi & _).
    assert (Hlt : FSIIter (fst x) < nbFSIIter s).
    { unfold BGS_cond in Hcx. cbv zeta in Hcx.
      apply andb_prop in Hcx. destruct Hcx as (Hlt & _).
      rewrite (cfg_nbFSIIter _ _ Hx) in Hlt. lia. }
    repeat split; try lia.
    + congruence.
    + apply Hstep; assumption.
  - cbn [fst]. rewrite Hi0. repeat split; [exact Hc0|lia|lia|exact HP0].
  - cbn [fst]. rewrite Hi0, (cfg_nbFSIIter _ _ Hc0). lia.
  - exists s1, b. cbn [fst] in Hc, Hb, HP.
    repeat split; try assumption; try lia.
    unfold AlgorithmBGSStaticRelax_fsiCoupling, BGS_fsiCoupling. cbv zeta.
    now rewrite Hloop.
Qed.



(** *** What the steps leave unchanged, for other attributes *)

Create Rewrite HintDb keep.

(** [keep_go] follows a chain of [let]s like [ctl_go], for any function of
    the object. *)
Ltac keep_go :=
  lazymatch goal with
  | |- ?p (let x := ?e in @?b x) = ?r =>
      lazymatch type of e with
      | Algorithm =>
          let H := fresh "H" in
          let z := fresh "z" in
          assert (H : p e = r);
          [ keep_go
          | revert H; generalize e; intros z H;
            change (p (b z) = r); cbv beta; keep_go ]
      | _ => change (p (b e) = r); cbv beta; keep_go
      end
  | |- ?p (if ?c then _ else _) = _ => destruct c; keep_go
  | |- _ =>
      first [ match goal with H : ?g |- ?g => exact H end
            | lazymatch goal with |- ?a = ?a => reflexivity end
            | progress autorewrite with keep; keep_go
            | match goal with H : _ = ?r |- _ = ?r => exact H end
            | reflexivity
            | lazymatch goal with
              | |- ?p (?f ?v ?t) = ?r => change (p t = r)
              end; keep_go ]
  end.

Lemma solid_side_solidToFluidThermalTransfer s :
  solid_side (solidToFluidThermalTransfer s) = solid_side s.
Proof. open_def solidToFluidThermalTransfer. keep_go. Qed.

Lemma solid_side_writeRealTimeData s :
  solid_side (writeRealTimeData s) = solid_side s.
Proof. open_def writeRealTimeData. keep_go. Qed.

Hint Rewrite solid_side_solidToFluidThermalTransfer
  solid_side_writeRealTimeData : keep.

Lemma solid_side_BGS_fluid_part b s :
  solid_side (BGS_fluid_part b s) = solid_side s.
Proof. open_def BGS_fluid_part. keep_go. Qed.

Lemma solid_side_BGS_end_part s :
  solid_side (BGS_end_part s) = solid_side s.
Proof. open_def BGS_end_part. keep_go. Qed.

Lemma solid_side_BGS_enter s : solid_side (BGS_enter s) = solid_side s.
Proof. open_def BGS_enter. keep_go. Qed.

Lemma solid_side_BGS_leave s : solid_side (BGS_leave s) = solid_side s.
Proof. open_def BGS_leave. keep_go. Qed.

(** A sub-iteration below the time threshold. *)
Lemma BGS_body_below (st : Algorithm * bool) :
  (timeIter (fst st) >? timeIterTreshold (fst st)) = false ->
  let s' := fst (BGS_body AlgorithmBGSStaticRelax_setOmega st) in
  errValue s' = errValue (fst st) /\ FSIConv s' = FSIConv (fst st)
  /\ solid_side s' = solid_side (fst st).
Proof.
  intros Hlow. unfold BGS_body. cbv zeta.
  generalize (ctl_BGS_fluid_part (snd st) (fst st))
    (solid_side_BGS_fluid_part (snd st) (fst st)).
  generalize (BGS_fluid_part (snd st) (fst st)). intros x Hx Hs.
  destruct (ctl_fields _ _ Hx) as (Hc & _ & He & _ & Hv).
  destruct (cfg_fields _ _ Hc) as (_ & _ & _ & Ht & Hti & _).
  rewrite Ht, Hti, Hlow. cbn [fst].
  destruct (ctl_tuple _ _ _ _ _ _ (ctl_BGS_end_part x))
    as (_ & _ & E3 & _ & E5).
  rewrite E3, E5, solid_side_BGS_end_part. repeat split; assumption.
Qed.

(** X4. Below the time threshold ([timeIter <= timeIterTreshold]) the
    coupling loop of the static BGS scheme is a run of the fluid solver
    alone: at most one sub-iteration, after which [FSIConv] is false, the
    error value is the one set on entry, and the fields of the interpolator,
    omega and the residual are untouched. *)
Theorem BGS_below_threshold_runs_fluid_only (s : Algorithm) :
  timeIter s <= timeIterTreshold s ->
  exists s',
    AlgorithmBGSStaticRelax_fsiCoupling s = Some s'
    /\ 0 <= FSIIter s' <= 1
    /\ FSIConv s' = false
    /\ errValue s' = 1000000000000%R
    /\ interfaceInterpolator s' = interfaceInterpolator s
    /\ omega s' = omega s
    /\ solidInterfaceResidual s' = solidInterfaceResidual s.
Proof.
  intros Ht.
  assert (Hlow : (timeIter s >? timeIterTreshold s) = false) by lia.
  destruct (BGS_loop_with
              (fun x => errValue x = 1000000000000%R /\ FSIConv x = false
                        /\ solid_side x = solid_side s) s)
    as (s1 & b & Hret & Hc & Hb & _ & He & Hv & Hs).
  - destruct (BGS_enter_spec s) as (_ & _ & Hv & He & _).
    repeat split; try assumption. apply solid_side_BGS_enter.
  - intros st Hst (He & Hv & Hs) _.
    destruct (cfg_fields _ _ Hst) as (_ & _ & _ & H1 & H2 & _).
    destruct (BGS_body_below st) as (E1 & E2 & E3);
      [now rewrite H1, H2|].
    cbv zeta in E1, E2, E3. rewrite E1, E2, E3. repeat split; assumption.
  - exists (BGS_leave s1). split; [exact Hret|].
    destruct (ctl_fields _ _ (ctl_BGS_leave s1)) as (_ & Hi' & He' & _ & Hv').
    pose proof (solid_side_BGS_leave s1) as Hs'. rewrite Hs in Hs'.
    unfold solid_side in Hs'. injection Hs' as H1 H2 H3.
    assert (HN : nbFSIIter s = 1) by (unfold nbFSIIter; now rewrite Hlow).
    rewrite HN in Hb. rewrite Hi', He', Hv'.
    repeat split; try assumption; lia.
Qed.

(** *** The clock *)

Lemma clock_solidToFluidThermalTransfer s :
  clock (solidToFluidThermalTransfer s) = clock s.
Proof. open_def solidToFluidThermalTransfer. keep_go. Qed.

Lemma clock_fluidToSolidThermalTransfer s :
  clock (fluidToSolidThermalTransfer s) = clock s.
Proof. open_def fluidToSolidThermalTransfer. keep_go. Qed.

Lemma clock_computeSolidInterfaceResidual_CHT s :
  clock (fst (computeSolidInterfaceResidual_CHT s)) = clock s.
Proof.
  unfold computeSolidInterfaceResidual_CHT. cbv zeta.
  destruct (cht_is s "hFFB" || cht_is s "TFFB");
    [|destruct (cht_is s "hFTB" || cht_is s "FFTB")]; reflexivity.
Qed.

Lemma clock_relaxCHT s : clock (relaxCHT s) = clock s.
Proof. open_def relaxCHT. keep_go. Qed.

Lemma clock_writeRealTimeData s : clock (writeRealTimeData s) = clock s.
Proof. open_def writeRealTimeData. keep_go. Qed.

Hint Rewrite clock_solidToFluidThermalTransfer
  clock_fluidToSolidThermalTransfer clock_computeSolidInterfaceResidual_CHT
  clock_relaxCHT clock_writeRealTimeData : keep.

Lemma clock_BGS_fluid_part b s : clock (BGS_fluid_part b s) = clock s.
Proof. open_def BGS_fluid_part. keep_go. Qed.

Lemma clock_BGS_errors s : clock (BGS_errors s) = clock s.
Proof. open_def BGS_errors. keep_go. Qed.

Hint Rewrite clock_BGS_fluid_part clock_BGS_errors : keep.

Lemma clock_BGS_solid_part s :
  clock (BGS_solid_part AlgorithmBGSStaticRelax_setOmega s) = clock s.
Proof. open_def BGS_solid_part. keep_go. Qed.

Lemma clock_BGS_enter s : clock (BGS_enter s) = clock s.
Proof. open_def BGS_enter. keep_go. Qed.

Lemma clock_BGS_leave s : clock (BGS_leave s) = clock s.
Proof. open_def BGS_leave. keep_go. Qed.

Lemma clock_fields (a b : Algorithm) :
  clock a = clock b ->
  time a = time b /\ deltaT a = deltaT b /\ totNbOfFSIIt a = totNbOfFSIIt b
  /\ computationType (manager a) = computationType (manager b).
Proof. unfold clock. intros H. injection H. auto. Qed.

(** The end of a sub-iteration advances the time of a computation that is
    not unsteady. *)
Lemma clock_BGS_end_part s :
  clock (BGS_end_part s) =
  ((if negb (String.eqb (computationType (manager s)) "unsteady")
    then time s + deltaT s else time s)%R,
   deltaT s, totNbOfFSIIt s, computationType (manager s)).
Proof.
  unfold BGS_end_part. cbv zeta.
  assert (Hx : clock (if writeInFSIloop s then writeRealTimeData s else s) =
               clock s) by keep_go.
  revert Hx.
  generalize (if writeInFSIloop s then writeRealTimeData s else s).
  intros x Hx.
  destruct (clock_fields _ _ Hx) as (H1 & H2 & H3 & H4).
  rewrite <- H1, <- H2, <- H3, <- H4. clear.
  change (computationType (manager (set_FSIIter (FSIIter x + 1) x)))
    with (computationType (manager x)).
  destruct (negb (String.eqb (computationType (manager x)) "unsteady"));
    match goal with
    | |- context [if ?c then _ else _] => destruct c
    end; reflexivity.
Qed.

Lemma BGS_body_clock (st : Algorithm * bool) :
  clock (fst (BGS_body AlgorithmBGSStaticRelax_setOmega st)) =
  ((if negb (String.eqb (computationType (manager (fst st))) "unsteady")
    then time (fst st) + deltaT (fst st) else time (fst st))%R,
   deltaT (fst st), totNbOfFSIIt (fst st),
   computationType (manager (fst st))).
Proof.
  unfold BGS_body. cbv zeta.
  generalize (clock_BGS_fluid_part (snd st) (fst st)).
  generalize (BGS_fluid_part (snd st) (fst st)). intros x Hx.
  destruct (clock_fields _ _ Hx) as (H1 & H2 & H3 & H4).
  rewrite <- H1, <- H2, <- H3, <- H4.
  destruct (timeIter x >? timeIterTreshold x); cbn [fst].
  - rewrite clock_BGS_end_part.
    destruct (clock_fields _ _ (clock_BGS_solid_part x))
      as (E1 & E2 & E3 & E4).
    now rewrite E1, E2, E3, E4.
  - apply clock_BGS_end_part.
Qed.


(** *** The thermal BGS scheme *)

(** A loop on [BGS_cond] whose body adds one to [FSIIter]. *)
Lemma capped_loop (body : Algorithm * bool -> Algorithm * bool)
    (P : Algorithm -> Prop) (s0 : Algorithm) :
  FSIIter s0 = 0 ->
  (forall st, cfg (fst (body st)) = cfg (fst st)
              /\ FSIIter (fst (body st)) = FSIIter (fst st) + 1) ->
  P s0 ->
  (forall st, cfg (fst st) = cfg s0 -> P (fst st) -> BGS_cond st = true ->
              P (fst (body st))) ->
  exists s1 b,
    while_loop (S (Z.to_nat (nbFSIIter s0))) BGS_cond body (s0, false) =
    Some (s1, b)
    /\ cfg s1 = cfg s0
    /\ 0 <= FSIIter s1 <= Z.max 0 (nbFSIIter s0)
    /\ BGS_cond (s1, b) = false
    /\ P s1.
Proof.
  intros Hi0 Hbody HP0 Hstep.
  destruct (while_loop_invariant BGS_cond body
              (fun st => cfg (fst st) = cfg s0
                         /\ 0 <= FSIIter (fst st) <= Z.max 0 (nbFSIIter s0)
                         /\ P (fst st))
              (fun st => FSIIter (fst st)) (nbFSIIter s0))
    with (fuel := S (Z.to_nat (nbFSIIter s0))) (st := (s0, false))
    as ((s1, b) & Hloop & (Hc & Hb & HP) & Hcond).
  - intros x (Hx & Hbx & HPx) Hcx.
    destruct (Hbody x) as (Hc & Hi).
    assert (Hlt : FSIIter (fst x) < nbFSIIter s0).
    { unfold BGS_cond in Hcx. cbv zeta in Hcx.
      apply andb_prop in Hcx. destruct Hcx as (Hlt & _).
      rewrite (cfg_nbFSIIter _ _ Hx) in Hlt. lia. }
    repeat split; try lia.
    + congruence.
    + apply Hstep; assumption.
  - cbn [fst]. rewrite Hi0. repeat split; try lia. exact HP0.
  - cbn [fst]. rewrite Hi0. lia.
  - exists s1, b. cbn [fst] in Hc, Hb, HP.
    repeat split; try assumption; lia.
Qed.

Lemma ctl_Thermal_fluid_part b s : ctl (Thermal_fluid_part b s) = ctl s.
Proof. open_def Thermal_fluid_part. ctl_go. Qed.

Lemma ctl1_Thermal_solid_part s :
  fst (ctl (Thermal_solid_part s)) = fst (ctl s).
Proof. open_def Thermal_solid_part. ctl_go. Qed.

Lemma Thermal_body_spec (st : Algorithm * bool) :
  cfg (fst (Thermal_body st)) = cfg (fst st)
  /\ FSIIter (fst (Thermal_body st)) = FSIIter (fst st) + 1.
Proof.
  unfold Thermal_body. cbv zeta.
  generalize (Thermal_fluid_part (snd st) (fst st))
    (ctl_Thermal_fluid_part (snd st) (fst st)).
  intros x Hx.
  destruct (ctl_fields _ _ Hx) as (Hc & Hi & _).
  assert (Hy : forall y, fst (ctl y) = fst (ctl x) ->
                 cfg (BGS_end_part y) = cfg (fst st)
                 /\ FSIIter (BGS_end_part y) = FSIIter (fst st) + 1).
  { intros y Hy. destruct (ctl1_fields _ _ Hy) as (Hc1 & Hi1).
    destruct (ctl_tuple _ _ _ _ _ _ (ctl_BGS_end_part y)) as (E1 & E2 & _).
    split; [now rewrite E1, Hc1|now rewrite E2, Hi1, Hi]. }
  destruct (timeIter x >? timeIterTreshold x); cbn [fst].
  - apply Hy, ctl1_Thermal_solid_part.
  - apply Hy. reflexivity.
Qed.

Lemma mechanics_solidToFluidThermalTransfer s :
  mechanics (solidToFluidThermalTransfer s) = mechanics s.
Proof. open_def solidToFluidThermalTransfer. keep_go. Qed.

Lemma mechanics_fluidToSolidThermalTransfer s :
  mechanics (fluidToSolidThermalTransfer s) = mechanics s.
Proof. open_def fluidToSolidThermalTransfer. keep_go. Qed.

Lemma mechanics_computeSolidInterfaceResidual_CHT s :
  mechanics (fst (computeSolidInterfaceResidual_CHT s)) = mechanics s.
Proof.
  unfold computeSolidInterfaceResidual_CHT. cbv zeta.
  destruct (cht_is s "hFFB" || cht_is s "TFFB");
    [|destruct (cht_is s "hFTB" || cht_is s "FFTB")]; reflexivity.
Qed.

Lemma mechanics_relaxCHT s : mechanics (relaxCHT s) = mechanics s.
Proof. open_def relaxCHT. keep_go. Qed.

Lemma mechanics_writeRealTimeData s :
  mechanics (writeRealTimeData s) = mechanics s.
Proof. open_def writeRealTimeData. keep_go. Qed.

Hint Rewrite mechanics_solidToFluidThermalTransfer
  mechanics_fluidToSolidThermalTransfer
  mechanics_computeSolidInterfaceResidual_CHT mechanics_relaxCHT
  mechanics_writeRealTimeData : keep.

Lemma mechanics_Thermal_fluid_part b s :
  mechanics (Thermal_fluid_part b s) = mechanics s.
Proof. open_def Thermal_fluid_part. keep_go. Qed.

Lemma mechanics_Thermal_solid_part s :
  mechanics (Thermal_solid_part s) = mechanics s.
Proof. open_def Thermal_solid_part. keep_go. Qed.

Lemma mechanics_BGS_end_part s : mechanics (BGS_end_part s) = mechanics s.
Proof. open_def BGS_end_part. keep_go. Qed.

Lemma mechanics_BGS_leave s : mechanics (BGS_leave s) = mechanics s.
Proof. open_def BGS_leave. keep_go. Qed.

Lemma mechanics_Thermal_body st :
  mechanics (fst (Thermal_body st)) = mechanics (fst st).
Proof.
  unfold Thermal_body. cbv zeta.
  destruct (timeIter _ >? timeIterTreshold _); cbn [fst];
    rewrite mechanics_BGS_end_part, ?mechanics_Thermal_solid_part;
    apply mechanics_Thermal_fluid_part.
Qed.

Lemma Thermal_enter_spec s :
  cfg (Thermal_enter s) = cfg s /\ FSIIter (Thermal_enter s) = 0
  /\ mechanics (Thermal_enter s) =
     (solidInterfaceDisplacement (interfaceInterpolator s), 0%R, omega s,
      solidInterfaceResidual s).
Proof.
  unfold Thermal_enter. cbv zeta.
  destruct (timeIter s >? timeIterTreshold s); repeat split.
Qed.


(** *** The history of IQN-ILS *)

Lemma IQN_update_history_skipped s l :
  nbTimeToKeep s = 0 \/ timeIter s < 1 -> IQN_update_history s l = s.
Proof.
  intros H. unfold IQN_update_history.
  replace (negb (nbTimeToKeep s =? 0) && (timeIter s >=? 1)) with false;
    [reflexivity|].
  symmetry. apply andb_false_iff. destruct H as [H|H].
  - left. rewrite H. reflexivity.
  - right. rewrite Z.geb_leb. apply Z.leb_gt. lia.
Qed.

Lemma IQN_update_history_one_iteration s l :
  nbTimeToKeep s <> 0 -> 1 <= timeIter s ->
  FSIIter s = 1 -> FSIConv s = true -> V s = [] ->
  let s' := IQN_update_history s l in
  V s' = [] /\ W s' = W s /\ convergenceReachedInOneIt s' = true
  /\ maxNbOfItReached s' = maxNbOfItReached s
  /\ out s' = out s ++ [Printed msg_IQN_one_iteration].
Proof.
  intros Hk Ht Hi Hv HV. unfold IQN_update_history. cbv zeta.
  replace (nbTimeToKeep s =? 0) with false by (symmetry; apply Z.eqb_neq; lia).
  replace (timeIter s >=? 1) with true by (symmetry; apply Z.geb_le; lia).
  rewrite Hi, Hv, HV. cbn. repeat split. exact HV.
Qed.

(** X7. Without re-use of previous time steps ([nbTimeToKeep = 0]), and in
    any case before the time step [timeIter = 1], [fsiCoupling] of IQN-ILS
    returns without touching V, W, [maxNbOfItReached] and
    [convergenceReachedInOneIt]. *)
Theorem IQN_without_history_keeps_V_W (s : Algorithm) :
  nbTimeToKeep s = 0 \/ timeIter s < 1 ->
  exists s',
    AlgorithmIQN_ILS_fsiCoupling s = Some s'
    /\ V s' = V s /\ W s' = W s
    /\ maxNbOfItReached s' = maxNbOfItReached s
    /\ convergenceReachedInOneIt s' = convergenceReachedInOneIt s.
Proof.
  intros H.
  destruct (IQN_fsiCoupling_returns s) as (s1 & l1 & Hret & Hcfg).
  exists (IQN_leave (IQN_update_history s1 l1)). split; [exact Hret|].
  destruct (cfg_fields _ _ Hcfg)
    as (_ & _ & _ & _ & Hti & Hk & HV & HW & Hm & Hc).
  rewrite IQN_update_history_skipped by (rewrite Hk, Hti; exact H).
  destruct (ctl_fields _ _ (ctl_IQN_leave s1)) as (Hcfg' & _).
  destruct (cfg_fields _ _ Hcfg')
    as (_ & _ & _ & _ & _ & _ & HV' & HW' & Hm' & Hc').
  repeat split; congruence.
Qed.


(** *** The teardown of run *)

(** The start of the [finally:] clause: the barrier, the banner and the exit
    summary.  Neither solver is exited there and no diagnostic of an
    exception is printed. *)
Lemma finally_prefix (sA : Algorithm) :
  let sB := printExitInfo
              (mpiPrint "*    End FSI computation    *"
                 (call mpiBarrier sA)) in
  ctl sB = ctl sA
  /\ exists l, out sB = out sA ++ l
               /\ ~ In (Called SolidSolver_exit) l
               /\ ~ In (Called FluidSolver_exit) l
               /\ ~ In (Printed msg_divine_error) l.
Proof.
  cbv zeta. split; [now rewrite ctl_printExitInfo, ctl_mpiPrint, ctl_call|].
  unfold printExitInfo. cbv zeta.
  match goal with
  | |- context [if ?c then _ else _] => destruct c
  end; cbn [out mpiPrint call set_out set_ext]; rewrite <- ?app_assoc;
    cbn [app]; eexists; (split; [reflexivity|]);
    unfold not, msg_successful_run; cbn [In];
    destruct (Rle_dec _ _); repeat split; intros H;
    repeat (destruct H as [H|H]; [discriminate H|]); exact H.
Qed.

Lemma owns_solid_solver_ctl (a b : Algorithm) :
  ctl a = ctl b -> owns_solid_solver a = owns_solid_solver b.
Proof.
  intros H. destruct (ctl_fields _ _ H) as (Hc & _).
  destruct (cfg_fields _ _ Hc) as (Hm & Hid & _).
  unfold owns_solid_solver. now rewrite Hm, Hid.
Qed.

(** The [finally:] clause when the two solvers exit. *)
Lemma run_finally_returns (sA : Algorithm) :
  (forall x, raises SolidSolver_exit x = None) ->
  (forall x, raises FluidSolver_exit x = None) ->
  exists s3 l,
    run_finally sA = Some (Ok tt, s3)
    /\ out s3 =
       out sA ++ l
       ++ (if owns_solid_solver sA then [Called SolidSolver_exit] else [])
       ++ [Called FluidSolver_exit; Called mpiBarrier]
    /\ ~ In (Called SolidSolver_exit) l
    /\ ~ In (Called FluidSolver_exit) l
    /\ ~ In (Printed msg_divine_error) l.
Proof.
  intros Hsolid Hfluid.
  destruct (finally_prefix sA) as (HcB & l & HoB & N1 & N2 & N3).
  cbv zeta in HcB, HoB.
  unfold run_finally. cbn [sequence_]. unfold seq_, bind, lift, ret.
  revert HcB HoB.
  generalize (printExitInfo
                (mpiPrint "*    End FSI computation    *"
                   (call mpiBarrier sA))).
  intros sB HcB HoB.
  unfold when_, attempt. rewrite (owns_solid_solver_ctl _ _ HcB).
  destruct (owns_solid_solver sA).
  - rewrite Hsolid, Hfluid. eexists. exists l. split; [reflexivity|].
    split; [|auto]. cbn. rewrite HoB. now rewrite <- !app_assoc.
  - rewrite Hfluid. eexists. exists l. split; [reflexivity|].
    split; [|auto]. cbn. rewrite HoB. now rewrite <- !app_assoc.
Qed.

(** The [finally:] clause when [SolidSolver.exit()] raises. *)
Lemma run_finally_solid_exit_raises (sA : Algorithm) (e' : exn) :
  owns_solid_solver sA = true ->
  (forall x, raises SolidSolver_exit x = Some e') ->
  exists s3 l,
    run_finally sA = Some (Raise e', s3)
    /\ out s3 = out sA ++ l ++ [Called SolidSolver_exit]
    /\ ~ In (Called FluidSolver_exit) l.
Proof.
  intros Hown Hsolid.
  destruct (finally_prefix sA) as (HcB & l & HoB & N1 & N2 & N3).
  cbv zeta in HcB, HoB.
  unfold run_finally. cbn [sequence_]. unfold seq_, bind, lift, ret.
  revert HcB HoB.
  generalize (printExitInfo
                (mpiPrint "*    End FSI computation    *"
                   (call mpiBarrier sA))).
  intros sB HcB HoB.
  unfold when_, attempt. rewrite (owns_solid_solver_ctl _ _ HcB), Hown.
  rewrite Hsolid. eexists. exists l. split; [reflexivity|].
  split; [|exact N2]. cbn. rewrite HoB. now rewrite <- !app_assoc.
Qed.

Lemma run_after_return (fsiCoupling : M unit) (fuel : nat)
    (s0 s1 s2 : Algorithm) :
  run_prelude s0 = Some (Ok tt, s1) ->
  run_try fsiCoupling fuel s1 = Some (Ok tt, s2) ->
  run fsiCoupling fuel s0 = run_finally s2.
Proof.
  intros Hpre Htry. unfold run, seq_, bind. rewrite Hpre.
  unfold try_except_finally. now rewrite Htry.
Qed.

Lemma run_after_raise (fsiCoupling : M unit) (fuel : nat)
    (s0 s1 s2 : Algorithm) (e : exn) :
  run_prelude s0 = Some (Ok tt, s1) ->
  run_try fsiCoupling fuel s1 = Some (Raise e, s2) ->
  exists sA,
    run fsiCoupling fuel s0 = run_finally sA
    /\ out sA = out s2 ++ [Printed msg_divine_error; TracebackPrinted e]
    /\ ctl sA = ctl s2.
Proof.
  intros Hpre Htry. unfold run, seq_, bind. rewrite Hpre.
  unfold try_except_finally. rewrite Htry.
  unfold run_except, lift. eexists. split; [reflexivity|].
  split; [|reflexivity]. cbn. now rewrite <- app_assoc.
Qed.


(** X10. An exception raised by the teardown itself is not caught: on a
    process that owns the solid solver, if [SolidSolver.exit()] raises in
    the [finally:] clause, then [run] raises that exception, whether the
    time loop had returned or raised, and [FluidSolver.exit()] is not
    called. *)
Theorem run_raises_when_solid_exit_fails (fsiCoupling : M unit) (fuel : nat)
    (s0 s1 s2 : Algorithm) (r : result unit) (e' : exn) :
  run_prelude s0 = Some (Ok tt, s1) ->
  run_try fsiCoupling fuel s1 = Some (r, s2) ->
  owns_solid_solver s2 = true ->
  (forall x, raises SolidSolver_exit x = Some e') ->
  exists s3 l,
    run fsiCoupling fuel s0 = Some (Raise e', s3)
    /\ out s3 = out s2 ++ l ++ [Called SolidSolver_exit]
    /\ ~ In (Called FluidSolver_exit) l.
Proof.
  intros Hpre Htry Hown Hsolid. destruct r as [[]|e].
  - rewrite (run_after_return _ _ _ _ _ Hpre Htry).
    apply run_finally_solid_exit_raises; assumption.
  - destruct (run_after_raise _ _ _ _ _ _ Hpre Htry) as (sA & Hrun & HoA & HcA).
    rewrite Hrun.
    destruct (run_finally_solid_exit_raises sA e') as (s3 & l & H1 & H2 & H3).
    + now rewrite (owns_solid_solver_ctl _ _ HcA).
    + exact Hsolid.
    + exists s3, ([Printed msg_divine_error; TracebackPrinted e] ++ l).
      split; [exact H1|]. split.
      * rewrite H2, HoA. now rewrite <- !app_assoc.
      * intros [H|[H|H]]; [discriminate H|discriminate H|exact (H3 H)].
Qed.

(** *** The clock across the time loop *)

Lemma keeps_lift_f {A : Type} (f : Algorithm -> A)
    (g : Algorithm -> Algorithm) :
  (forall s, f (g s) = f s) -> keeps f (lift g).
Proof. intros Hg s r s' H. unfold lift in H. injection H as _ <-. apply Hg. Qed.

Lemma keeps_ret_f {A : Type} (f : Algorithm -> A) : keeps f (ret tt).
Proof. intros s r s' H. unfold ret in H. now injection H as _ <-. Qed.

Lemma keeps_attempt_f {A : Type} (f : Algorithm -> A)
    (c : Algorithm -> Call) :
  (forall c s, f (call c s) = f s) -> keeps f (fun s => attempt (c s) s).
Proof.
  intros Hf s r s' H. unfold attempt in H.
  destruct (raises (c s) (ext s)); injection H as _ <-; apply Hf.
Qed.

Lemma keeps_when_f {A : Type} (f : Algorithm -> A)
    (cond : Algorithm -> bool) (m : M unit) :
  keeps f m -> keeps f (when_ cond m).
Proof.
  intros Hm s r s' H. unfold when_ in H. destruct (cond s).
  - exact (Hm _ _ _ H).
  - now injection H as _ <-.
Qed.

Lemma keeps_seq_f {A : Type} (f : Algorithm -> A) (m1 m2 : M unit) :
  keeps f m1 -> keeps f m2 -> keeps f (seq_ m1 m2).
Proof.
  intros H1 H2 s r s' H. unfold seq_, bind in H.
  destruct (m1 s) as [[[a|e] s1]|] eqn:E1; [| |discriminate].
  - rewrite (H2 _ _ _ H). exact (H1 _ _ _ E1).
  - injection H as _ <-. exact (H1 _ _ _ E1).
Qed.

Lemma keeps_sequence_f {A : Type} (f : Algorithm -> A) (ms : list (M unit)) :
  Forall (keeps f) ms -> keeps f (sequence_ ms).
Proof.
  induction 1 as [|m ms Hm _ IH]; cbn [sequence_].
  - apply keeps_ret_f.
  - now apply keeps_seq_f.
Qed.

Lemma keeps_if_f {A : Type} (f : Algorithm -> A) (cond : Algorithm -> bool)
    (m1 m2 : M unit) :
  keeps f m1 -> keeps f m2 ->
  keeps f (fun s => if cond s then m1 s else m2 s).
Proof. intros H1 H2 s r s' H. destruct (cond s); eauto. Qed.

Lemma clock_call c s : clock (call c s) = clock s.
Proof. reflexivity. Qed.

Lemma clock_mpiPrint m s : clock (mpiPrint m s) = clock s.
Proof. reflexivity. Qed.

Lemma clock_attempt (c : Algorithm -> Call) :
  keeps clock (fun s => attempt (c s) s).
Proof. apply keeps_attempt_f, clock_call. Qed.

Lemma clock_run_prelude : keeps clock run_prelude.
Proof.
  assert (Hd : keeps clock getDisplacement).
  { apply keeps_seq_f; [apply (clock_attempt (fun _ => _))|].
    apply keeps_lift_f. reflexivity. }
  assert (Ht : keeps clock setInitialInterfaceThermal).
  { apply keeps_when_f.
    apply (keeps_if_f clock (fun s => cht_is s "hFFB" || cht_is s "TFFB"));
      [apply (clock_attempt (fun _ => _))|].
    apply (keeps_if_f clock (fun s => cht_is s "hFTB" || cht_is s "FFTB"));
      [apply (clock_attempt (fun _ => _))|apply keeps_ret_f]. }
  apply keeps_sequence_f. repeat constructor.
  - apply keeps_seq_f; [apply keeps_when_f|];
      apply (clock_attempt (fun _ => _)).
  - apply keeps_lift_f, clock_mpiPrint.
  - apply keeps_lift_f, clock_mpiPrint.
  - apply (keeps_if_f clock
             (fun s => String.eqb (computationType (manager s)) "unsteady"));
      apply keeps_sequence_f; repeat constructor;
      first [ exact Hd | exact Ht
            | apply keeps_when_f; apply (clock_attempt (fun _ => _))
            | apply (clock_attempt (fun _ => _))
            | apply (clock_attempt
                       (fun s => interpolateSolidDisplacementOnFluidMesh
                                   (solidInterfaceDisplacement
                                      (interfaceInterpolator s))))
            | apply (clock_attempt
                       (fun s => setDisplacementToFluidSolver (time s))) ].
  - apply keeps_lift_f, clock_mpiPrint.
Qed.


Lemma clock_solidDisplacementPredictor s :
  clock (solidDisplacementPredictor s) = clock s.
Proof. open_def solidDisplacementPredictor. keep_go. Qed.

(** X12. The bookkeeping at the end of a pass of the time loop whose calls
    all return: [timeIter] advances by one and the time by [deltaT];
    [FSIIter] is added to the total count of sub-iterations except in the
    first time step ([timeIter = 0]), whose sub-iterations are not
    counted. *)
Theorem unsteady_pass_bookkeeping (s s' : Algorithm) :
  unsteady_after_fsiCoupling s = Some (Ok tt, s') ->
  timeIter s' = timeIter s + 1
  /\ time s' = (time s + deltaT s)%R
  /\ deltaT s' = deltaT s
  /\ FSIIter s' = FSIIter s
  /\ totNbOfFSIIt s' =
     (if timeIter s >? 0 then totNbOfFSIIt s + FSIIter s
      else totNbOfFSIIt s).
Proof.
  intros H. unfold unsteady_after_fsiCoupling in H.
  match type of H with
  | sequence_ [?a; ?b; ?c; ?d; ?e; ?f; ?g; ?h; ?i; ?j; ?k; ?l] _ = _ =>
      change (sequence_ ([a; b] ++ ([c; d; e; f; g; h; i; j] ++ [k; l])) s =
              Some (Ok tt, s')) in H;
      assert (Hk : keeps clock (sequence_ [c; d; e; f; g; h; i; j]));
      [|assert (Hc : keeps_ctl (sequence_ [c; d; e; f; g; h; i; j]))]
  end.
  { apply keeps_sequence_f. repeat constructor.
    - apply keeps_when_f, (clock_attempt (fun _ => _)).
    - apply (clock_attempt (fun s => FluidSolver_update (deltaT s))).
    - apply (clock_attempt (fun s => FluidSolver_save (timeIter s))).
    - apply keeps_when_f, (clock_attempt (fun _ => _)).
    - apply keeps_lift_f, clock_writeRealTimeData.
    - apply keeps_when_f, (clock_attempt (fun _ => _)).
    - apply (clock_attempt (fun _ => _)).
    - apply keeps_when_f, keeps_lift_f. intros x.
      now rewrite clock_solidDisplacementPredictor. }
  { apply keeps_sequence. repeat constructor.
    - apply keeps_when, keeps_attempt.
    - apply (keeps_attempt_at (fun s => FluidSolver_update (deltaT s))).
    - apply (keeps_attempt_at (fun s => FluidSolver_save (timeIter s))).
    - apply keeps_when, keeps_attempt.
    - apply keeps_lift, ctl_writeRealTimeData.
    - apply keeps_when, keeps_attempt.
    - apply keeps_attempt.
    - apply keeps_when, keeps_lift. intros x.
      now rewrite ctl_solidDisplacementPredictor, ctl_mpiPrint. }
  destruct (sequence_app_ok _ _ _ _ H) as (sa & Ha & H').
  destruct (sequence_app_ok _ _ _ _ H') as (sb & Hb & Hl).
  cbn in Ha. injection Ha as <-.
  apply Hk in Hb as Hclk. apply Hc in Hb as Hctl.
  cbn in Hl. injection Hl as <-.
  destruct (clock_fields _ _ Hclk) as (C1 & C2 & C3 & _).
  destruct (ctl_fields _ _ Hctl) as (Hcfg & Hi & _).
  destruct (cfg_fields _ _ Hcfg) as (_ & _ & _ & _ & Hti & _).
  cbn [timeIter time deltaT FSIIter totNbOfFSIIt set_timeIter set_time].
  rewrite Hti, C1, C2, C3, Hi.
  destruct (timeIter s >? 0); repeat split.
Qed.

End CouplingTheorems.

(** ** Further properties of the interpolators *)

(** X13. With MPI, [setRobinHeatFluxToSolidSolver] redistributes the Robin
    temperature on every process; a process that owns part of the solid
    interface reads the nodal temperatures and applies the flux
    [heatTransferCoeff * (T_solid - T_robin)], the others apply nothing. *)
Theorem setRobinHeatFlux_with_mpi (self : InterfaceInterpolator.t)
    (comm : MpiComm) (h : R) (robin : list (list R)) (T_solid : list R)
    (time : R) :
  InterfaceInterpolator.mpiComm self = Some comm ->
  InterfaceInterpolator.heatTransferCoeff self = Some (PyFloat h) ->
  InterfaceInterpolator.setRobinHeatFluxToSolidSolver self robin T_solid time =
  if in_procs (InterfaceInterpolator.myid self)
       (getSolidInterfaceProcessors (InterfaceInterpolator.manager self))
  then
    ([Called redistributeDataToSolidSolver;
      Called SolidSolver_getNodalTemperatures;
      Called (SolidSolver_applyNodalNormalHeatFluxes
                (PyArray (map (Rmult h)
                            (py_array_sub T_solid (nth 0 robin []))))
                time)],
     Ok tt)
  else ([Called redistributeDataToSolidSolver], Ok tt).
Proof.
  intros Hc Hh.
  unfold InterfaceInterpolator.setRobinHeatFluxToSolidSolver,
    InterfaceInterpolator.coeff_value.
  rewrite Hc, Hh.
  destruct (in_procs _ _); reflexivity.
Qed.

(** X14. Without MPI, [setRobinHeatFluxToSolidSolver] never applies a heat
    flux array: the coefficient multiplies the pair
    (T_solid - T_robin, time).  With a float coefficient this is a TypeError
    for every input, raised after the temperatures are read; with an integer
    coefficient [n] the solid solver receives this pair repeated [n] times
    in place of the flux. *)
Theorem setRobinHeatFlux_without_mpi (self : InterfaceInterpolator.t)
    (field : Field) (robin : list (list R)) (T_solid : list R) (time : R) :
  InterfaceInterpolator.mpiComm self = None ->
  InterfaceInterpolator.solidInterfaceRobinTemperature self = Some field ->
  let pair_ :=
    [PyArray (py_array_sub T_solid (FlexInterfaceData.getDataArray field 0));
     PyFloat time] in
  (forall h,
     InterfaceInterpolator.heatTransferCoeff self = Some (PyFloat h) ->
     InterfaceInterpolator.setRobinHeatFluxToSolidSolver self robin T_solid
       time =
     ([Called SolidSolver_getNodalTemperatures],
      Raise (TypeError "can't multiply sequence by non-int of type 'float'")))
  /\ (forall n,
        InterfaceInterpolator.heatTransferCoeff self = Some (PyInt n) ->
        InterfaceInterpolator.setRobinHeatFluxToSolidSolver self robin T_solid
          time =
        ([Called SolidSolver_getNodalTemperatures;
          Called (SolidSolver_applyNodalNormalHeatFluxes
                    (PyTuple (py_tuple_repeat pair_ n)) time)],
         Ok tt)).
Proof.
  intros Hc Hr pair_.
  unfold InterfaceInterpolator.setRobinHeatFluxToSolidSolver,
    InterfaceInterpolator.coeff_value.
  rewrite Hc, Hr. split; intros x Hx; rewrite Hx; reflexivity.
Qed.

Section MoreInterpolatorTheorems.

Context {LA : InterfaceAlgebra}.

Lemma valid_method_cases (m : option string) :
  in_strings m valid_chtTransferMethods =
  str_is m "TFFB" || (str_is m "FFTB" || (str_is m "hFTB" || str_is m "hFFB")).
Proof.
  destruct m as [t|]; [|reflexivity].
  unfold in_strings, valid_chtTransferMethods, str_is. cbn [existsb].
  now rewrite orb_false_r.
Qed.

Lemma robin_method_cases (m : option string) :
  in_strings m ["hFTB"; "hFFB"] = str_is m "hFTB" || str_is m "hFFB".
Proof.
  destruct m as [t|]; [|reflexivity].
  unfold in_strings, str_is. cbn [existsb]. now rewrite orb_false_r.
Qed.

(** X15. A matching-mesh interpolator built with CHT enabled always has one
    of the four transfer methods, whatever was passed, and the solid field
    that the thermal relaxation updates is allocated with one column set per
    solid node: the heat flux (3 columns) for hFFB and TFFB, the temperature
    (1 column) for hFTB and FFTB.  The heat transfer coefficient is kept
    for the Robin methods hFTB and hFFB only. *)
Theorem matching_init_allocates_thermal_fields (Manager_ : Manager)
    (mpiComm_ : option MpiComm) (chtTransferMethod_ : option string)
    (heatTransferCoeff_ : pyval) (self : MatchingMeshesInterpolator.t) :
  withCht Manager_ = true ->
  snd (MatchingMeshesInterpolator.init Manager_ mpiComm_ chtTransferMethod_
         heatTransferCoeff_) = Ok self ->
  let b := MatchingMeshesInterpolator.base self in
  let m := InterfaceInterpolator.chtTransferMethod b in
  let ns_ := getNumberOfSolidInterfaceNodes Manager_ in
  in_strings m valid_chtTransferMethods = true
  /\ (str_is m "hFFB" || str_is m "TFFB" = true ->
      InterfaceInterpolator.solidInterfaceHeatFlux b =
      Some (FlexInterfaceData.make ns_ 3))
  /\ (str_is m "hFTB" || str_is m "FFTB" = true ->
      InterfaceInterpolator.solidInterfaceTemperature b =
      Some (FlexInterfaceData.make ns_ 1))
  /\ InterfaceInterpolator.heatTransferCoeff b =
     (if str_is m "hFTB" || str_is m "hFFB" then Some heatTransferCoeff_
      else None).
Proof.
  intros Hcht. unfold MatchingMeshesInterpolator.init,
    InterfaceInterpolator.init.
  rewrite Hcht.
  destruct (negb (in_strings chtTransferMethod_ valid_chtTransferMethods))
    eqn:Hvalid;
    cbn [InterfaceInterpolator.nf InterfaceInterpolator.ns];
    destruct (negb (getNumberOfFluidInterfaceNodes Manager_ =?
                    getNumberOfSolidInterfaceNodes Manager_));
    try (cbn; discriminate);
    destruct (matching_matrices Manager_) as (H_ & H_T_);
    cbn [snd]; intros Hself; injection Hself as <-; cbv zeta;
    cbn [MatchingMeshesInterpolator.base
         MatchingMeshesInterpolator.generateInterfaceData
         InterfaceInterpolator.chtTransferMethod
         InterfaceInterpolator.solidInterfaceHeatFlux
         InterfaceInterpolator.solidInterfaceTemperature
         InterfaceInterpolator.heatTransferCoeff
         InterfaceInterpolator.manager InterfaceInterpolator.ns];
    rewrite ?Hcht.
  - repeat split; cbn; intros; try reflexivity; discriminate.
  - apply negb_false_iff in Hvalid.
    pose proof Hvalid as Hcases. rewrite valid_method_cases in Hcases.
    split; [exact Hvalid|].
    rewrite robin_method_cases.
    destruct (str_is chtTransferMethod_ "TFFB"),
      (str_is chtTransferMethod_ "FFTB"),
      (str_is chtTransferMethod_ "hFTB"),
      (str_is chtTransferMethod_ "hFFB") eqn:E4;
      cbn in Hcases |- *; try discriminate Hcases;
      repeat split; intros; try reflexivity; try discriminate.
Qed.

End MoreInterpolatorTheorems.

(** ** The fake FSI driver of a solid solver *)

Section SolidTestTheorems.

Import FsiSolidTestAlgorithm.

Variable Solid : Type.
Variable fakeFluidSolver : R -> Solid -> Solid.
Variable run_solid : R -> R -> Solid -> Solid.
Variable getNodalDisplacements : Solid -> list R * list R * list R.
Variable update : Solid -> Solid.
Variable save : Solid -> Solid.

Lemma runs_app (a b : list Output) : runs (a ++ b) = runs a ++ runs b.
Proof.
  induction a as [|o a IH]; [reflexivity|].
  destruct o as [m|t1 t2 i|v|c]; cbn; try exact IH.
  destruct c; cbn; rewrite ?IH; reflexivity.
Qed.

Lemma filter_length_app {A : Type} (p : A -> bool) (a b : list A) :
  List.length (filter p (a ++ b)) =
  (List.length (filter p a) + List.length (filter p b))%nat.
Proof. now rewrite filter_app, length_app. Qed.

Lemma try_step_out (t1 dt : R) (i : Z) (solid : Solid) (out : list Output) :
  exists solid' l,
    try_step Solid fakeFluidSolver run_solid getNodalDisplacements t1 dt i
      (solid, out) = (solid', out ++ l)
    /\ runs l = [(t1, (t1 + dt)%R)]
    /\ filter is_update l = [] /\ filter is_save l = [].
Proof.
  unfold try_step.
  destruct (getNodalDisplacements _) as ((dx & dy) & dz).
  eexists. eexists. split.
  - rewrite <- !app_assoc. reflexivity.
  - repeat split.
Qed.

Lemma time_step_out (dt t1 : R) (solid : Solid) (out : list Output) :
  exists solid' l,
    time_step Solid fakeFluidSolver run_solid getNodalDisplacements
      update save dt (t1, (solid, out)) = ((t1 + dt)%R, (solid', out ++ l))
    /\ runs l = [(t1, (t1 + dt)%R); (t1, (t1 + dt)%R)]
    /\ List.length (filter is_update l) = 1%nat
    /\ List.length (filter is_save l) = 1%nat.
Proof.
  unfold time_step. cbn [fold_left].
  destruct (try_step_out t1 dt 0 solid out) as (s1 & l1 & E1 & R1 & U1 & S1).
  rewrite E1.
  destruct (try_step_out t1 dt 1 s1 (out ++ l1))
    as (s2 & l2 & E2 & R2 & U2 & S2).
  rewrite E2.
  eexists. exists (l1 ++ l2 ++ [Made solid_update; Made solid_save]).
  split.
  - rewrite <- !app_assoc. reflexivity.
  - rewrite !runs_app, !filter_length_app, R1, R2, U1, U2, S1, S2.
    repeat split.
Qed.

Lemma windows_snoc (n : nat) (t1 dt : R) :
  windows (S n) t1 dt =
  windows n t1 dt
  ++ [((t1 + INR n * dt)%R, (t1 + INR n * dt + dt)%R);
      ((t1 + INR n * dt)%R, (t1 + INR n * dt + dt)%R)].
Proof.
  revert t1. induction n as [|n IH]; intros t1.
  - cbn. replace (t1 + 0 * dt)%R with t1 by lra. reflexivity.
  - change (windows (S (S n)) t1 dt)
      with ((t1, (t1 + dt)%R) :: (t1, (t1 + dt)%R)
            :: windows (S n) (t1 + dt)%R dt).
    rewrite IH. cbn [windows app]. rewrite S_INR.
    replace (t1 + dt + INR n * dt)%R with (t1 + (INR n + 1) * dt)%R by lra.
    reflexivity.
Qed.

Lemma run_steps_spec (nt : nat) (t1 dt : R) (solid : Solid) :
  exists solid' out,
    run_steps Solid fakeFluidSolver run_solid getNodalDisplacements update
      save nt t1 dt solid = ((t1 + INR nt * dt)%R, (solid', out))
    /\ runs out = windows nt t1 dt
    /\ List.length (filter is_update out) = nt
    /\ List.length (filter is_save out) = nt.
Proof.
  unfold run_steps. induction nt as [|n (s1 & out & E & Hr & Hu & Hs)].
  - exists solid, []. cbn. replace (t1 + 0 * dt)%R with t1 by lra.
    repeat split.
  - rewrite Nat.iter_succ, E.
    destruct (time_step_out dt (t1 + INR n * dt)%R s1 out)
      as (s2 & l & E2 & R2 & U2 & S2).
    rewrite E2. exists s2, (out ++ l). split.
    + rewrite S_INR. f_equal. lra.
    + rewrite runs_app, !filter_length_app, Hr, R2, Hu, U2, Hs, S2.
      rewrite windows_snoc. repeat split; lia.
Qed.

(** X16. [FsiSolidTestAlgorithm.run] drives the solid solver over ten time
    steps of 0.5 from 0: the solver is run twice on each window
    [j/2, (j+1)/2], in order, it is updated and saved ten times, and the
    time reached is 5. *)
Theorem solid_test_runs_each_step_twice (solid : Solid) :
  exists solid' out,
    run Solid fakeFluidSolver run_solid getNodalDisplacements update save
      solid = (5%R, (solid', out))
    /\ runs out = windows 10 0 (1 / 2)
    /\ List.length (runs out) = 20%nat
    /\ List.length (filter is_update out) = 10%nat
    /\ List.length (filter is_save out) = 10%nat.
Proof.
  unfold run.
  destruct (run_steps_spec 10 0 (1 / 2) solid) as (s1 & out & E & Hr & Hu & Hs).
  exists s1, out. rewrite E, Hr. repeat split; try assumption.
  f_equal. cbn [INR]. lra.
Qed.

End SolidTestTheorems.

(** ** The theorems on concrete objects *)


(** C7 as stated does not hold: with CHT enabled, the matching-mesh
    interpolator is built with the unknown transfer method XYZ without any
    exception; its method is TFFB. *)
Lemma unknown_cht_method_is_accepted :
  withCht (test_manager 2 2 true "unsteady") = true
  /\ in_strings (Some "XYZ") valid_chtTransferMethods = false
  /\ exists self,
       snd (MatchingMeshesInterpolator.init (LA := test_algebra)
              (test_manager 2 2 true "unsteady") None (Some "XYZ")
              (PyFloat 1)) = Ok self
       /\ InterfaceInterpolator.chtTransferMethod
            (MatchingMeshesInterpolator.base self) = Some "TFFB".
Proof.
  split; [reflexivity|]. split; [reflexivity|].
  eexists. split; reflexivity.
Qed.

(** The amended C7 on the same input. *)
Lemma unknown_cht_method_defaults_to_TFFB_witness :
  InterfaceInterpolator.chtTransferMethod
    (snd (InterfaceInterpolator.init (test_manager 2 2 true "unsteady") None
            (Some "XYZ") (PyFloat 1))) = Some "TFFB"
  /\ In (Printed msg_cht_default)
       (fst (InterfaceInterpolator.init (test_manager 2 2 true "unsteady")
               None (Some "XYZ") (PyFloat 1)))
  /\ is_ok (snd (MatchingMeshesInterpolator.init (LA := test_algebra)
                   (test_manager 2 2 true "unsteady") None (Some "XYZ")
                   (PyFloat 1))) =
     (getNumberOfFluidInterfaceNodes (test_manager 2 2 true "unsteady") =?
      getNumberOfSolidInterfaceNodes (test_manager 2 2 true "unsteady")).
Proof.
  apply (unknown_cht_method_defaults_to_TFFB (LA := test_algebra)
           (test_manager 2 2 true "unsteady") None (Some "XYZ") (PyFloat 1));
    reflexivity.
Defined.



Ltac evaluate := vm_compute; reflexivity.



(** C2 on [satisfied_IQN], which keeps two time steps: when [fsiCoupling]
    returns in the fourth time step ([timeIter = 3]), V and W hold two
    entries each. *)
Lemma IQN_history_is_pruned_witness :
  exists s,
    IQN_returned satisfied_IQN s
    /\ timeIter s = 3
    /\ List.length (V s) = 2%nat
    /\ List.length (V s) = List.length (W s)
    /\ Z.of_nat (List.length (V s)) <= 2.
Proof.
  eassert (H0 : IQN_returned satisfied_IQN _).
  { eapply IQN_returned_first_unsteady.
    1: evaluate. 1: evaluate. 1: evaluate. evaluate. }
  eassert (H1 : IQN_returned satisfied_IQN _).
  { eapply (IQN_returned_next _ _ _ _ _ H0).
    1: evaluate. 1: evaluate. 1: evaluate. evaluate. }
  eassert (H2 : IQN_returned satisfied_IQN _).
  { eapply (IQN_returned_next _ _ _ _ _ H1).
    1: evaluate. 1: evaluate. 1: evaluate. evaluate. }
  eassert (H3 : IQN_returned satisfied_IQN _).
  { eapply (IQN_returned_next _ _ _ _ _ H2).
    1: evaluate. 1: evaluate. 1: evaluate. evaluate. }
  eexists. split; [exact H3|]. split; [reflexivity|]. split; [reflexivity|].
  exact (IQN_history_is_pruned (collaborators := still_collaborators true)
           (test_manager 2 2 false "unsteady") (test_view None) 3 1 10 (-1)
           1 2 false None tt _ eq_refl H3).
Defined.



(** ** The further properties on concrete objects *)



Lemma BGS_below_threshold_runs_fluid_only_witness :
  exists s',
    AlgorithmBGSStaticRelax_fsiCoupling warming_BGS = Some s'
    /\ 0 <= FSIIter s' <= 1
    /\ FSIConv s' = false
    /\ errValue s' = 1000000000000%R
    /\ interfaceInterpolator s' = interfaceInterpolator warming_BGS
    /\ omega s' = omega warming_BGS
    /\ solidInterfaceResidual s' = solidInterfaceResidual warming_BGS.
Proof.
  apply (BGS_below_threshold_runs_fluid_only warming_BGS).
  discriminate.
Defined.

Lemma IQN_without_history_keeps_V_W_witness :
  exists s',
    AlgorithmIQN_ILS_fsiCoupling fresh_IQN = Some s'
    /\ V s' = V fresh_IQN /\ W s' = W fresh_IQN
    /\ maxNbOfItReached s' = maxNbOfItReached fresh_IQN
    /\ convergenceReachedInOneIt s' = convergenceReachedInOneIt fresh_IQN.
Proof.
  apply (IQN_without_history_keeps_V_W fresh_IQN).
  right. reflexivity.
Defined.



Lemma run_raises_when_solid_exit_fails_witness :
  exists s1 s2 s3 l,
    run_prelude failing_exit_BGS = Some (Ok tt, s1)
    /\ run_try (lift_option AlgorithmBGSStaticRelax_fsiCoupling) 1 s1 =
       Some (Ok tt, s2)
    /\ run (lift_option AlgorithmBGSStaticRelax_fsiCoupling) 1
         failing_exit_BGS =
       Some (Raise (SolverError "the solid solver cannot exit"), s3)
    /\ out s3 = out s2 ++ l ++ [Called SolidSolver_exit]
    /\ ~ In (Called FluidSolver_exit) l.
Proof.
  eassert (H1 : run_prelude failing_exit_BGS = Some (Ok tt, _)) by evaluate.
  match type of H1 with
  | _ = Some (_, ?s1) =>
      eassert (H2 : run_try (lift_option AlgorithmBGSStaticRelax_fsiCoupling)
                      1 s1 = Some (Ok tt, _)) by evaluate
  end.
  match type of H2 with
  | _ = Some (_, ?s2) =>
      assert (Hown : owns_solid_solver s2 = true) by evaluate
  end.
  destruct (run_raises_when_solid_exit_fails
              (lift_option AlgorithmBGSStaticRelax_fsiCoupling) 1
              failing_exit_BGS _ _ (Ok tt)
              (SolverError "the solid solver cannot exit") H1 H2
              Hown (fun _ => eq_refl))
    as (s3 & l & Hrun & Hout & Hno).
  do 2 eexists. exists s3, l.
  split; [exact H1|]. split; [exact H2|]. split; [exact Hrun|].
  split; [exact Hout|exact Hno].
Defined.


Lemma unsteady_pass_bookkeeping_witness :
  exists s',
    unsteady_after_fsiCoupling (set_FSIIter 3 (set_timeIter 2 satisfied_BGS)) =
    Some (Ok tt, s')
    /\ timeIter s' = 3
    /\ totNbOfFSIIt s' = 3.
Proof.
  eassert (H : unsteady_after_fsiCoupling
                 (set_FSIIter 3 (set_timeIter 2 satisfied_BGS)) =
               Some (Ok tt, _)) by evaluate.
  eexists. split; [exact H|].
  destruct (unsteady_pass_bookkeeping _ _ H) as (H1 & _ & _ & _ & H5).
  split; [exact H1|exact H5].
Defined.

Lemma setRobinHeatFlux_with_mpi_witness :
  InterfaceInterpolator.setRobinHeatFluxToSolidSolver robin_interpolator_mpi
    [[290; 295]%R] [300; 310]%R 0%R =
  ([Called redistributeDataToSolidSolver;
    Called SolidSolver_getNodalTemperatures;
    Called (SolidSolver_applyNodalNormalHeatFluxes
              (PyArray (map (Rmult 2)
                          (py_array_sub [300; 310]%R [290; 295]%R)))
              0%R)],
   Ok tt).
Proof.
  exact (setRobinHeatFlux_with_mpi robin_interpolator_mpi
           {| Get_rank := 0; Get_size := 2 |} 2 [[290; 295]%R]
           [300; 310]%R 0%R eq_refl eq_refl).
Defined.

Lemma setRobinHeatFlux_without_mpi_witness :
  InterfaceInterpolator.setRobinHeatFluxToSolidSolver robin_interpolator
    [] [300; 310]%R 0%R =
  ([Called SolidSolver_getNodalTemperatures],
   Raise (TypeError "can't multiply sequence by non-int of type 'float'")).
Proof.
  exact (proj1 (setRobinHeatFlux_without_mpi robin_interpolator
                  (FlexInterfaceData.make 2 1) [] [300; 310]%R 0%R
                  eq_refl eq_refl) 1%R eq_refl).
Defined.

Lemma matching_init_allocates_thermal_fields_witness :
  exists self,
    snd (MatchingMeshesInterpolator.init (LA := test_algebra)
           (test_manager 2 2 true "unsteady") None (Some "hFFB")
           (PyFloat 1)) = Ok self
    /\ InterfaceInterpolator.solidInterfaceHeatFlux
         (MatchingMeshesInterpolator.base self) =
       Some (FlexInterfaceData.make 2 3)
    /\ InterfaceInterpolator.heatTransferCoeff
         (MatchingMeshesInterpolator.base self) = Some (PyFloat 1).
Proof.
  eassert (H : snd (MatchingMeshesInterpolator.init (LA := test_algebra)
                      (test_manager 2 2 true "unsteady") None (Some "hFFB")
                      (PyFloat 1)) = Ok _) by reflexivity.
  eexists. split; [exact H|].
  destruct (matching_init_allocates_thermal_fields (LA := test_algebra)
              (test_manager 2 2 true "unsteady") None (Some "hFFB")
              (PyFloat 1) _ eq_refl H) as (_ & H2 & _ & H4).
  split; [apply H2; reflexivity|exact H4].
Defined.
